(** * Long-audio transcription service: a shallow embedding of
      [long-audio-transcribe/app.py] and the properties of its
      split / dispatch / reassemble pipeline.

    Conventions of the model.
    - A Python [str] is a [string]; one [ascii] stands for one code point, so
      the model covers the code points below 256.  On that range
      [py_isspace] and [lower_char] are Python's own tables.
    - Python integers are [Z]; the float [len(audio) / 1000] is kept as the
      exact rational in [Q].
    - A Python [dict] or [set] is a [gmap] or [gset]; the upload directory is
      a [gmap] from path to file content.
    - Code that raises is a function into [result]; code that touches the
      file system or the network threads a [World]. *)

From stdpp Require Import base gmap sets list strings.
From Stdlib Require Import ZArith QArith Qround Lia Ascii.

Open Scope string_scope.
Open Scope Z_scope.
Open Scope list_scope.

(** ** Python string primitives *)

Module PyStr.

(** [str.isspace] for one code point below 256: TAB..CR, FS..US, SPACE,
    NEL and NBSP. *)
Definition py_isspace (c : ascii) : bool :=
  let n := Z.of_N (N_of_ascii c) in
  ((9 <=? n) && (n <=? 13)) || ((28 <=? n) && (n <=? 32))
  || (n =? 133) || (n =? 160).

(** [str.lower] for one code point below 256: A..Z and the Latin-1
    capitals (all of 0xC0..0xDE but the multiplication sign). *)
Definition lower_char (c : ascii) : ascii :=
  let n := Z.of_N (N_of_ascii c) in
  if ((65 <=? n) && (n <=? 90))
     || ((192 <=? n) && (n <=? 222) && negb (n =? 215))
  then ascii_of_N (Z.to_N (n + 32)) else c.

Fixpoint lower (s : string) : string :=
  match s with
  | EmptyString => EmptyString
  | String c r => String (lower_char c) (lower r)
  end.

(** [c in s] for a one-character [c]. *)
Fixpoint contains (c : ascii) (s : string) : bool :=
  match s with
  | EmptyString => false
  | String x r => if Ascii.eqb x c then true else contains c r
  end.

(** [s.rsplit(sep, 1)] for a one-character [sep]: the whole string when
    [sep] does not occur, otherwise what is before and what is after its
    last occurrence. *)
Fixpoint rsplit1 (sep : ascii) (s : string) : list string :=
  match s with
  | EmptyString => [EmptyString]
  | String c r =>
      match rsplit1 sep r with
      | [a; b] => [String c a; b]
      | _ => if Ascii.eqb c sep then [EmptyString; r] else [String c r]
      end
  end.

(** [s.lstrip()], [s.rstrip()] and [s.strip()] without argument. *)
Fixpoint lstrip (s : string) : string :=
  match s with
  | EmptyString => EmptyString
  | String c r => if py_isspace c then lstrip r else s
  end.

Fixpoint rstrip (s : string) : string :=
  match s with
  | EmptyString => EmptyString
  | String c r =>
      match rstrip r with
      | EmptyString => if py_isspace c then EmptyString else String c EmptyString
      | r' => String c r'
      end
  end.

Definition strip (s : string) : string := lstrip (rstrip s).

(** [sep.join(l)]. *)
Fixpoint join (sep : string) (l : list string) : string :=
  match l with
  | [] => EmptyString
  | [x] => x
  | x :: r => x +:+ sep +:+ join sep r
  end.

Definition startswith (c : ascii) (s : string) : bool :=
  match s with
  | String x _ => Ascii.eqb x c
  | EmptyString => false
  end.

Fixpoint endswith (c : ascii) (s : string) : bool :=
  match s with
  | EmptyString => false
  | String x EmptyString => Ascii.eqb x c
  | String _ r => endswith c r
  end.

Definition is_digit (c : ascii) : bool :=
  let n := Z.of_N (N_of_ascii c) in (48 <=? n) && (n <=? 57).

Definition digit_val (c : ascii) : Z := Z.of_N (N_of_ascii c) - 48.

(** The digits of an integer literal, read left to right with the value
    so far in [acc]; [prev_digit] tells whether the previous character was
    a digit, since an underscore is legal only between two digits. *)
Fixpoint parse_digits (s : string) (acc : Z) (prev_digit : bool) : option Z :=
  match s with
  | EmptyString => if prev_digit then Some acc else None
  | String c r =>
      if is_digit c then parse_digits r (10 * acc + digit_val c) true
      else if Ascii.eqb c "_" && prev_digit then
        match r with
        | String d _ => if is_digit d then parse_digits r acc false else None
        | EmptyString => None
        end
      else None
  end.

(** The whitespace [int] skips around a literal: C's [isspace] below 127
    (TAB..CR and SPACE, not FS..US) and, above, what [str.isspace] accepts
    (NEL and NBSP). *)
Definition int_isspace (c : ascii) : bool :=
  let n := Z.of_N (N_of_ascii c) in
  ((9 <=? n) && (n <=? 13)) || (n =? 32) || (n =? 133) || (n =? 160).

Fixpoint int_lstrip (s : string) : string :=
  match s with
  | EmptyString => EmptyString
  | String c r => if int_isspace c then int_lstrip r else s
  end.

Fixpoint int_rstrip (s : string) : string :=
  match s with
  | EmptyString => EmptyString
  | String c r =>
      match int_rstrip r with
      | EmptyString => if int_isspace c then EmptyString else String c EmptyString
      | r' => String c r'
      end
  end.

Definition int_strip (s : string) : string := int_lstrip (int_rstrip s).

(** The number of digit characters of a string. *)
Fixpoint count_digits (s : string) : Z :=
  match s with
  | EmptyString => 0
  | String c r => (if is_digit c then 1 else 0) + count_digits r
  end.

(** CPython's default limit on the digits of an integer literal and of the
    decimal form of an integer ([sys.get_int_max_str_digits()]). *)
Definition int_max_str_digits : Z := 4300.

(** An optional sign, then digits. *)
Definition parse_int_literal (t : string) : option Z :=
  match t with
  | String "+" r => parse_digits r 0 false
  | String "-" r => option_map Z.opp (parse_digits r 0 false)
  | t => parse_digits t 0 false
  end.

(** [int(s)] for a [str]: surrounding whitespace, an optional sign, then
    decimal digits, no more of them than the limit.  [None] is
    [ValueError]. *)
Definition py_int_of_str (s : string) : option Z :=
  let t := int_strip s in
  if int_max_str_digits <? count_digits t then None
  else parse_int_literal t.

End PyStr.

Import PyStr.

(** ** Configuration *)

(** The keys of [app.config] that [app.py] reads.  [UPLOAD_FOLDER] is always
    set (line 25); the others are read with [.get] and a default. *)
Record AppConfig := {
  cfg_UPLOAD_FOLDER : string;
  cfg_ALLOWED_EXTENSIONS : option (gset string);
  cfg_VLLM_WHISPER_URL : option string;
  cfg_REQUEST_TIMEOUT : option Z
}.

Definition UPLOAD_FOLDER : string := "uploads".
Definition ALLOWED_EXTENSIONS : gset string :=
  {[ "wav"; "mp3"; "m4a"; "flac"; "ogg" ]}.
Definition VLLM_WHISPER_URL : string :=
  "http://localhost:8000/v1/audio/transcriptions".

(** [app.config] as [app.py] leaves it when it is run directly. *)
Definition app_config : AppConfig := {|
  cfg_UPLOAD_FOLDER := UPLOAD_FOLDER;
  cfg_ALLOWED_EXTENSIONS := None;
  cfg_VLLM_WHISPER_URL := None;
  cfg_REQUEST_TIMEOUT := None
|}.

(** [app.config] after [run.py] has loaded a class of [config.py]; the three
    classes agree on these keys (the environment may change the URL). *)
Definition loaded_config (url : string) : AppConfig := {|
  cfg_UPLOAD_FOLDER := "uploads";
  cfg_ALLOWED_EXTENSIONS := Some {[ "wav"; "mp3"; "m4a"; "flac"; "ogg" ]};
  cfg_VLLM_WHISPER_URL := Some url;
  cfg_REQUEST_TIMEOUT := Some 60
|}.

(** The configurations the repository can run with. *)
Definition repo_config (cfg : AppConfig) : Prop :=
  cfg = app_config ∨ ∃ url, cfg = loaded_config url.

(** ** [allowed_file] (app.py, lines 31-35) *)

Definition allowed_file (cfg : AppConfig) (filename : string) : bool :=
  let allowed_extensions := default ALLOWED_EXTENSIONS (cfg_ALLOWED_EXTENSIONS cfg) in
  contains "." filename
  && match rsplit1 "." filename !! 1%nat with
     | Some ext => bool_decide (lower ext ∈ allowed_extensions)
     | None => false
     end.

(** ** Values, exceptions, results *)

(** The Python values that reach the handlers from a JSON body or a form
    field.  [PyFloat] is a finite float, [PyOther] a list or a dict. *)
Inductive pyval :=
| PyNone
| PyBool (b : bool)
| PyInt (z : Z)
| PyFloat (q : Q)
| PyStr (s : string)
| PyOther.

Inductive Exc :=
| ValueError
| TypeError
| AttributeError
| JSONDecodeError
| FileNotFoundError
| FileExistsError
| CouldntDecodeError
| OSError
| RequestException
| BadRequest
| KeyError.

Inductive result (A : Type) :=
| Ok (a : A)
| Raise (e : Exc).
Arguments Ok {A} a.
Arguments Raise {A} e.

(** [int(v)]. *)
Definition py_int (v : pyval) : result Z :=
  match v with
  | PyInt z => Ok z
  | PyBool b => Ok (if b then 1 else 0)
  | PyFloat q => Ok (Z.quot (Qnum q) (Zpos (Qden q)))
  | PyStr s => match py_int_of_str s with Some z => Ok z | None => Raise ValueError end
  | PyNone | PyOther => Raise TypeError
  end.

(** [v + s] for a [str] [s]: defined on [str] only. *)
Definition py_add_str (v : pyval) (s : string) : result string :=
  match v with
  | PyStr t => Ok (t +:+ s)
  | _ => Raise TypeError
  end.

(** [range(start, stop, step)] as the list it iterates over, with CPython's
    length formula; a zero step raises. *)
Definition range_len (start stop step : Z) : Z :=
  if 0 <? step then (if start <? stop then (stop - start - 1) / step + 1 else 0)
  else (if stop <? start then (start - stop - 1) / (- step) + 1 else 0).

Definition py_range (start stop step : Z) : result (list Z) :=
  if step =? 0 then Raise ValueError
  else Ok (map (λ k, start + Z.of_nat k * step)
               (seq 0 (Z.to_nat (range_len start stop step)))).

(** [os.path.join(a, b)] on a POSIX system. *)
Definition os_path_join (a b : string) : string :=
  if startswith "/" b then b
  else if String.eqb a "" || endswith "/" a then a +:+ b
  else a +:+ "/" +:+ b.

(** ** Audio (pydub's [AudioSegment]) *)

(** A decoded audio is a window of the source's timeline, in milliseconds:
    where it starts and how long it is.  [len(audio)] is its length. *)
Record Audio := { a_start : Z; a_len : N }.

Definition len (audio : Audio) : Z := Z.of_N (a_len audio).

(** [audio[i:j]] for [0 <= i]: both ends are clipped to [len(audio)]. *)
Definition audio_slice (audio : Audio) (i j : Z) : Audio :=
  let s := Z.min i (len audio) in
  let e := Z.min j (len audio) in
  {| a_start := a_start audio + s; a_len := Z.to_N (e - s) |}.

(** ** The world: upload directory and transcription endpoint *)

Inductive File :=
| Decodable (audio : Audio)
| Undecodable.

(** What [response.json()] finds in a body. *)
Inductive JsonBody :=
| NotJson
| JsonNonObject
| JsonObject (d : gmap string pyval).

Inductive HttpOutcome :=
| Timeout
| ConnectionError
| Response (status_code : Z) (body : JsonBody).

(** The state a request handler changes: the files on disk and the
    transcription requests posted so far, oldest first. *)
Record World := {
  fs : gmap string File;
  posted : list string
}.

(** What a handler finds around it and cannot change. *)
Record Env := {
  config : AppConfig;
  (** werkzeug's [secure_filename] *)
  secure_filename : string → string;
  (** the name [NamedTemporaryFile] tries in a directory with these files *)
  mktemp : gset string → string;
  (** whether writing the [n]-th segment of a split fails *)
  export_fails : nat → bool;
  (** what a failed write of the [n]-th segment leaves in its file *)
  export_leaves : nat → File;
  (** the outcome of the [n]-th transcription request *)
  endpoint : nat → HttpOutcome;
  (** the body that [requests.get] and [iter_content] deliver for a URL;
      [None] when the download does not go through *)
  download : pyval → option File;
  (** for a download that does not go through: what the temporary file
      holds once [iter_content] has raised part-way, or [None] when
      [requests.get] or [raise_for_status] raised, before that file is
      created *)
  partial_download : pyval → option File
}.

(** [NamedTemporaryFile] opens its file with [O_EXCL], so the name it returns
    was not taken: an environment whose names are always free. *)
Definition fresh_names (env : Env) : Prop := ∀ X : gset string, mktemp env X ∉ X.

(** ** A state and exception monad for the handlers *)

Definition M (A : Type) : Type := World → result A * World.

Definition ret {A} (a : A) : M A := λ w, (Ok a, w).
Definition raise {A} (e : Exc) : M A := λ w, (Raise e, w).
Definition lift {A} (r : result A) : M A := λ w, (r, w).

Definition bind {A B} (m : M A) (k : A → M B) : M B :=
  λ w, match m w with
       | (Ok a, w') => k a w'
       | (Raise e, w') => (Raise e, w')
       end.

(** [try: m  except Exception as e: h e]. *)
Definition try_except {A} (m : M A) (h : Exc → M A) : M A :=
  λ w, match m w with
       | (Ok a, w') => (Ok a, w')
       | (Raise e, w') => h e w'
       end.

Notation "x <- m ;; k" := (bind m (λ x, k))
  (at level 100, m at next level, right associativity).
Notation "m ;;; k" := (bind m (λ _, k))
  (at level 100, right associativity).

(** *** File-system and network primitives *)

Definition set_fs (w : World) (f : gmap string File) : World :=
  {| fs := f; posted := posted w |}.

(** [AudioSegment.from_file(path)]. *)
Definition from_file (path : string) : M Audio :=
  λ w, match fs w !! path with
       | Some (Decodable audio) => (Ok audio, w)
       | Some Undecodable => (Raise CouldntDecodeError, w)
       | None => (Raise FileNotFoundError, w)
       end.

Definition os_path_exists (path : string) : M bool :=
  λ w, (Ok (bool_decide (is_Some (fs w !! path))), w).

Definition os_unlink (path : string) : M unit :=
  λ w, match fs w !! path with
       | Some _ => (Ok tt, set_fs w (delete path (fs w)))
       | None => (Raise FileNotFoundError, w)
       end.

(** Writing a whole file: [file.save], [chunk.export], [temp_file.write]. *)
Definition write_file (path : string) (content : File) : M unit :=
  λ w, (Ok tt, set_fs w (<[path := content]> (fs w))).

(** [tempfile.NamedTemporaryFile(suffix='.wav', delete=False, dir=...)]: an
    empty file under a name that was free; the result is [temp_file.name]. *)
Definition NamedTemporaryFile (env : Env) : M string :=
  λ w, let name := mktemp env (dom (fs w)) in
       match fs w !! name with
       | Some _ => (Raise FileExistsError, w)
       | None => (Ok name, set_fs w (<[name := Undecodable]> (fs w)))
       end.

(** [chunk.export(name, format='wav')] for the [n]-th segment; a write that
    fails leaves what it had written. *)
Definition export (env : Env) (n : nat) (chunk : Audio) (name : string) : M unit :=
  if export_fails env n then (write_file name (export_leaves env n) ;;; raise OSError)
  else write_file name (Decodable chunk).

(** [open(path, 'rb')] then [requests.post(url, files=..., timeout=...)]. *)
Definition requests_post (env : Env) (path : string) : M (Z * JsonBody) :=
  λ w, match fs w !! path with
       | None => (Raise FileNotFoundError, w)
       | Some _ =>
           let w' := {| fs := fs w; posted := posted w ++ [path] |} in
           match endpoint env (length (posted w)) with
           | Timeout | ConnectionError => (Raise RequestException, w')
           | Response status_code body => (Ok (status_code, body), w')
           end
       end.

(** [response.json()] then [result.get('text', '')]. *)
Definition json_get_text (body : JsonBody) : result pyval :=
  match body with
  | NotJson => Raise JSONDecodeError
  | JsonNonObject => Raise AttributeError
  | JsonObject d => Ok (default (PyStr "") (d !! "text"))
  end.

(** ** Requests and responses *)

(** An uploaded file: the name the client gave and the bytes it sent. *)
Record FileStorage := { filename : string; stream : File }.

(** [request.files] and [request.form] of a POST to [/transcribe]. *)
Record UploadRequest := {
  files : gmap string FileStorage;
  form : gmap string string
}.

(** [request.get_json()] of a POST to [/transcribe_url]: it raises on a body
    that is not JSON, and otherwise returns the value of the body: [null],
    a boolean, a number, a string, an array or an object. *)
Inductive JsonData :=
| GetJsonRaises
| JsonNull
| JsonBool (b : bool)
| JsonInt (z : Z)
| JsonFloat (q : Q)
| JsonString (s : string)
| JsonList (items : list pyval)
| JsonDict (data : gmap string pyval).

(** [v == key] for a [str] [key]. *)
Definition is_str (key : string) (v : pyval) : bool :=
  match v with
  | PyStr s => String.eqb s key
  | _ => false
  end.

Fixpoint is_prefix (p s : string) : bool :=
  match p, s with
  | EmptyString, _ => true
  | String a p', String b s' => Ascii.eqb a b && is_prefix p' s'
  | String _ _, EmptyString => false
  end.

(** [p in s] for two strings. *)
Fixpoint str_contains (p s : string) : bool :=
  is_prefix p s
  || match s with
     | EmptyString => false
     | String _ r => str_contains p r
     end.

(** [not data]: [None], [False], zero, and the empty string, list and dict
    are false. *)
Definition py_not (data : JsonData) : bool :=
  match data with
  | GetJsonRaises => false
  | JsonNull => true
  | JsonBool b => negb b
  | JsonInt z => z =? 0
  | JsonFloat q => Qnum q =? 0
  | JsonString s => String.eqb s ""
  | JsonList items => match items with [] => true | _ => false end
  | JsonDict data => Nat.eqb (size data) 0
  end.

(** [key in data]: a key of a dict, an element of a list, a substring of a
    string; [TypeError] on what is not a container. *)
Definition py_in (key : string) (data : JsonData) : result bool :=
  match data with
  | JsonDict data => Ok (bool_decide (is_Some (data !! key)))
  | JsonList items => Ok (existsb (is_str key) items)
  | JsonString s => Ok (str_contains key s)
  | _ => Raise TypeError
  end.

(** [data[key]] for a [str] [key]: defined on a dict only. *)
Definition py_getitem (key : string) (data : JsonData) : result pyval :=
  match data with
  | JsonDict data =>
      match data !! key with
      | Some v => Ok v
      | None => Raise KeyError
      end
  | _ => Raise TypeError
  end.

(** [data.get(key, fallback)]: a method of dicts only. *)
Definition py_get (key : string) (fallback : pyval) (data : JsonData) : result pyval :=
  match data with
  | JsonDict data => Ok (default fallback (data !! key))
  | _ => Raise AttributeError
  end.

Record SegmentResult := {
  segment_id : Z;
  seg_text : pyval;
  start_time : Z;
  end_time : Z
}.

Record TranscriptionResult := {
  success : bool;
  text : string;
  segments : list SegmentResult;
  duration : Q;
  chunk_count : Z;
  chunk_duration : Z
}.

(** The [error] strings of the handlers; the last two carry [str(e)]. *)
Inductive ErrorMsg :=
| NoFileUploaded
| NoFileSelected
| UnsupportedFormat
| MissingAudioUrl
| TranscribeFailed (e : Exc)
| ServerError (e : Exc).

Inductive Body :=
| ErrorBody (error : ErrorMsg)
| ResultBody (r : TranscriptionResult).

(** A Flask response: the JSON body and the status code. *)
Definition FlaskResponse : Type := Body * Z.

(** [return jsonify(...)] without a status is a 200. *)
Definition jsonify (b : Body) : FlaskResponse := (b, 200).

Definition status (r : FlaskResponse) : Z := snd r.

(** ** [split_audio] (app.py, lines 37-79) *)

(** The body of the [for i in range(...)] loop, over the offsets left. *)
Fixpoint split_loop (env : Env) (audio : Audio) (chunk_duration_ms : Z)
    (offsets : list Z) (temp_files : list string) : M (list string) :=
  match offsets with
  | [] => ret temp_files
  | i :: offsets' =>
      let chunk := audio_slice audio i (i + chunk_duration_ms) in
      temp_file <- NamedTemporaryFile env ;;
      (export env (length temp_files) chunk temp_file ;;;
       split_loop env audio chunk_duration_ms offsets' (temp_files ++ [temp_file]))
  end.

Definition split_audio (env : Env) (audio_path : string) (chunk_duration : Z)
  : M (list string) :=
  try_except
    (audio <- from_file audio_path ;;
     let chunk_duration_ms := chunk_duration * 1000 in
     offsets <- lift (py_range 0 (len audio) chunk_duration_ms) ;;
     split_loop env audio chunk_duration_ms offsets [])
    (λ e, raise e).

(** ** [transcribe_chunk] (app.py, lines 81-113) *)

Definition transcribe_chunk (env : Env) (audio_file_path : string) : M pyval :=
  try_except
    (response <- requests_post env audio_file_path ;;
     if fst response =? 200 then lift (json_get_text (snd response))
     else ret (PyStr ""))
    (λ _, ret (PyStr "")).

(** ** [cleanup_temp_files] (app.py, lines 115-123) *)

Fixpoint cleanup_temp_files (temp_files : list string) : M unit :=
  match temp_files with
  | [] => ret tt
  | temp_file :: rest =>
      (try_except
         (present <- os_path_exists temp_file ;;
          if present : bool then os_unlink temp_file else ret tt)
         (λ _, ret tt)) ;;;
      cleanup_temp_files rest
  end.

(** ** The transcription loop (app.py, lines 174-188 and 266-280) *)

(** [for i, temp_file in enumerate(temp_files)], from index [i] on, with the
    [segments] and [full_text] built so far. *)
Fixpoint transcribe_loop (env : Env) (chunk_duration : Z) (i : Z)
    (temp_files : list string) (segments : list SegmentResult)
    (full_text : string) : M (list SegmentResult * string) :=
  match temp_files with
  | [] => ret (segments, full_text)
  | temp_file :: rest =>
      txt <- transcribe_chunk env temp_file ;;
      let segments := segments ++ [ {| segment_id := i + 1;
                                      seg_text := txt;
                                      start_time := i * chunk_duration;
                                      end_time := (i + 1) * chunk_duration |} ] in
      piece <- lift (py_add_str txt " ") ;;
      transcribe_loop env chunk_duration (i + 1) rest segments (full_text +:+ piece)
  end.

Definition success_body (full_text : string) (segments : list SegmentResult)
    (total_duration : Q) (chunk_duration : Z) : Body :=
  ResultBody {| success := true;
                text := strip full_text;
                segments := segments;
                duration := total_duration;
                chunk_count := Z.of_nat (length segments);
                chunk_duration := chunk_duration |}.

(** [except Exception as e: ... return jsonify(error), 500] around a whole
    handler. *)
Definition outer_try (m : M FlaskResponse) : World → FlaskResponse * World :=
  λ w, match m w with
       | (Ok r, w') => (r, w')
       | (Raise e, w') => ((ErrorBody (ServerError e), 500), w')
       end.

(** ** [transcribe_audio] (app.py, lines 133-223) *)

(** Lines 173-207: the [try] body once [temp_files] is bound. *)
Definition upload_after_split (env : Env) (file_path : string)
    (chunk_duration : Z) (temp_files : list string) : M FlaskResponse :=
  r <- transcribe_loop env chunk_duration 0 temp_files [] "" ;;
  (cleanup_temp_files temp_files ;;;
   (audio <- from_file file_path ;;
    let total_duration := len audio # 1000 in
    (os_unlink file_path ;;;
     ret (jsonify (success_body (snd r) (fst r) total_duration chunk_duration))))).

(** Lines 209-219: the handler; [temp_files] is [None] when the name is not
    bound yet, which is what ['temp_files' in locals()] tests. *)
Definition upload_except (file_path : string) (temp_files : option (list string))
    (e : Exc) : M FlaskResponse :=
  (match temp_files with
   | Some l => cleanup_temp_files l
   | None => ret tt
   end) ;;;
  (present <- os_path_exists file_path ;;
   ((if present : bool then os_unlink file_path else ret tt) ;;;
    ret (ErrorBody (TranscribeFailed e), 500))).

(** Lines 169-219: the inner [try]. *)
Definition upload_pipeline (env : Env) (file_path : string) (chunk_duration : Z)
  : M FlaskResponse :=
  λ w, match split_audio env file_path chunk_duration w with
       | (Raise e, w1) => upload_except file_path None e w1
       | (Ok temp_files, w1) =>
           try_except (upload_after_split env file_path chunk_duration temp_files)
                      (upload_except file_path (Some temp_files)) w1
       end.

Definition transcribe_audio (env : Env) (request : UploadRequest)
  : World → FlaskResponse * World :=
  outer_try
    (match files request !! "file" with
     | None => ret (ErrorBody NoFileUploaded, 400)
     | Some file =>
         if String.eqb (filename file) "" then ret (ErrorBody NoFileSelected, 400)
         else if negb (allowed_file (config env) (filename file))
         then ret (ErrorBody UnsupportedFormat, 400)
         else
           chunk_duration <-
             lift (py_int (default (PyInt 30) (PyStr <$> form request !! "chunk_duration"))) ;;
           let filename := secure_filename env (filename file) in
           let file_path := os_path_join (cfg_UPLOAD_FOLDER (config env)) filename in
           (write_file file_path (stream file) ;;;
            upload_pipeline env file_path chunk_duration)
     end).

(** ** [transcribe_audio_url] (app.py, lines 225-310) *)

(** Lines 265-297. *)
Definition url_after_split (env : Env) (temp_file : string)
    (chunk_duration : Z) (temp_files : list string) : M FlaskResponse :=
  r <- transcribe_loop env chunk_duration 0 temp_files [] "" ;;
  (cleanup_temp_files temp_files ;;;
   (os_unlink temp_file ;;;
    (audio <- from_file temp_file ;;
     let total_duration := len audio # 1000 in
     ret (jsonify (success_body (snd r) (fst r) total_duration chunk_duration))))).

(** Lines 299-306. *)
Definition url_except (temp_file : string) (temp_files : option (list string))
    (e : Exc) : M FlaskResponse :=
  (match temp_files with
   | Some l => cleanup_temp_files l
   | None => ret tt
   end) ;;;
  (os_unlink temp_file ;;;
   ret (ErrorBody (TranscribeFailed e), 500)).

(** Lines 261-306. *)
Definition url_pipeline (env : Env) (temp_file : string) (chunk_duration : Z)
  : M FlaskResponse :=
  λ w, match split_audio env temp_file chunk_duration w with
       | (Raise e, w1) => url_except temp_file None e w1
       | (Ok temp_files, w1) =>
           try_except (url_after_split env temp_file chunk_duration temp_files)
                      (url_except temp_file (Some temp_files)) w1
       end.

(** A streamed response whose status was accepted: the body that
    [iter_content] will deliver, whole, or the part that reaches the
    temporary file before it raises. *)
Inductive StreamedBody :=
| WholeBody (content : File)
| BrokenBody (partial : File).

(** [requests.get(audio_url, stream=True)] and [raise_for_status()]
    (lines 246-247): with [stream=True] the body is not read yet. *)
Definition requests_get (env : Env) (audio_url : pyval) : M StreamedBody :=
  match download env audio_url with
  | Some content => ret (WholeBody content)
  | None =>
      match partial_download env audio_url with
      | Some partial => ret (BrokenBody partial)
      | None => raise RequestException
      end
  end.

(** [for chunk in response.iter_content(...): temp_file.write(chunk)] and
    [temp_file.close()] (lines 256-259): what arrives is written, and a body
    that breaks raises after that. *)
Definition save_body (response : StreamedBody) (temp_file : string) : M unit :=
  match response with
  | WholeBody content => write_file temp_file content
  | BrokenBody partial => (write_file temp_file partial ;;; raise RequestException)
  end.

Definition transcribe_audio_url (env : Env) (request : JsonData)
  : World → FlaskResponse * World :=
  outer_try
    (match request with
     | GetJsonRaises => raise BadRequest
     | data =>
         if py_not data then ret (ErrorBody MissingAudioUrl, 400)
         else
           present <- lift (py_in "audio_url" data) ;;
           if negb present then ret (ErrorBody MissingAudioUrl, 400)
           else
             audio_url <- lift (py_getitem "audio_url" data) ;;
             chunk_arg <- lift (py_get "chunk_duration" (PyInt 30) data) ;;
             chunk_duration <- lift (py_int chunk_arg) ;;
             response <- requests_get env audio_url ;;
             temp_file <- NamedTemporaryFile env ;;
             (save_body response temp_file ;;;
              url_pipeline env temp_file chunk_duration)
     end).

(** ** Definitions used to state the properties *)

(** What [transcribe_chunk] makes of the outcome of its request. *)
Definition absorbed_text (o : HttpOutcome) : pyval :=
  match o with
  | Response status_code (JsonObject d) =>
      if status_code =? 200 then default (PyStr "") (d !! "text") else PyStr ""
  | _ => PyStr ""
  end.

(** A failed transcription call: no answer, or an answer that is not a 200. *)
Definition failed_call (o : HttpOutcome) : Prop :=
  match o with
  | Timeout | ConnectionError => True
  | Response status_code _ => status_code ≠ 200
  end.

Definition post (w : World) (path : string) : World :=
  {| fs := fs w; posted := posted w ++ [path] |}.


(** The transcription loop on the texts the calls return: the same steps as
    [transcribe_loop] without the world. *)
Fixpoint assemble (chunk_duration : Z) (i : Z) (texts : list pyval)
    (segments : list SegmentResult) (full_text : string)
  : result (list SegmentResult * string) :=
  match texts with
  | [] => Ok (segments, full_text)
  | txt :: rest =>
      let segments := segments ++ [ {| segment_id := i + 1;
                                      seg_text := txt;
                                      start_time := i * chunk_duration;
                                      end_time := (i + 1) * chunk_duration |} ] in
      match py_add_str txt " " with
      | Ok piece => assemble chunk_duration (i + 1) rest segments (full_text +:+ piece)
      | Raise e => Raise e
      end
  end.

(** The texts that [n] transcription calls return when [base] requests were
    posted before them. *)
Definition run_texts (env : Env) (base n : nat) : list pyval :=
  map (λ j, absorbed_text (endpoint env (base + j)%nat)) (seq 0 n).

(** The segment list for the texts [ts], numbered from index [i]. *)
Fixpoint segment_list (chunk_duration : Z) (i : Z) (ts : list string)
  : list SegmentResult :=
  match ts with
  | [] => []
  | t :: rest =>
      {| segment_id := i + 1;
         seg_text := PyStr t;
         start_time := i * chunk_duration;
         end_time := (i + 1) * chunk_duration |}
      :: segment_list chunk_duration (i + 1) rest
  end.

(** Every text followed by one space: [full_text] after the loop. *)
Fixpoint trailing (ts : list string) : string :=
  match ts with
  | [] => ""
  | t :: rest => (t +:+ " ") +:+ trailing rest
  end.

(** Where [transcribe_audio] stages an upload. *)
Definition upload_path (env : Env) (file : FileStorage) : string :=
  os_path_join (cfg_UPLOAD_FOLDER (config env)) (secure_filename env (filename file)).

(** The [chunk_duration] argument of an upload, before [int(...)]. *)
Definition upload_chunk_arg (request : UploadRequest) : pyval :=
  default (PyInt 30) (PyStr <$> form request !! "chunk_duration").

(** The files on disk once [l] has been cleaned up. *)
Definition removed (l : list string) (f : gmap string File) : gmap string File :=
  foldl (λ f p, delete p f) f l.

(** The same environment with another endpoint. *)
Definition with_endpoint (env : Env) (ep : nat → HttpOutcome) : Env :=
  {| config := config env;
     secure_filename := secure_filename env;
     mktemp := mktemp env;
     export_fails := export_fails env;
     export_leaves := export_leaves env;
     endpoint := ep;
     download := download env;
     partial_download := partial_download env |}.

(** The endpoint [ep] with the outcome of request number [n] replaced. *)
Definition override (ep : nat → HttpOutcome) (n : nat) (o : HttpOutcome)
  : nat → HttpOutcome :=
  λ m, if Nat.eqb m n then o else ep m.

(** *** A sample run: 95 seconds of audio, 30-second chunks *)

Definition sample_audio : Audio := {| a_start := 0; a_len := 95000 |}.

Definition said (s : string) : HttpOutcome :=
  Response 200 (JsonObject {[ "text" := PyStr s ]}).

Definition sample_env : Env :=
  {| config := app_config;
     secure_filename := λ s, s;
     mktemp := fresh;
     export_fails := λ _, false;
     export_leaves := λ _, Undecodable;
     endpoint := λ n, said (if Nat.even n then "hello" else "world");
     download := λ _, Some (Decodable sample_audio);
     partial_download := λ _, None |}.

Definition empty_world : World := {| fs := ∅; posted := [] |}.

Definition sample_upload (chunk : string) : UploadRequest :=
  {| files := {[ "file" := {| filename := "talk.WAV"; stream := Decodable sample_audio |} ]};
     form := {[ "chunk_duration" := chunk ]} |}.

Definition sample_url_request : JsonData :=
  JsonDict {[ "audio_url" := PyStr "http://host/talk.wav";
              "chunk_duration" := PyInt 30 ]}.

(** *** Malformed requests *)

(** No file part in the upload, or a file part without a name. *)
Definition missing_file (request : UploadRequest) : Prop :=
  files request !! "file" = None
  ∨ ∃ file, files request !! "file" = Some file ∧ filename file = "".

(** A file whose name [allowed_file] refuses. *)
Definition bad_extension (cfg : AppConfig) (request : UploadRequest) : Prop :=
  ∃ file, files request !! "file" = Some file
          ∧ allowed_file cfg (filename file) = false.

(** A request that carries no [audio_url]: anything but an object with that
    key, a body that is not JSON included. *)
Definition missing_url (request : JsonData) : Prop :=
  ∀ data, request = JsonDict data → data !! "audio_url" = None.

(** The bodies on which the test of line 237 or the lookup of line 240
    raises: no JSON at all, [true] or a number other than 0 (not iterable),
    and an array or a string that contains ["audio_url"] (no [str] index). *)
Definition url_check_raises (request : JsonData) : Prop :=
  match request with
  | GetJsonRaises => True
  | JsonBool b => b = true
  | JsonInt z => z ≠ 0
  | JsonFloat q => Qnum q ≠ 0
  | JsonString s => str_contains "audio_url" s = true
  | JsonList items => existsb (is_str "audio_url") items = true
  | JsonNull | JsonDict _ => False
  end.

(** A value that [int(...)] does not convert. *)
Definition not_an_integer (v : pyval) : Prop := ∃ e, py_int v = Raise e.

(** The [chunk_duration] argument of a URL request, before [int(...)]. *)
Definition url_chunk_arg (data : gmap string pyval) : pyval :=
  default (PyInt 30) (data !! "chunk_duration").

Definition is_4xx (st : Z) : Prop := 400 ≤ st < 500.

(** The stronger reading of the error taxonomy: every malformed request, a chunk duration that
    is not an integer included, is answered with a 4xx status. *)
Definition malformed_requests_get_4xx : Prop :=
  (∀ env request w,
     missing_file request ∨ bad_extension (config env) request
     ∨ not_an_integer (upload_chunk_arg request) →
     is_4xx (status (fst (transcribe_audio env request w))))
  ∧ (∀ env request w,
       missing_url request
       ∨ (∃ data, request = JsonDict data ∧ not_an_integer (url_chunk_arg data)) →
       is_4xx (status (fst (transcribe_audio_url env request w)))).

(** *** A run whose third segment cannot be written: the write fails at once
    and leaves a file that does not decode *)

Definition disk_full_env : Env :=
  {| config := app_config;
     secure_filename := λ s, s;
     mktemp := fresh;
     export_fails := λ n, Nat.eqb n 2;
     export_leaves := λ _, Undecodable;
     endpoint := λ _, said "hello";
     download := λ _, Some (Decodable sample_audio);
     partial_download := λ _, None |}.

(** *** Worlds and values of the sample runs *)

(** The upload directory once the sample upload is staged. *)
Definition staged_world : World :=
  {| fs := {[ "uploads/talk.WAV" := Decodable sample_audio ]}; posted := [] |}.

(** What the sample upload is answered with. *)
Definition sample_result : TranscriptionResult :=
  {| success := true;
     text := "hello world hello world";
     segments :=
       [ {| segment_id := 1; seg_text := PyStr "hello"; start_time := 0; end_time := 30 |};
         {| segment_id := 2; seg_text := PyStr "world"; start_time := 30; end_time := 60 |};
         {| segment_id := 3; seg_text := PyStr "hello"; start_time := 60; end_time := 90 |};
         {| segment_id := 4; seg_text := PyStr "world"; start_time := 90; end_time := 120 |} ];
     duration := 95000 # 1000;
     chunk_count := 4;
     chunk_duration := 30 |}.

(** The world the sample upload leaves. *)
Definition sample_final : World :=
  snd (transcribe_audio sample_env (sample_upload "30") empty_world).

Definition text_upload : UploadRequest :=
  {| files := {[ "file" := {| filename := "notes.txt"; stream := Undecodable |} ]};
     form := ∅ |}.

Definition no_url_request : JsonData :=
  JsonDict {[ "chunk_duration" := PyInt 30 ]}.

Definition bad_chunk_url_request : JsonData :=
  JsonDict {[ "audio_url" := PyStr "http://host/talk.wav";
              "chunk_duration" := PyStr "half a minute" ]}.

(** The JSON body [5], and the JSON body [["audio_url"]]. *)
Definition number_url_request : JsonData := JsonInt 5.

Definition array_url_request : JsonData := JsonList [PyStr "audio_url"].

(** *** Worlds of the further properties *)

(** An upload directory with two segment files and an unrelated file. *)
Definition littered_world : World :=
  {| fs := {[ "uploads/tmp1.wav" := Decodable {| a_start := 0; a_len := 30000 |};
              "uploads/tmp2.wav" := Undecodable;
              "uploads/keep.wav" := Decodable sample_audio ]};
     posted := ["uploads/tmp1.wav"] |}.

Definition corrupt_upload : UploadRequest :=
  {| files := {[ "file" := {| filename := "noise.mp3"; stream := Undecodable |} ]};
     form := ∅ |}.

Definition corrupt_url_env : Env :=
  {| config := app_config;
     secure_filename := λ s, s;
     mktemp := fresh;
     export_fails := λ _, false;
     export_leaves := λ _, Undecodable;
     endpoint := λ _, said "hello";
     download := λ _, Some Undecodable;
     partial_download := λ _, None |}.

(** An endpoint that answers the second request with a JSON [null] text. *)
Definition null_text_env : Env :=
  {| config := app_config;
     secure_filename := λ s, s;
     mktemp := fresh;
     export_fails := λ _, false;
     export_leaves := λ _, Undecodable;
     endpoint := λ n, if Nat.eqb n 1
                      then Response 200 (JsonObject {[ "text" := PyNone ]})
                      else said "hello";
     download := λ _, Some (Decodable sample_audio);
     partial_download := λ _, None |}.

(** An endpoint that is down. *)
Definition unreachable_env : Env :=
  {| config := app_config;
     secure_filename := λ s, s;
     mktemp := fresh;
     export_fails := λ _, false;
     export_leaves := λ _, Undecodable;
     endpoint := λ _, ConnectionError;
     download := λ _, Some (Decodable sample_audio);
     partial_download := λ _, None |}.

Definition silent_result : TranscriptionResult :=
  {| success := true;
     text := "";
     segments :=
       [ {| segment_id := 1; seg_text := PyStr ""; start_time := 0; end_time := 30 |};
         {| segment_id := 2; seg_text := PyStr ""; start_time := 30; end_time := 60 |};
         {| segment_id := 3; seg_text := PyStr ""; start_time := 60; end_time := 90 |};
         {| segment_id := 4; seg_text := PyStr ""; start_time := 90; end_time := 120 |} ];
     duration := 95000 # 1000;
     chunk_count := 4;
     chunk_duration := 30 |}.

Definition empty_audio : Audio := {| a_start := 0; a_len := 0 |}.

Definition empty_upload : UploadRequest :=
  {| files := {[ "file" := {| filename := "silence.ogg"; stream := Decodable empty_audio |} ]};
     form := {[ "chunk_duration" := "45" ]} |}.

(** A sample upload that does not say how long the chunks are. *)
Definition plain_upload : UploadRequest :=
  {| files := {[ "file" := {| filename := "talk.WAV"; stream := Decodable sample_audio |} ]};
     form := ∅ |}.

(** ** [config.py] *)

Module ConfigPy.

(** The attributes of a configuration class.  [DEBUG] and [TESTING] are not
    defined on every class. *)
Record ConfigClass := {
  SECRET_KEY : string;
  MAX_CONTENT_LENGTH : Z;
  UPLOAD_FOLDER : string;
  ALLOWED_EXTENSIONS : gset string;
  VLLM_WHISPER_URL : string;
  DEFAULT_CHUNK_DURATION : Z;
  MAX_CHUNK_DURATION : Z;
  REQUEST_TIMEOUT : Z;
  LOG_LEVEL : string;
  DEBUG : option bool;
  TESTING : option bool
}.

(** [os.environ.get(key) or fallback]: an unset variable and an empty one
    both give the fallback. *)
Definition environ_or (environ : gmap string string) (key fallback : string) : string :=
  match environ !! key with
  | Some s => if String.eqb s "" then fallback else s
  | None => fallback
  end.

(** [class Config] (lines 3-25), evaluated under the environment [environ]. *)
Definition Config (environ : gmap string string) : ConfigClass :=
  {| SECRET_KEY := environ_or environ "SECRET_KEY" "your-secret-key-here";
     MAX_CONTENT_LENGTH := 100 * 1024 * 1024;
     UPLOAD_FOLDER := "uploads";
     ALLOWED_EXTENSIONS := {[ "wav"; "mp3"; "m4a"; "flac"; "ogg" ]};
     VLLM_WHISPER_URL :=
       environ_or environ "VLLM_WHISPER_URL"
         "http://localhost:8000/v1/audio/transcriptions";
     DEFAULT_CHUNK_DURATION := 30;
     MAX_CHUNK_DURATION := 60;
     REQUEST_TIMEOUT := 60;
     LOG_LEVEL := environ_or environ "LOG_LEVEL" "INFO";
     DEBUG := None;
     TESTING := None |}.

Definition set_DEBUG (b : bool) (c : ConfigClass) : ConfigClass :=
  {| SECRET_KEY := SECRET_KEY c;
     MAX_CONTENT_LENGTH := MAX_CONTENT_LENGTH c;
     UPLOAD_FOLDER := UPLOAD_FOLDER c;
     ALLOWED_EXTENSIONS := ALLOWED_EXTENSIONS c;
     VLLM_WHISPER_URL := VLLM_WHISPER_URL c;
     DEFAULT_CHUNK_DURATION := DEFAULT_CHUNK_DURATION c;
     MAX_CHUNK_DURATION := MAX_CHUNK_DURATION c;
     REQUEST_TIMEOUT := REQUEST_TIMEOUT c;
     LOG_LEVEL := LOG_LEVEL c;
     DEBUG := Some b;
     TESTING := TESTING c |}.

Definition set_TESTING (b : bool) (c : ConfigClass) : ConfigClass :=
  {| SECRET_KEY := SECRET_KEY c;
     MAX_CONTENT_LENGTH := MAX_CONTENT_LENGTH c;
     UPLOAD_FOLDER := UPLOAD_FOLDER c;
     ALLOWED_EXTENSIONS := ALLOWED_EXTENSIONS c;
     VLLM_WHISPER_URL := VLLM_WHISPER_URL c;
     DEFAULT_CHUNK_DURATION := DEFAULT_CHUNK_DURATION c;
     MAX_CHUNK_DURATION := MAX_CHUNK_DURATION c;
     REQUEST_TIMEOUT := REQUEST_TIMEOUT c;
     LOG_LEVEL := LOG_LEVEL c;
     DEBUG := DEBUG c;
     TESTING := Some b |}.

Definition set_MAX_CONTENT_LENGTH (n : Z) (c : ConfigClass) : ConfigClass :=
  {| SECRET_KEY := SECRET_KEY c;
     MAX_CONTENT_LENGTH := n;
     UPLOAD_FOLDER := UPLOAD_FOLDER c;
     ALLOWED_EXTENSIONS := ALLOWED_EXTENSIONS c;
     VLLM_WHISPER_URL := VLLM_WHISPER_URL c;
     DEFAULT_CHUNK_DURATION := DEFAULT_CHUNK_DURATION c;
     MAX_CHUNK_DURATION := MAX_CHUNK_DURATION c;
     REQUEST_TIMEOUT := REQUEST_TIMEOUT c;
     LOG_LEVEL := LOG_LEVEL c;
     DEBUG := DEBUG c;
     TESTING := TESTING c |}.

(** The subclasses (lines 27-41): each inherits [Config] and overrides. *)
Definition DevelopmentConfig (environ : gmap string string) : ConfigClass :=
  set_DEBUG true (Config environ).

Definition ProductionConfig (environ : gmap string string) : ConfigClass :=
  set_MAX_CONTENT_LENGTH (50 * 1024 * 1024) (set_DEBUG false (Config environ)).

Definition TestingConfig (environ : gmap string string) : ConfigClass :=
  set_DEBUG true (set_TESTING true (Config environ)).

(** The [config] dictionary (lines 44-49). *)
Definition config (environ : gmap string string) : gmap string ConfigClass :=
  {[ "development" := DevelopmentConfig environ;
     "production" := ProductionConfig environ;
     "testing" := TestingConfig environ;
     "default" := DevelopmentConfig environ ]}.

End ConfigPy.

(** ** [run.py] *)

Module RunPy.

(** How [main] ends up: [sys.exit(1)], an exception nobody catches, or the
    call of [app.run] with the configuration it loaded and its [debug]
    flag. *)
Inductive Startup :=
| Exit (code : Z)
| Uncaught (e : Exc)
| Run (cfg : AppConfig) (debug : bool).

(** [app.config.from_object(obj)], on the keys that [app.py] reads. *)
Definition from_object (obj : ConfigPy.ConfigClass) : AppConfig :=
  {| cfg_UPLOAD_FOLDER := ConfigPy.UPLOAD_FOLDER obj;
     cfg_ALLOWED_EXTENSIONS := Some (ConfigPy.ALLOWED_EXTENSIONS obj);
     cfg_VLLM_WHISPER_URL := Some (ConfigPy.VLLM_WHISPER_URL obj);
     cfg_REQUEST_TIMEOUT := Some (ConfigPy.REQUEST_TIMEOUT obj) |}.

(** [main] up to the call of [app.run] (lines 12-49): what it exits with,
    or the configuration and the debug flag it calls [app.run] with.
    [logging_has] tells which names are attributes of the [logging] module,
    for the [getattr] of line 29. *)
Definition main (logging_has : string → bool) (environ : gmap string string)
  : Startup :=
  let env := default "development" (environ !! "FLASK_ENV") in
  match ConfigPy.config environ !! env with
  | None => Exit 1
  | Some obj =>
      if logging_has (ConfigPy.LOG_LEVEL obj)
      then Run (from_object obj) (default false (ConfigPy.DEBUG obj))
      else Uncaught AttributeError
  end.





End RunPy.

(** The names of [logging]'s levels, as a sample of its attributes. *)
Definition level_names (s : string) : bool :=
  bool_decide (s ∈ ["DEBUG"; "INFO"; "WARNING"; "ERROR"; "CRITICAL"]).

(** ** [str(n)] for an integer *)

Definition digit_char (d : Z) : ascii := ascii_of_N (Z.to_N (48 + d)).

(** The decimal digits of [n >= 0] in front of [acc], last digit first;
    [fuel] bounds the number of digits. *)
Fixpoint digits_fuel (fuel : nat) (n : Z) (acc : string) : string :=
  match fuel with
  | O => acc
  | S fuel' =>
      let acc' := String (digit_char (n mod 10)) acc in
      if n <? 10 then acc' else digits_fuel fuel' (n / 10) acc'
  end.

Definition py_str_of_int (z : Z) : string :=
  if z <? 0
  then String "-" (digits_fuel (S (Z.to_nat (Z.log2 (- z)))) (- z) "")
  else digits_fuel (S (Z.to_nat (Z.log2 z))) z "".

(** [str(z)]: the decimal form, or [ValueError] ([None]) when it has more
    digits than the limit. *)
Definition py_str (z : Z) : option string :=
  if int_max_str_digits <? count_digits (py_str_of_int z) then None
  else Some (py_str_of_int z).

(** Whether a string is made of decimal digits only. *)
Fixpoint all_digits (s : string) : bool :=
  match s with
  | EmptyString => true
  | String c r => is_digit c && all_digits r
  end.

(** [os.path.basename(p)] on a POSIX system. *)
Definition os_path_basename (p : string) : string :=
  match rsplit1 "/" p with
  | [_; b] => b
  | _ => p
  end.

(** ** [client_example.py] and [test_api.py] *)

Module ClientPy.

(** What a method of the client does: it returns the JSON of the response,
    or raises [FileNotFoundError], or raises the [Exception] it wraps every
    other failure in. *)
Inductive Outcome :=
| Returned (body : Body)
| RaisedFileNotFoundError
| RaisedException.

(** What happens to a request on its way: it does not reach the service; it
    is served but the answer is lost or comes after the 300 seconds of the
    timeout; or it is served and answered. *)
Inductive Delivery :=
| NotDelivered
| AnswerLost
| Answered.

(** The file name [requests] sends for [files={'file': f}] with [f] opened
    at [name]: the base name, or the field name when there is none or the
    name looks like [<...>]. *)
Definition sent_filename (name : string) : string :=
  if String.eqb name "" || startswith "<" name || endswith ">" name then "file"
  else if String.eqb (os_path_basename name) "" then "file"
  else os_path_basename name.

(** [requests.post] to a route of the service and the test of the status
    (lines 48-61 and 86-98). *)
Definition post_and_check (delivery : Delivery)
    (route : World → FlaskResponse * World) (server : World) : Outcome * World :=
  match delivery with
  | NotDelivered => (RaisedException, server)
  | AnswerLost => (RaisedException, snd (route server))
  | Answered =>
      let response := fst (route server) in
      (if status response =? 200 then Returned (fst response) else RaisedException,
       snd (route server))
  end.

(** [LongAudioTranscribeClient.transcribe_file] (lines 26-64) for an integer
    [chunk_duration]; [local] holds the files of the client's machine.
    [requests] sends the form field as [str(chunk_duration)], inside the
    [try]. *)
Definition transcribe_file (env : Env) (delivery : Delivery)
    (local : gmap string File) (file_path : string) (chunk_duration : Z)
    (server : World) : Outcome * World :=
  match local !! file_path with
  | None => (RaisedFileNotFoundError, server)
  | Some content =>
      match py_str chunk_duration with
      | None => (RaisedException, server)
      | Some field =>
          post_and_check delivery
            (transcribe_audio env
               {| files := {[ "file" := {| filename := sent_filename file_path;
                                           stream := content |} ]};
                  form := {[ "chunk_duration" := field ]} |})
            server
      end
  end.

(** [LongAudioTranscribeClient.transcribe_url] (lines 66-101). *)
Definition transcribe_url (env : Env) (delivery : Delivery)
    (audio_url chunk_duration : pyval) (server : World) : Outcome * World :=
  post_and_check delivery
    (transcribe_audio_url env
       (JsonDict {[ "audio_url" := audio_url; "chunk_duration" := chunk_duration ]}))
    server.

End ClientPy.

Module TestApi.

(** [test_url_transcribe] (test_api.py, lines 67-101): whether the service
    answered 200. *)
Definition test_url_transcribe (env : Env) (delivery : ClientPy.Delivery)
    (audio_url : pyval) (server : World) : bool * World :=
  match ClientPy.post_and_check delivery
          (transcribe_audio_url env
             (JsonDict {[ "audio_url" := audio_url; "chunk_duration" := PyInt 30 ]}))
          server with
  | (ClientPy.Returned _, w) => (true, w)
  | (_, w) => (false, w)
  end.

End TestApi.

Definition laptop : gmap string File :=
  {[ "recordings/talk.WAV" := Decodable sample_audio ]}.

Definition zero_chunk_url_request : JsonData :=
  JsonDict {[ "audio_url" := PyStr "http://host/talk.wav";
              "chunk_duration" := PyStr "0" ]}.



(** A host that answers every download with a 404. *)
Definition refused_download_env : Env :=
  {| config := app_config;
     secure_filename := λ s, s;
     mktemp := fresh;
     export_fails := λ _, false;
     export_leaves := λ _, Undecodable;
     endpoint := λ _, said "hello";
     download := λ _, None;
     partial_download := λ _, None |}.

(** A connection that drops after the first 20 seconds of every download. *)
Definition broken_download_env : Env :=
  {| config := app_config;
     secure_filename := λ s, s;
     mktemp := fresh;
     export_fails := λ _, false;
     export_leaves := λ _, Undecodable;
     endpoint := λ _, said "hello";
     download := λ _, None;
     partial_download := λ _, Some (Decodable {| a_start := 0; a_len := 20000 |}) |}.
(** * Properties *)

(** ** Strings *)

Section StringFacts.

Lemma contains_app c (s t : string) :
  contains c (s +:+ t) = contains c s || contains c t.
Proof.
  induction s as [|x s IH]; simpl; [done|].
  destruct (Ascii.eqb x c); [done|apply IH].
Qed.

Lemma rsplit1_absent c (s : string) :
  contains c s = false → rsplit1 c s = [s].
Proof.
  induction s as [|x s IH]; simpl; [done|].
  destruct (Ascii.eqb x c) eqn:E; [done|].
  intros H. rewrite (IH H). done.
Qed.

Lemma rsplit1_last c (stem ext : string) :
  contains c ext = false →
  rsplit1 c (stem +:+ String c ext) = [stem; ext].
Proof.
  intros H. induction stem as [|x stem IH]; simpl.
  - rewrite (rsplit1_absent _ _ H), Ascii.eqb_refl. done.
  - rewrite IH. done.
Qed.

(** A string that contains [c] splits at the last [c]. *)
Lemma contains_last c (s : string) :
  contains c s = true →
  ∃ stem ext, s = stem +:+ String c ext ∧ contains c ext = false.
Proof.
  induction s as [|x s IH]; simpl; [done|].
  destruct (contains c s) eqn:E.
  - intros _. destruct (IH eq_refl) as (stem & ext & -> & Hext).
    exists (String x stem), ext. done.
  - destruct (Ascii.eqb x c) eqn:Ex; [|done].
    apply Ascii.eqb_eq in Ex as ->. intros _.
    exists EmptyString, s. done.
Qed.

Lemma lower_char_idemp c : lower_char (lower_char c) = lower_char c.
Proof. destruct c as [[] [] [] [] [] [] [] []]; reflexivity. Qed.

Lemma lower_char_dot c : Ascii.eqb (lower_char c) "." = Ascii.eqb c ".".
Proof. destruct c as [[] [] [] [] [] [] [] []]; reflexivity. Qed.

Lemma lower_idemp s : lower (lower s) = lower s.
Proof. induction s as [|c s IH]; simpl; [done|]. by rewrite lower_char_idemp, IH. Qed.

Lemma contains_dot_lower s : contains "." (lower s) = contains "." s.
Proof.
  induction s as [|c s IH]; simpl; [done|]. by rewrite lower_char_dot, IH.
Qed.

Lemma rsplit1_dot_lower s : rsplit1 "." (lower s) = lower <$> rsplit1 "." s.
Proof.
  induction s as [|c s IH]; simpl; [done|].
  rewrite IH, lower_char_dot.
  destruct (rsplit1 "." s) as [|a [|b [|? ?]]]; simpl; try done;
    by destruct (Ascii.eqb c ".").
Qed.

End StringFacts.

(** ** [allowed_file] *)

Lemma repo_config_extensions cfg :
  repo_config cfg →
  default ALLOWED_EXTENSIONS (cfg_ALLOWED_EXTENSIONS cfg) = ALLOWED_EXTENSIONS.
Proof. by intros [-> | [url ->]]. Qed.

Lemma allowed_extensions_list (ext : string) :
  ext ∈ ALLOWED_EXTENSIONS ↔ ext ∈ ["wav"; "mp3"; "m4a"; "flac"; "ogg"].
Proof.
  unfold ALLOWED_EXTENSIONS.
  rewrite !elem_of_union, !elem_of_singleton, !elem_of_cons, elem_of_nil.
  tauto.
Qed.

Lemma allowed_file_lower cfg (filename : string) :
  allowed_file cfg (lower filename) = allowed_file cfg filename.
Proof.
  unfold allowed_file. rewrite contains_dot_lower, rsplit1_dot_lower.
  rewrite list_lookup_fmap.
  destruct (rsplit1 "." filename !! 1%nat); simpl; [|done].
  by rewrite lower_idemp.
Qed.

(** C9. Under the repository's configurations a file name is accepted
    exactly when it has a dot and what follows its last dot, in lower case,
    is wav, mp3, m4a, flac or ogg.  So a name without a dot is refused, and
    two names that differ in letter case only are treated alike. *)
Theorem allowed_file_spec (cfg : AppConfig) (name : string) :
  repo_config cfg →
  (allowed_file cfg name = true ↔
     ∃ stem ext, name = stem +:+ "." +:+ ext
                 ∧ contains "." ext = false
                 ∧ lower ext ∈ ["wav"; "mp3"; "m4a"; "flac"; "ogg"])
  ∧ (contains "." name = false → allowed_file cfg name = false)
  ∧ (∀ name', lower name' = lower name →
              allowed_file cfg name' = allowed_file cfg name).
Proof.
  intros Hcfg. split; [|split].
  - unfold allowed_file. rewrite (repo_config_extensions _ Hcfg). split.
    + intros [Hdot Hext]%andb_prop.
      destruct (contains_last _ _ Hdot) as (stem & ext & -> & Hno).
      exists stem, ext. rewrite (rsplit1_last _ _ _ Hno) in Hext.
      simpl in Hext. apply bool_decide_eq_true in Hext.
      by rewrite <- allowed_extensions_list.
    + intros (stem & ext & -> & Hno & Hin).
      change (stem +:+ "." +:+ ext) with (stem +:+ String "." ext).
      rewrite contains_app, (rsplit1_last _ _ _ Hno). simpl.
      rewrite orb_true_r. simpl. apply bool_decide_eq_true.
      by rewrite allowed_extensions_list.
  - intros Hdot. unfold allowed_file. by rewrite Hdot.
  - intros name' Heq.
    by rewrite <- (allowed_file_lower cfg name'), Heq, allowed_file_lower.
Qed.

Lemma allowed_file_spec_witness :
  repo_config app_config
  ∧ (allowed_file app_config "talk.v1.WAV" = true ↔
       ∃ stem ext, "talk.v1.WAV" = stem +:+ "." +:+ ext
                   ∧ contains "." ext = false
                   ∧ lower ext ∈ ["wav"; "mp3"; "m4a"; "flac"; "ogg"]).
Proof.
  split; [left; reflexivity|].
  apply (allowed_file_spec app_config "talk.v1.WAV"). left; reflexivity.
Defined.

(** ** [transcribe_chunk] *)

Lemma absorbed_text_failed o : failed_call o → absorbed_text o = PyStr "".
Proof.
  destruct o as [| |sc [| |d]]; simpl; try done.
  intros H. by apply Z.eqb_neq in H as ->.
Qed.

Lemma transcribe_chunk_posted env path w :
  is_Some (fs w !! path) →
  transcribe_chunk env path w
  = (Ok (absorbed_text (endpoint env (length (posted w)))), post w path).
Proof.
  intros [f Hf]. unfold transcribe_chunk, try_except, bind, requests_post.
  rewrite Hf. fold (post w path).
  destruct (endpoint env (length (posted w))) as [| |sc body]; simpl; try done.
  unfold lift, ret. by destruct body, (sc =? 200).
Qed.

Lemma transcribe_chunk_missing env path w :
  fs w !! path = None → transcribe_chunk env path w = (Ok (PyStr ""), w).
Proof.
  intros Hf. unfold transcribe_chunk, try_except, bind, requests_post.
  by rewrite Hf.
Qed.

(** C5. When the segment file is there and the endpoint answers 200 with a
    JSON object, [transcribe_chunk] returns the value under [text], and the
    empty string when the object has no such key.  On any other status, on a
    timeout and on a network failure it returns the empty string.  It never
    raises, whatever the world. *)
Theorem transcribe_chunk_spec (env : Env) (path : string) (w : World) :
  is_Some (fs w !! path) →
  let outcome := endpoint env (length (posted w)) in
  let returned := fst (transcribe_chunk env path w) in
  (∀ d v, outcome = Response 200 (JsonObject d) → d !! "text" = Some v →
          returned = Ok v)
  ∧ (∀ d, outcome = Response 200 (JsonObject d) → d !! "text" = None →
          returned = Ok (PyStr ""))
  ∧ (∀ status_code body, outcome = Response status_code body →
          status_code ≠ 200 → returned = Ok (PyStr ""))
  ∧ (outcome = Timeout → returned = Ok (PyStr ""))
  ∧ (outcome = ConnectionError → returned = Ok (PyStr ""))
  ∧ (∀ path' w', ∃ v, fst (transcribe_chunk env path' w') = Ok v).
Proof.
  intros Hf outcome returned. subst outcome returned.
  rewrite (transcribe_chunk_posted _ _ _ Hf). simpl.
  repeat split.
  - intros d v Ho Hv. rewrite Ho. simpl. by rewrite Hv.
  - intros d Ho Hv. rewrite Ho. simpl. by rewrite Hv.
  - intros sc body Ho Hsc. rewrite Ho. by rewrite absorbed_text_failed.
  - by intros ->.
  - by intros ->.
  - intros path' w'. destruct (fs w' !! path') eqn:E.
    + rewrite transcribe_chunk_posted by eauto. eauto.
    + rewrite transcribe_chunk_missing by done. eauto.
Qed.

(** ** The monad and the primitives *)

Lemma try_reraise {A} (m : M A) w : try_except m (λ e, raise e) w = m w.
Proof. unfold try_except, raise. by destruct (m w) as [[a|e] w']. Qed.

Lemma set_fs_same w : set_fs w (fs w) = w.
Proof. by destruct w. Qed.

Lemma NamedTemporaryFile_inv env w name w' :
  NamedTemporaryFile env w = (Ok name, w') →
  fs w !! name = None ∧ w' = set_fs w (<[name := Undecodable]> (fs w)).
Proof.
  unfold NamedTemporaryFile.
  destruct (fs w !! mktemp env (dom (fs w))) eqn:E; [done|].
  intros [= <- <-]. done.
Qed.

Lemma NamedTemporaryFile_fresh env w :
  fresh_names env →
  NamedTemporaryFile env w
  = (Ok (mktemp env (dom (fs w))),
     set_fs w (<[mktemp env (dom (fs w)) := Undecodable]> (fs w))).
Proof.
  intros Hfresh. unfold NamedTemporaryFile.
  specialize (Hfresh (dom (fs w))). apply not_elem_of_dom in Hfresh.
  by rewrite Hfresh.
Qed.

(** ** [cleanup_temp_files] *)

Lemma cleanup_temp_files_removed l w :
  cleanup_temp_files l w = (Ok tt, set_fs w (removed l (fs w))).
Proof.
  revert w. induction l as [|p l IH]; intros w; simpl.
  - by rewrite set_fs_same.
  - unfold bind at 1. unfold try_except, bind, os_path_exists, os_unlink.
    destruct (fs w !! p) eqn:E; simpl.
    + rewrite E, IH. done.
    + unfold ret. rewrite IH. by rewrite (delete_id _ _ E).
Qed.

Lemma removed_lookup_in l (f : gmap string File) p :
  p ∈ l → removed l f !! p = None.
Proof.
  revert f. induction l as [|q l IH]; intros f; [by intros ?%elem_of_nil|].
  intros Hin. simpl. destruct (decide (p ∈ l)) as [Hl|Hl]; [by apply IH|].
  apply elem_of_cons in Hin as [->|?]; [|done].
  clear IH. revert f. induction l as [|r l IH]; intros f; simpl.
  - apply lookup_delete_eq.
  - rewrite delete_delete. apply IH. by apply not_elem_of_cons in Hl as [_ ?].
Qed.

Lemma removed_lookup_notin l (f : gmap string File) p :
  p ∉ l → removed l f !! p = f !! p.
Proof.
  revert f. induction l as [|q l IH]; intros f Hl; [done|].
  apply not_elem_of_cons in Hl as [Hne Hl]. simpl.
  rewrite (IH _ Hl). by apply lookup_delete_ne.
Qed.

Lemma removed_lookup_None l (f : gmap string File) p :
  f !! p = None → removed l f !! p = None.
Proof.
  intros Hf. destruct (decide (p ∈ l)).
  - by apply removed_lookup_in.
  - by rewrite removed_lookup_notin.
Qed.

(** ** [split_audio] *)

(** One turn of the loop that went through: a free name was taken and the
    chunk written under it. *)
Lemma split_loop_step env audio cms i offsets acc w names w' :
  split_loop env audio cms (i :: offsets) acc w = (Ok names, w') →
  ∃ name,
    fs w !! name = None
    ∧ export_fails env (length acc) = false
    ∧ split_loop env audio cms offsets (acc ++ [name])
        (set_fs w (<[name := Decodable (audio_slice audio i (i + cms))]> (fs w)))
      = (Ok names, w').
Proof.
  simpl. unfold bind at 1.
  destruct (NamedTemporaryFile env w) as [[name|e] w1] eqn:E; [|done].
  apply NamedTemporaryFile_inv in E as [Hnone ->].
  unfold bind at 1, export.
  destruct (export_fails env (length acc)); [done|].
  unfold write_file. simpl. rewrite insert_insert_eq.
  intros H. by exists name.
Qed.

Lemma split_loop_inv env audio cms offsets : ∀ acc w all w',
  split_loop env audio cms offsets acc w = (Ok all, w') →
  ∃ names,
    all = acc ++ names
    ∧ length names = length offsets
    ∧ posted w' = posted w
    ∧ NoDup names
    ∧ (∀ p, p ∈ names → fs w !! p = None)
    ∧ (∀ q, q ∉ names → fs w' !! q = fs w !! q)
    ∧ (∀ k p i, names !! k = Some p → offsets !! k = Some i →
         fs w' !! p = Some (Decodable (audio_slice audio i (i + cms)))).
Proof.
  induction offsets as [|i offsets IH]; intros acc w all w' H.
  - simpl in H. injection H as <- <-. exists []. rewrite app_nil_r.
    repeat split; try done.
    + constructor.
    + by intros p ?%elem_of_nil.
  - apply split_loop_step in H as (name & Hnone & _ & H).
    apply IH in H as (names & -> & Hlen & Hposted & Hnodup & Hfree & Hkeep & Hchunk).
    simpl in Hfree, Hkeep.
    assert (Hname : name ∉ names).
    { intros Hin. specialize (Hfree _ Hin). by rewrite lookup_insert_eq in Hfree. }
    exists (name :: names). repeat split.
    + by rewrite <- app_assoc.
    + simpl. by rewrite Hlen.
    + done.
    + by constructor.
    + intros p [->|Hin]%elem_of_cons; [done|].
      specialize (Hfree _ Hin).
      rewrite lookup_insert_ne in Hfree; [done|]. by intros ->.
    + intros q [Hne Hq]%not_elem_of_cons.
      rewrite (Hkeep _ Hq). by apply lookup_insert_ne.
    + intros [|k] p j Hp Hj; simpl in Hp, Hj.
      * injection Hp as <-. injection Hj as <-.
        rewrite (Hkeep _ Hname). apply lookup_insert_eq.
      * by eapply Hchunk.
Qed.

(** With free names and no write failure the loop goes through. *)
Lemma split_loop_total env audio cms offsets : ∀ acc w,
  fresh_names env → (∀ n, export_fails env n = false) →
  ∃ all w', split_loop env audio cms offsets acc w = (Ok all, w').
Proof.
  induction offsets as [|i offsets IH]; intros acc w Hfresh Hexp; simpl.
  - by eexists _, _.
  - unfold bind at 1. rewrite (NamedTemporaryFile_fresh _ _ Hfresh).
    unfold bind at 1, export. rewrite Hexp. unfold write_file.
    by apply IH.
Qed.

Lemma split_audio_unfold env path cd w :
  split_audio env path cd w
  = match fs w !! path with
    | Some (Decodable audio) =>
        match py_range 0 (len audio) (cd * 1000) with
        | Ok offsets => split_loop env audio (cd * 1000) offsets [] w
        | Raise e => (Raise e, w)
        end
    | Some Undecodable => (Raise CouldntDecodeError, w)
    | None => (Raise FileNotFoundError, w)
    end.
Proof.
  unfold split_audio. rewrite try_reraise. unfold bind at 1, from_file.
  by destruct (fs w !! path) as [[audio|]|].
Qed.

(** A split that returned: the source was decodable, the step was not zero,
    and the loop ran over the offsets of the range. *)
Lemma split_audio_inv env path cd w temp_files w' :
  split_audio env path cd w = (Ok temp_files, w') →
  ∃ audio,
    fs w !! path = Some (Decodable audio)
    ∧ cd ≠ 0
    ∧ split_loop env audio (cd * 1000)
        (map (λ k, 0 + Z.of_nat k * (cd * 1000))
             (seq 0 (Z.to_nat (range_len 0 (len audio) (cd * 1000))))) [] w
      = (Ok temp_files, w').
Proof.
  rewrite split_audio_unfold.
  destruct (fs w !! path) as [[audio|]|]; try done.
  unfold py_range. destruct (cd * 1000 =? 0) eqn:E; [done|].
  apply Z.eqb_neq in E. intros H. exists audio. repeat split; [lia|done].
Qed.

(** The files of a split exist afterwards, and the source is untouched. *)
Lemma split_audio_files env path cd w temp_files w' :
  split_audio env path cd w = (Ok temp_files, w') →
  posted w' = posted w
  ∧ NoDup temp_files
  ∧ (∀ p, p ∈ temp_files → fs w !! p = None ∧ is_Some (fs w' !! p))
  ∧ (∀ q, q ∉ temp_files → fs w' !! q = fs w !! q).
Proof.
  intros (audio & _ & _ & H)%split_audio_inv.
  apply split_loop_inv in H as (names & -> & Hlen & Hposted & Hnodup & Hfree & Hkeep & Hchunk).
  simpl. repeat split; try done.
  - by apply Hfree.
  - apply list_elem_of_lookup in H as [k Hk].
    assert (Hlt : (k < length names)%nat) by (by eapply lookup_lt_Some).
    rewrite Hlen in Hlt. apply lookup_lt_is_Some in Hlt as [i Hi].
    rewrite (Hchunk _ _ _ Hk Hi). eauto.
Qed.

(** *** Counting the segments *)

Lemma range_len_bounds (L step : Z) :
  0 < step → 0 ≤ L →
  0 ≤ range_len 0 L step
  ∧ L ≤ range_len 0 L step * step
  ∧ range_len 0 L step * step < L + step.
Proof.
  intros Hstep HL. unfold range_len.
  destruct (0 <? step) eqn:E; [|apply Z.ltb_ge in E; lia].
  destruct (0 <? L) eqn:EL.
  - apply Z.ltb_lt in EL.
    pose proof (Z.div_mod (L - 0 - 1) step ltac:(lia)) as Hdm.
    pose proof (Z.mod_pos_bound (L - 0 - 1) step Hstep) as Hmod.
    assert (0 ≤ (L - 0 - 1) / step) by (apply Z.div_pos; lia).
    nia.
  - apply Z.ltb_ge in EL. lia.
Qed.

(** [ceil(D / d)] for the duration [D = L / 1000] seconds is the number of
    offsets of [range(0, L, d * 1000)]. *)
Lemma ceil_duration (L d : Z) :
  0 < d → 0 ≤ L →
  Qceiling ((L # 1000) / inject_Z d) = range_len 0 L (d * 1000).
Proof.
  intros Hd HL. destruct d as [|p|p]; try lia.
  unfold Qceiling, Qfloor, Qdiv, Qmult, Qinv, Qopp, inject_Z. simpl Qnum. simpl Qden.
  destruct (range_len_bounds L (Z.pos p * 1000) ltac:(lia) HL) as (H0 & Hlo & Hhi).
  set (n := range_len 0 L (Z.pos p * 1000)) in *.
  rewrite Pos2Z.inj_mul, (Z.mul_comm 1000 (Z.pos p)).
  assert (Hq : - (L * 1) / (Z.pos p * 1000) = - n);
    [|rewrite Hq; apply Z.opp_involutive].
  symmetry. apply (Z.div_unique_pos _ _ _ (n * (Z.pos p * 1000) - L)); lia.
Qed.

Lemma len_audio_slice audio i j :
  len (audio_slice audio i j)
  = Z.max 0 (Z.min j (len audio) - Z.min i (len audio)).
Proof. unfold len at 1, audio_slice. simpl. lia. Qed.

Lemma len_nonneg audio : 0 ≤ len audio.
Proof. unfold len. lia. Qed.

(** C3. With a positive chunk duration [d], a decodable source of [L]
    milliseconds (so [D = L / 1000] seconds), free temporary names and no
    write failure, [split_audio] returns [ceil(D / d)] files.  The [k]-th
    file holds the audio that starts [k * d] seconds into the source; it is
    [d] seconds long, except the last one, which is not empty, at most [d]
    seconds long and ends where the source ends. *)
Theorem split_audio_segments (env : Env) (path : string) (d : Z)
    (audio : Audio) (w : World) :
  fresh_names env →
  (∀ n, export_fails env n = false) →
  0 < d →
  fs w !! path = Some (Decodable audio) →
  ∃ temp_files w',
    split_audio env path d w = (Ok temp_files, w')
    ∧ Z.of_nat (length temp_files) = Qceiling ((len audio # 1000) / inject_Z d)
    ∧ ∀ (k : nat) p, temp_files !! k = Some p →
        ∃ chunk,
          fs w' !! p = Some (Decodable chunk)
          ∧ a_start chunk = a_start audio + Z.of_nat k * (d * 1000)
          ∧ if decide (S k = length temp_files)
            then 0 < len chunk ≤ d * 1000
                 ∧ a_start chunk + len chunk = a_start audio + len audio
            else len chunk = d * 1000.
Proof.
  intros Hfresh Hexp Hd Hsrc.
  pose proof (len_nonneg audio) as HL.
  destruct (range_len_bounds (len audio) (d * 1000) ltac:(lia) HL) as (H0 & Hlo & Hhi).
  rewrite (ceil_duration _ _ Hd HL).
  set (n := range_len 0 (len audio) (d * 1000)) in *.
  rewrite split_audio_unfold, Hsrc. unfold py_range.
  replace (d * 1000 =? 0) with false by (symmetry; apply Z.eqb_neq; lia).
  fold n.
  destruct (split_loop_total env audio (d * 1000)
              (map (λ k, 0 + Z.of_nat k * (d * 1000)) (seq 0 (Z.to_nat n)))
              [] w Hfresh Hexp) as (all & w' & Hrun).
  exists all, w'. split; [done|].
  apply split_loop_inv in Hrun
    as (names & -> & Hlen & _ & _ & _ & _ & Hchunk).
  rewrite length_map, length_seq in Hlen. simpl.
  split; [lia|].
  intros k p Hp.
  assert (Hk : (k < Z.to_nat n)%nat) by (rewrite <- Hlen; by eapply lookup_lt_Some).
  assert (Hoff : map (λ k, 0 + Z.of_nat k * (d * 1000)) (seq 0 (Z.to_nat n)) !! k
                 = Some (0 + Z.of_nat k * (d * 1000))).
  { rewrite list_lookup_fmap, lookup_seq_lt by done. done. }
  exists (audio_slice audio (0 + Z.of_nat k * (d * 1000))
            (0 + Z.of_nat k * (d * 1000) + d * 1000)).
  split; [by eapply Hchunk|].
  split.
  - simpl. nia.
  - rewrite len_audio_slice. case_decide as Hlast.
    + assert (Z.of_nat k = n - 1) by lia. simpl. nia.
    + assert (Z.of_nat k < n - 1) by lia. nia.
Qed.

(** ** The transcription loop *)

Lemma append_cons x (a b : string) : String x a +:+ b = String x (a +:+ b).
Proof. reflexivity. Qed.

Lemma append_assoc (a b c : string) : (a +:+ b) +:+ c = a +:+ (b +:+ c).
Proof. induction a as [|x a IH]; [done|]. by rewrite !append_cons, IH. Qed.

Lemma append_empty_r (a : string) : a +:+ "" = a.
Proof. induction a as [|x a IH]; [done|]. by rewrite append_cons, IH. Qed.

Lemma run_texts_S env base n :
  run_texts env base (S n)
  = absorbed_text (endpoint env base) :: run_texts env (S base) n.
Proof.
  unfold run_texts. simpl. rewrite Nat.add_0_r. f_equal.
  rewrite <- seq_shift, map_map. apply map_ext. intros j. by rewrite Nat.add_succ_r.
Qed.

(** The loop leaves the files alone and computes what [assemble] computes
    from the texts of its calls. *)
Lemma transcribe_loop_assemble env cd : ∀ temp_files i segs full_text w,
  (∀ p, p ∈ temp_files → is_Some (fs w !! p)) →
  ∃ w',
    transcribe_loop env cd i temp_files segs full_text w
    = (assemble cd i (run_texts env (length (posted w)) (length temp_files))
         segs full_text, w')
    ∧ fs w' = fs w
    ∧ (∀ r, assemble cd i (run_texts env (length (posted w)) (length temp_files))
              segs full_text = Ok r →
            posted w' = posted w ++ temp_files).
Proof.
  induction temp_files as [|p l IH]; intros i segs full_text w Hfiles.
  - exists w. simpl. repeat split; try done. by rewrite app_nil_r.
  - simpl length. rewrite run_texts_S. simpl.
    unfold bind at 1. rewrite transcribe_chunk_posted
      by (apply Hfiles; apply elem_of_cons; by left).
    unfold bind at 1, lift.
    destruct (py_add_str (absorbed_text (endpoint env (length (posted w)))) " ")
      as [piece|e].
    + destruct (IH (i + 1)
                  (segs ++ [ {| segment_id := i + 1;
                                seg_text := absorbed_text (endpoint env (length (posted w)));
                                start_time := i * cd;
                                end_time := (i + 1) * cd |} ])
                  (full_text +:+ piece) (post w p)) as (w' & Hrun & Hfs & Hposted).
      { intros q Hq. simpl. apply Hfiles. apply elem_of_cons. by right. }
      simpl in Hrun, Hposted. rewrite length_app in Hrun, Hposted. simpl in Hrun, Hposted.
      rewrite Nat.add_1_r in Hrun, Hposted.
      exists w'. repeat split; [done|done|].
      intros r Hr. rewrite (Hposted _ Hr). by rewrite <- app_assoc.
    + exists (post w p). by repeat split.
Qed.

Lemma assemble_strs cd : ∀ ts i segs full_text,
  assemble cd i (PyStr <$> ts) segs full_text
  = Ok (segs ++ segment_list cd i ts, full_text +:+ trailing ts).
Proof.
  induction ts as [|t ts IH]; intros i segs full_text; simpl.
  - by rewrite app_nil_r, append_empty_r.
  - rewrite IH. by rewrite <- app_assoc, append_assoc.
Qed.

Lemma assemble_ok_strs cd : ∀ texts i segs full_text r,
  assemble cd i texts segs full_text = Ok r → ∃ ts, texts = PyStr <$> ts.
Proof.
  induction texts as [|txt texts IH]; intros i segs full_text r H.
  - by exists [].
  - simpl in H. destruct txt; try done. simpl in H.
    apply IH in H as [ts ->]. by exists (s :: ts).
Qed.

Lemma segment_list_length cd ts : ∀ i, length (segment_list cd i ts) = length ts.
Proof. induction ts as [|t ts IH]; intros i; simpl; [done|]. by rewrite IH. Qed.

Lemma segment_list_lookup cd ts : ∀ i (k : nat),
  segment_list cd i ts !! k
  = (λ t, {| segment_id := i + Z.of_nat k + 1;
             seg_text := PyStr t;
             start_time := (i + Z.of_nat k) * cd;
             end_time := (i + Z.of_nat k + 1) * cd |}) <$> ts !! k.
Proof.
  induction ts as [|t ts IH]; intros i k; [done|].
  destruct k as [|k]; simpl.
  - by rewrite Z.add_0_r.
  - rewrite IH. destruct (ts !! k); [|done]. simpl. do 2 f_equal; lia.
Qed.

Lemma segment_list_texts cd ts : ∀ i, seg_text <$> segment_list cd i ts = PyStr <$> ts.
Proof. induction ts as [|t ts IH]; intros i; simpl; [done|]. by rewrite IH. Qed.

(** ** The upload pipeline *)

Lemma world_eq w f l : fs w = f → posted w = l → w = {| fs := f; posted := l |}.
Proof. destruct w. simpl. by intros -> ->. Qed.

(** The handler of the inner [try] always answers 500, and removes what it
    is told to remove. *)
Lemma upload_except_spec path temp_files e w :
  upload_except path temp_files e w
  = (Ok (ErrorBody (TranscribeFailed e), 500),
     set_fs w (delete path (removed (default [] temp_files) (fs w)))).
Proof.
  unfold upload_except. unfold bind at 1.
  assert (Hclean : (match temp_files with
                    | Some l => cleanup_temp_files l
                    | None => ret ()
                    end) w
                   = (Ok (), set_fs w (removed (default [] temp_files) (fs w)))).
  { destruct temp_files as [l|]; simpl.
    - apply cleanup_temp_files_removed.
    - unfold ret. by rewrite set_fs_same. }
  rewrite Hclean. unfold bind, os_path_exists, os_unlink, ret. simpl.
  destruct (removed (default [] temp_files) (fs w) !! path) eqn:E; simpl.
  - rewrite E. done.
  - by rewrite (delete_id _ _ E).
Qed.

(** A pipeline whose split returned and whose calls all returned strings
    answers with the success body. *)
Lemma upload_pipeline_success env path cd w temp_files w1 ts :
  split_audio env path cd w = (Ok temp_files, w1) →
  run_texts env (length (posted w)) (length temp_files) = PyStr <$> ts →
  ∃ audio,
    fs w !! path = Some (Decodable audio)
    ∧ upload_pipeline env path cd w
      = (Ok (jsonify (success_body (trailing ts) (segment_list cd 0 ts)
                        (len audio # 1000) cd)),
         {| fs := delete path (removed temp_files (fs w1));
            posted := posted w ++ temp_files |}).
Proof.
  intros Hsplit Htexts.
  destruct (split_audio_inv _ _ _ _ _ _ Hsplit) as (audio & Hsrc & _ & _).
  destruct (split_audio_files _ _ _ _ _ _ Hsplit) as (Hposted & _ & Hnew & Hkeep).
  assert (Hpath : path ∉ temp_files).
  { intros Hin. destruct (Hnew _ Hin) as [Hnone _]. by rewrite Hnone in Hsrc. }
  exists audio. split; [done|].
  unfold upload_pipeline. rewrite Hsplit.
  unfold try_except, upload_after_split. unfold bind at 1.
  destruct (transcribe_loop_assemble env cd temp_files 0 [] "" w1)
    as (w2 & Hloop & Hfs & Hposted2).
  { intros p Hp. by apply Hnew. }
  rewrite Hposted, Htexts, assemble_strs in Hloop, Hposted2.
  specialize (Hposted2 _ eq_refl). rewrite Hloop. simpl.
  unfold bind at 1. rewrite cleanup_temp_files_removed.
  unfold bind at 1, from_file. simpl.
  rewrite Hfs, (removed_lookup_notin _ _ _ Hpath), (Hkeep _ Hpath), Hsrc.
  unfold bind, os_unlink, ret. simpl.
  rewrite (removed_lookup_notin _ _ _ Hpath), (Hkeep _ Hpath), Hsrc.
  unfold set_fs. simpl. by rewrite Hposted2.
Qed.

(** A pipeline that answered with a result: its split returned and its
    calls all returned strings. *)
Lemma upload_pipeline_result_inv env path cd w r st w' :
  upload_pipeline env path cd w = (Ok (ResultBody r, st), w') →
  ∃ temp_files w1 ts,
    split_audio env path cd w = (Ok temp_files, w1)
    ∧ run_texts env (length (posted w)) (length temp_files) = PyStr <$> ts.
Proof.
  unfold upload_pipeline.
  destruct (split_audio env path cd w) as [[temp_files|e] w1] eqn:Hsplit.
  2: { by rewrite upload_except_spec. }
  destruct (split_audio_files _ _ _ _ _ _ Hsplit) as (Hposted & _ & Hnew & _).
  unfold try_except, upload_after_split. unfold bind at 1.
  destruct (transcribe_loop_assemble env cd temp_files 0 [] "" w1)
    as (w2 & Hloop & _ & _).
  { intros p Hp. by apply Hnew. }
  rewrite Hloop, Hposted.
  destruct (assemble cd 0 (run_texts env (length (posted w)) (length temp_files)) [] "")
    as [res|e] eqn:Hasm.
  - apply assemble_ok_strs in Hasm as [ts Hts]. intros _. by exists temp_files, w1, ts.
  - by rewrite upload_except_spec.
Qed.

(** The checks of [transcribe_audio] that a well-formed upload passes. *)
Lemma transcribe_audio_staged env request w file cd :
  files request !! "file" = Some file →
  filename file ≠ "" →
  allowed_file (config env) (filename file) = true →
  py_int (upload_chunk_arg request) = Ok cd →
  transcribe_audio env request w
  = outer_try (upload_pipeline env (upload_path env file) cd)
      (set_fs w (<[upload_path env file := stream file]> (fs w))).
Proof.
  intros Hfile Hname Hallowed Hcd. unfold transcribe_audio, outer_try.
  rewrite Hfile. apply String.eqb_neq in Hname. rewrite Hname, Hallowed. simpl.
  unfold bind at 1, lift. fold (upload_chunk_arg request). rewrite Hcd.
  unfold bind at 1, write_file. done.
Qed.

(** A result body comes from an upload that passed the checks. *)
Lemma transcribe_audio_result_inv env request w r st w' :
  transcribe_audio env request w = ((ResultBody r, st), w') →
  ∃ file cd,
    files request !! "file" = Some file
    ∧ filename file ≠ ""
    ∧ allowed_file (config env) (filename file) = true
    ∧ py_int (upload_chunk_arg request) = Ok cd.
Proof.
  unfold transcribe_audio, outer_try.
  destruct (files request !! "file") as [file|] eqn:Hfile; [|done].
  destruct (String.eqb (filename file) "") eqn:Hname; [done|].
  destruct (allowed_file (config env) (filename file)) eqn:Hallowed; [|done].
  simpl. unfold bind at 1, lift. fold (upload_chunk_arg request).
  destruct (py_int (upload_chunk_arg request)) as [cd|e] eqn:Hcd; [|done].
  intros _. exists file, cd. repeat split; try done. by apply String.eqb_neq.
Qed.

(** *** The text of a result *)

Lemma rstrip_space (s : string) : rstrip (s +:+ " ") = rstrip s.
Proof.
  induction s as [|c s IH]; [done|].
  rewrite append_cons. simpl. by rewrite IH.
Qed.

Lemma trailing_join (ts : list string) :
  ts ≠ [] → trailing ts = join " " ts +:+ " ".
Proof.
  induction ts as [|t ts IH]; [done|]. intros _.
  destruct ts as [|t' ts].
  - simpl. by rewrite append_empty_r.
  - change (trailing (t :: t' :: ts)) with ((t +:+ " ") +:+ trailing (t' :: ts)).
    change (join " " (t :: t' :: ts)) with (t +:+ " " +:+ join " " (t' :: ts)).
    rewrite IH by done. by rewrite !append_assoc.
Qed.

Lemma strip_trailing (ts : list string) :
  strip (trailing ts) = strip (join " " ts).
Proof.
  destruct ts as [|t ts]; [done|].
  rewrite trailing_join by done. unfold strip. by rewrite rstrip_space.
Qed.

(** *** What a result of [transcribe_audio] looks like *)

Lemma outer_try_result m w r st w' :
  outer_try m w = ((ResultBody r, st), w') → m w = (Ok (ResultBody r, st), w').
Proof. unfold outer_try. destruct (m w) as [[resp|e] w1]; [|done]. by intros [= -> ->]. Qed.

Lemma transcribe_audio_result env request w r st w' :
  transcribe_audio env request w = ((ResultBody r, st), w') →
  ∃ file cd audio ts,
    files request !! "file" = Some file
    ∧ stream file = Decodable audio
    ∧ py_int (upload_chunk_arg request) = Ok cd
    ∧ cd ≠ 0
    ∧ length ts = Z.to_nat (range_len 0 (len audio) (cd * 1000))
    ∧ run_texts env (length (posted w)) (length ts) = PyStr <$> ts
    ∧ st = 200
    ∧ r = {| success := true;
             text := strip (trailing ts);
             segments := segment_list cd 0 ts;
             duration := len audio # 1000;
             chunk_count := Z.of_nat (length ts);
             chunk_duration := cd |}.
Proof.
  intros Hrun.
  destruct (transcribe_audio_result_inv _ _ _ _ _ _ Hrun)
    as (file & cd & Hfile & Hname & Hallowed & Hcd).
  rewrite (transcribe_audio_staged _ _ _ _ _ Hfile Hname Hallowed Hcd) in Hrun.
  apply outer_try_result in Hrun.
  destruct (upload_pipeline_result_inv _ _ _ _ _ _ _ Hrun)
    as (temp_files & w1 & ts & Hsplit & Htexts).
  destruct (upload_pipeline_success _ _ _ _ _ _ _ Hsplit Htexts)
    as (audio & Hsrc & Hok).
  rewrite Hok in Hrun. injection Hrun as <- <- _.
  destruct (split_audio_inv _ _ _ _ _ _ Hsplit) as (audio' & Hsrc' & Hne & Hloop).
  rewrite Hsrc in Hsrc'. injection Hsrc' as <-.
  apply split_loop_inv in Hloop as (names & -> & Hlen & _).
  rewrite length_map, length_seq in Hlen. simpl in Hsrc, Htexts.
  rewrite lookup_insert_eq in Hsrc.
  assert (Hts : length ts = length names).
  { apply (f_equal length) in Htexts.
    unfold run_texts in Htexts. by rewrite !length_map, length_seq in Htexts. }
  exists file, cd, audio, ts.
  rewrite segment_list_length. rewrite <- Hts in Htexts, Hlen.
  repeat split; try done; congruence.
Qed.

(** ** The URL pipeline *)

(** Lines 284-287 delete the downloaded file and then decode it: the [try]
    body never reaches its [return]. *)
Lemma url_after_split_raises env temp_file cd temp_files w :
  ∃ e w', url_after_split env temp_file cd temp_files w = (Raise e, w').
Proof.
  unfold url_after_split. unfold bind at 1.
  destruct (transcribe_loop env cd 0 temp_files [] "" w) as [[r|e] w1]; [|by eauto].
  unfold bind at 1. rewrite cleanup_temp_files_removed.
  unfold bind at 1, os_unlink. simpl.
  destruct (removed temp_files (fs w1) !! temp_file) eqn:E; [|by eauto].
  unfold bind, from_file. simpl. rewrite lookup_delete_eq. by eauto.
Qed.

Lemma url_except_spec temp_file temp_files e w :
  url_except temp_file temp_files e w
  = let f := removed (default [] temp_files) (fs w) in
    match f !! temp_file with
    | Some _ => (Ok (ErrorBody (TranscribeFailed e), 500),
                 set_fs w (delete temp_file f))
    | None => (Raise FileNotFoundError, set_fs w f)
    end.
Proof.
  unfold url_except. unfold bind at 1.
  destruct temp_files as [l|]; [rewrite cleanup_temp_files_removed|unfold ret at 1];
    unfold bind, os_unlink, ret; simpl.
  - by destruct (removed l (fs w) !! temp_file).
  - rewrite set_fs_same. by destruct (fs w !! temp_file).
Qed.

Lemma url_except_cases temp_file temp_files e w :
  ∃ w', url_except temp_file temp_files e w
        = (Ok (ErrorBody (TranscribeFailed e), 500), w')
        ∨ url_except temp_file temp_files e w = (Raise FileNotFoundError, w').
Proof.
  rewrite url_except_spec. simpl.
  destruct (removed (default [] temp_files) (fs w) !! temp_file);
    [eexists; left; reflexivity|eexists; right; reflexivity].
Qed.

Lemma url_pipeline_cases env temp_file cd w :
  ∃ e w', url_pipeline env temp_file cd w
          = (Ok (ErrorBody (TranscribeFailed e), 500), w')
          ∨ url_pipeline env temp_file cd w = (Raise FileNotFoundError, w').
Proof.
  unfold url_pipeline.
  destruct (split_audio env temp_file cd w) as [[temp_files|e] w1].
  - unfold try_except.
    destruct (url_after_split_raises env temp_file cd temp_files w1) as (e & w2 & ->).
    destruct (url_except_cases temp_file (Some temp_files) e w2) as [w' H].
    exists e, w'. done.
  - destruct (url_except_cases temp_file None e w1) as [w' H].
    exists e, w'. done.
Qed.

(** Lines 240-310: the handler on an object that has [audio_url]. *)
Lemma transcribe_audio_url_dict env data audio_url w :
  data !! "audio_url" = Some audio_url →
  transcribe_audio_url env (JsonDict data) w
  = outer_try
      (chunk_duration <- lift (py_int (url_chunk_arg data)) ;;
       response <- requests_get env audio_url ;;
       temp_file <- NamedTemporaryFile env ;;
       (save_body response temp_file ;;;
        url_pipeline env temp_file chunk_duration)) w.
Proof.
  intros Hurl.
  assert (Hsize : Nat.eqb (size data) 0 = false).
  { apply Nat.eqb_neq. intros H0. apply map_size_empty_iff in H0.
    subst data. by rewrite lookup_empty in Hurl. }
  unfold transcribe_audio_url, outer_try, py_not. rewrite Hsize.
  unfold py_in, py_getitem, py_get, url_chunk_arg. rewrite Hurl.
  unfold bind at 1, lift at 1.
  rewrite bool_decide_true by (by eexists). simpl.
  unfold bind at 1, lift at 1. unfold bind at 1, lift at 1.
  reflexivity.
Qed.

(** Lines 237-238: a body without [audio_url], on which the test does not
    raise, is answered 400. *)
Lemma transcribe_audio_url_refused env request w :
  missing_url request → ¬ url_check_raises request →
  transcribe_audio_url env request w = ((ErrorBody MissingAudioUrl, 400), w).
Proof.
  intros Hmiss Hok. unfold transcribe_audio_url, outer_try.
  destruct request as [| |b|z|q|s|items|data]; simpl in Hok.
  - by destruct Hok.
  - reflexivity.
  - destruct b; [by destruct Hok|reflexivity].
  - simpl. destruct (Z.eqb_spec z 0); [reflexivity|by destruct Hok].
  - simpl. destruct (Z.eqb_spec (Qnum q) 0); [reflexivity|by destruct Hok].
  - unfold py_not, py_in, bind, lift.
    destruct (String.eqb s ""); [reflexivity|].
    destruct (str_contains "audio_url" s); [by destruct Hok|reflexivity].
  - unfold py_not, py_in, bind, lift.
    destruct items as [|v items]; [reflexivity|].
    destruct (existsb (is_str "audio_url") (v :: items));
      [by destruct Hok|reflexivity].
  - unfold py_not, py_in, bind, lift.
    destruct (Nat.eqb (size data) 0); [reflexivity|].
    rewrite (Hmiss data eq_refl).
    rewrite bool_decide_false by (intros [x Hx]; discriminate Hx).
    reflexivity.
Qed.

(** Lines 235-240: a body that is not JSON, or on which the test or the
    lookup raises, is answered by the outer [except]. *)
Lemma transcribe_audio_url_check_raises env request w :
  url_check_raises request →
  ∃ e, transcribe_audio_url env request w = ((ErrorBody (ServerError e), 500), w).
Proof.
  intros Hbad. unfold transcribe_audio_url, outer_try.
  destruct request as [| |b|z|q|s|items|data]; simpl in Hbad.
  - by eexists.
  - by destruct Hbad.
  - subst b. by eexists.
  - simpl. destruct (Z.eqb_spec z 0); [done|by eexists].
  - simpl. destruct (Z.eqb_spec (Qnum q) 0); [done|by eexists].
  - unfold py_not, py_in, py_getitem, bind, lift.
    destruct s as [|c s]; [discriminate Hbad|].
    rewrite Hbad. simpl. by eexists.
  - unfold py_not, py_in, py_getitem, bind, lift.
    destruct items as [|v items]; [discriminate Hbad|].
    rewrite Hbad. simpl. by eexists.
  - by destruct Hbad.
Qed.

Lemma url_check_raises_dec request :
  url_check_raises request ∨ ¬ url_check_raises request.
Proof.
  destruct request as [| |b|z|q|s|items|data]; simpl.
  - by left.
  - right. tauto.
  - destruct b; [by left|right; discriminate].
  - destruct (Z.eq_dec z 0); [right|left]; tauto.
  - destruct (Z.eq_dec (Qnum q) 0); [right|left]; tauto.
  - destruct (str_contains "audio_url" s); [by left|right; discriminate].
  - destruct (existsb (is_str "audio_url") items); [by left|right; discriminate].
  - right. tauto.
Qed.

Lemma missing_url_dec request :
  missing_url request
  ∨ ∃ data audio_url, request = JsonDict data ∧ data !! "audio_url" = Some audio_url.
Proof.
  destruct request as [| |b|z|q|s|items|data];
    try (left; intros data' Heq; discriminate Heq).
  destruct (data !! "audio_url") as [audio_url|] eqn:E.
  - right. by exists data, audio_url.
  - left. intros data' Heq. injection Heq as <-. exact E.
Qed.

Lemma transcribe_audio_url_error env request w :
  ∃ msg st,
    fst (transcribe_audio_url env request w) = (ErrorBody msg, st)
    ∧ (st = 400 ∨ st = 500).
Proof.
  destruct (missing_url_dec request) as [Hmiss|(data & audio_url & -> & Hurl)].
  { destruct (url_check_raises_dec request) as [Hbad|Hok].
    - destruct (transcribe_audio_url_check_raises env request w Hbad) as [e ->].
      by eauto.
    - rewrite (transcribe_audio_url_refused env request w Hmiss Hok). by eauto. }
  rewrite (transcribe_audio_url_dict _ _ _ _ Hurl). unfold outer_try.
  unfold bind at 1, lift.
  destruct (py_int (url_chunk_arg data)) as [cd|e]; [|by eauto].
  unfold bind at 1, requests_get.
  assert (Hpipe : ∀ temp_file w2, ∃ msg st w',
            match url_pipeline env temp_file cd w2 with
            | (Ok r, w') => (r, w')
            | (Raise e, w') => ((ErrorBody (ServerError e), 500), w')
            end = ((ErrorBody msg, st), w') ∧ (st = 400 ∨ st = 500)).
  { intros temp_file w2.
    destruct (url_pipeline_cases env temp_file cd w2) as (e & w' & [-> | ->]);
      by eauto 6. }
  destruct (download env audio_url) as [content|].
  - unfold ret at 1. unfold bind at 1.
    destruct (NamedTemporaryFile env w) as [[temp_file|e] w1]; [|by eauto].
    unfold bind at 1, save_body, write_file.
    destruct (Hpipe temp_file
                (set_fs w1 (<[temp_file := content]> (fs w1))))
      as (msg & st & w' & -> & Hst).
    by eauto.
  - destruct (partial_download env audio_url) as [partial|]; [|by eauto].
    unfold ret at 1. unfold bind at 1.
    destruct (NamedTemporaryFile env w) as [[temp_file|e] w1]; [|by eauto].
    unfold bind, save_body, write_file, raise. by eauto.
Qed.

(** When the split returns and every call returns a string, the URL handler
    ends in the outer [except]: the second [os.unlink] of line 303 raises. *)
Lemma url_pipeline_texts env temp_file cd w temp_files w1 ts :
  split_audio env temp_file cd w = (Ok temp_files, w1) →
  run_texts env (length (posted w)) (length temp_files) = PyStr <$> ts →
  url_pipeline env temp_file cd w
  = (Raise FileNotFoundError,
     {| fs := delete temp_file (removed temp_files (fs w1));
        posted := posted w ++ temp_files |}).
Proof.
  intros Hsplit Htexts.
  destruct (split_audio_inv _ _ _ _ _ _ Hsplit) as (audio & Hsrc & _ & _).
  destruct (split_audio_files _ _ _ _ _ _ Hsplit) as (Hposted & _ & Hnew & Hkeep).
  assert (Hpath : temp_file ∉ temp_files).
  { intros Hin. destruct (Hnew _ Hin) as [Hnone _]. by rewrite Hnone in Hsrc. }
  unfold url_pipeline. rewrite Hsplit.
  unfold try_except, url_after_split. unfold bind at 1.
  destruct (transcribe_loop_assemble env cd temp_files 0 [] "" w1)
    as (w2 & Hloop & Hfs & Hposted2).
  { intros p Hp. by apply Hnew. }
  rewrite Hposted, Htexts, assemble_strs in Hloop, Hposted2.
  specialize (Hposted2 _ eq_refl). rewrite Hloop. simpl.
  unfold bind at 1. rewrite cleanup_temp_files_removed.
  unfold bind at 1, os_unlink. simpl.
  rewrite Hfs, (removed_lookup_notin _ _ _ Hpath), (Hkeep _ Hpath), Hsrc.
  unfold bind at 1, from_file. simpl. rewrite lookup_delete_eq.
  rewrite url_except_spec. simpl.
  assert (Hgone : removed temp_files (delete temp_file (removed temp_files (fs w1)))
                  = delete temp_file (removed temp_files (fs w1))).
  { apply map_eq. intros q. destruct (decide (q ∈ temp_files)) as [Hq|Hq].
    - rewrite removed_lookup_in by done.
      rewrite lookup_delete_ne by (by intros ->).
      by rewrite removed_lookup_in.
    - by rewrite removed_lookup_notin. }
  rewrite Hgone, lookup_delete_eq. unfold set_fs. simpl. by rewrite Hposted2.
Qed.

(** C1 (the URL entry point). [transcribe_audio_url] never answers with a
    result: whatever the request and the world, its response is an error
    body with status 400 or 500.  Lines 284 and 287 unlink the downloaded
    file before decoding it for the duration, where [transcribe_audio]
    (lines 194-198) decodes first.  So the same 95 seconds of audio, cut in
    chunks of 30 with every call answered, give the result through the
    upload and the 500 of the outer handler through the URL. *)
Theorem transcribe_audio_url_never_succeeds :
  (∀ env request w,
     ∃ msg st,
       fst (transcribe_audio_url env request w) = (ErrorBody msg, st)
       ∧ (st = 400 ∨ st = 500))
  ∧ fst (transcribe_audio_url sample_env sample_url_request empty_world)
    = (ErrorBody (ServerError FileNotFoundError), 500)
  ∧ fst (transcribe_audio sample_env (sample_upload "30") empty_world)
    = (ResultBody sample_result, 200).
Proof.
  split.
  - intros env request w. apply transcribe_audio_url_error.
  - split; vm_compute; reflexivity.
Qed.

(** ** Whole runs *)

Lemma texts_are_strings (f : nat → pyval) (l : list nat) :
  (∀ n, ∃ s, f n = PyStr s) → ∃ ts, map f l = PyStr <$> ts.
Proof.
  intros Hf. induction l as [|n l [ts IH]]; [by exists []|].
  destruct (Hf n) as [s Hs]. exists (s :: ts). simpl. by rewrite Hs, IH.
Qed.

(** The upload entry point completes.  When the checks pass, the chunk
    duration is not zero, the source decodes, temporary names are free, no
    segment write fails and every transcription call returns a string
    (possibly empty), [transcribe_audio] answers 200 with the result: the
    duration of the staged source, the segments, the text, the count and the
    chunk duration. *)
Lemma transcribe_audio_completes env request w file cd audio :
  fresh_names env →
  (∀ n, export_fails env n = false) →
  (∀ n, ∃ s, absorbed_text (endpoint env n) = PyStr s) →
  files request !! "file" = Some file →
  filename file ≠ "" →
  allowed_file (config env) (filename file) = true →
  py_int (upload_chunk_arg request) = Ok cd →
  cd ≠ 0 →
  stream file = Decodable audio →
  ∃ ts w',
    transcribe_audio env request w
    = (jsonify (success_body (trailing ts) (segment_list cd 0 ts)
                  (len audio # 1000) cd), w').
Proof.
  intros Hfresh Hexp Htext Hfile Hname Hallowed Hcd Hne Hsrc.
  rewrite (transcribe_audio_staged _ _ _ _ _ Hfile Hname Hallowed Hcd).
  set (ws := set_fs w (<[upload_path env file := stream file]> (fs w))).
  assert (∃ temp_files w1,
            split_audio env (upload_path env file) cd ws = (Ok temp_files, w1))
    as (temp_files & w1 & Hsplit).
  { rewrite split_audio_unfold. subst ws. simpl. rewrite lookup_insert_eq, Hsrc.
    unfold py_range. replace (cd * 1000 =? 0) with false
      by (symmetry; apply Z.eqb_neq; lia).
    by apply split_loop_total. }
  destruct (texts_are_strings
              (λ j, absorbed_text (endpoint env (length (posted ws) + j)%nat))
              (seq 0 (length temp_files))) as [ts Hts].
  { intros n. apply Htext. }
  destruct (upload_pipeline_success _ _ _ _ _ _ ts Hsplit Hts) as (audio' & Hsrc' & Hok).
  subst ws. simpl in Hsrc'. rewrite lookup_insert_eq, Hsrc in Hsrc'.
  injection Hsrc' as <-.
  unfold outer_try. rewrite Hok. by eauto.
Qed.

(** The URL entry point under the same premises: the request names a URL,
    the download and the split go through and every call returns a string;
    the response is the 500 of the outer [except]. *)
Lemma transcribe_audio_url_aborts env data w audio_url cd audio :
  fresh_names env →
  (∀ n, export_fails env n = false) →
  (∀ n, ∃ s, absorbed_text (endpoint env n) = PyStr s) →
  data !! "audio_url" = Some audio_url →
  py_int (default (PyInt 30) (data !! "chunk_duration")) = Ok cd →
  cd ≠ 0 →
  download env audio_url = Some (Decodable audio) →
  fst (transcribe_audio_url env (JsonDict data) w)
  = (ErrorBody (ServerError FileNotFoundError), 500).
Proof.
  intros Hfresh Hexp Htext Hurl Hcd Hne Hget.
  rewrite (transcribe_audio_url_dict _ _ _ _ Hurl).
  unfold outer_try, url_chunk_arg.
  unfold bind at 1, lift. rewrite Hcd.
  unfold bind at 1, requests_get. rewrite Hget. unfold ret at 1.
  unfold bind at 1. rewrite (NamedTemporaryFile_fresh _ _ Hfresh).
  unfold bind at 1, save_body, write_file. simpl. rewrite insert_insert_eq.
  set (temp_file := mktemp env (dom (fs w))).
  set (ws := set_fs _ _).
  assert (∃ temp_files w1, split_audio env temp_file cd ws = (Ok temp_files, w1))
    as (temp_files & w1 & Hsplit).
  { rewrite split_audio_unfold. subst ws. simpl. rewrite lookup_insert_eq.
    unfold py_range. replace (cd * 1000 =? 0) with false
      by (symmetry; apply Z.eqb_neq; lia).
    by apply split_loop_total. }
  destruct (texts_are_strings
              (λ j, absorbed_text (endpoint env (length (posted ws) + j)%nat))
              (seq 0 (length temp_files))) as [ts Hts].
  { intros n. apply Htext. }
  by rewrite (url_pipeline_texts _ _ _ _ _ _ ts Hsplit Hts).
Qed.

(** C4. In a response that carries a result, every segment text is a string
    and the [text] field is those strings joined by one space, stripped. *)
Theorem result_text_is_joined_segments (env : Env) (upload : UploadRequest)
    (url_request : JsonData) (w w' : World) (r : TranscriptionResult) (st : Z) :
  transcribe_audio env upload w = ((ResultBody r, st), w')
  ∨ transcribe_audio_url env url_request w = ((ResultBody r, st), w') →
  ∃ ts, seg_text <$> segments r = PyStr <$> ts
        ∧ text r = strip (join " " ts).
Proof.
  intros [Hrun|Hrun].
  - apply transcribe_audio_result in Hrun
      as (file & cd & audio & ts & _ & _ & _ & _ & _ & _ & _ & ->).
    exists ts. simpl. split; [apply segment_list_texts|apply strip_trailing].
  - destruct (transcribe_audio_url_error env url_request w) as (msg & st' & H & _).
    rewrite Hrun in H. done.
Qed.


(** C10. With a negative chunk duration [split_audio] returns the empty list
    for any decodable source and leaves the world as it is; an upload that
    passes the checks is then answered 200 with no segment, a count of 0 and
    an empty text, and no transcription request is posted. *)
Theorem negative_chunk_duration (env : Env) (upload : UploadRequest)
    (w : World) (file : FileStorage) (cd : Z) (audio : Audio) :
  files upload !! "file" = Some file →
  filename file ≠ "" →
  allowed_file (config env) (filename file) = true →
  py_int (upload_chunk_arg upload) = Ok cd →
  cd < 0 →
  stream file = Decodable audio →
  (∀ path source w0, fs w0 !! path = Some (Decodable source) →
     split_audio env path cd w0 = (Ok [], w0))
  ∧ fst (transcribe_audio env upload w)
    = (ResultBody {| success := true;
                     text := "";
                     segments := [];
                     duration := len audio # 1000;
                     chunk_count := 0;
                     chunk_duration := cd |}, 200)
  ∧ posted (snd (transcribe_audio env upload w)) = posted w.
Proof.
  intros Hfile Hname Hallowed Hcd Hneg Hsrc.
  assert (Hsplit : ∀ path source w0, fs w0 !! path = Some (Decodable source) →
                     split_audio env path cd w0 = (Ok [], w0)).
  { intros path source w0 Hw0. rewrite split_audio_unfold, Hw0.
    pose proof (len_nonneg source).
    unfold py_range, range_len.
    replace (cd * 1000 =? 0) with false by (symmetry; apply Z.eqb_neq; lia).
    replace (0 <? cd * 1000) with false by (symmetry; apply Z.ltb_ge; lia).
    replace (len source <? 0) with false by (symmetry; apply Z.ltb_ge; lia).
    done. }
  split; [done|].
  rewrite (transcribe_audio_staged _ _ _ _ _ Hfile Hname Hallowed Hcd).
  set (ws := set_fs w (<[upload_path env file := stream file]> (fs w))).
  assert (Hws : fs ws !! upload_path env file = Some (Decodable audio)).
  { subst ws. simpl. by rewrite lookup_insert_eq, Hsrc. }
  destruct (upload_pipeline_success env _ cd ws [] ws [] (Hsplit _ _ _ Hws) eq_refl)
    as (audio' & Hsrc' & Hok).
  rewrite Hws in Hsrc'. injection Hsrc' as <-.
  unfold outer_try. rewrite Hok. simpl. by rewrite app_nil_r.
Qed.

(** ** One failed transcription call *)

Lemma split_loop_endpoint env ep audio cms offsets : ∀ acc w,
  split_loop (with_endpoint env ep) audio cms offsets acc w
  = split_loop env audio cms offsets acc w.
Proof.
  induction offsets as [|i offsets IH]; intros acc w; [done|].
  simpl. unfold bind at 1 3.
  change (NamedTemporaryFile (with_endpoint env ep) w) with (NamedTemporaryFile env w).
  destruct (NamedTemporaryFile env w) as [[name|e] w1]; [|done].
  unfold bind at 1 2, export. simpl.
  destruct (export_fails env (length acc)); [done|].
  unfold write_file. apply IH.
Qed.

Lemma split_audio_endpoint env ep path cd w :
  split_audio (with_endpoint env ep) path cd w = split_audio env path cd w.
Proof.
  rewrite !split_audio_unfold.
  destruct (fs w !! path) as [[audio|]|]; try done.
  destruct (py_range 0 (len audio) (cd * 1000)); [|done].
  apply split_loop_endpoint.
Qed.

Lemma run_texts_lookup env base n (j : nat) :
  (j < n)%nat →
  run_texts env base n !! j = Some (absorbed_text (endpoint env (base + j)%nat)).
Proof.
  intros Hj. unfold run_texts. by rewrite list_lookup_fmap, lookup_seq_lt.
Qed.

Lemma run_texts_length env base n : length (run_texts env base n) = n.
Proof. unfold run_texts. by rewrite length_map, length_seq. Qed.

(** Replacing the outcome of the [k]-th call by a failure replaces the
    [k]-th text by the empty string and nothing else. *)
Lemma run_texts_failed env base n (k : nat) o ts :
  failed_call o →
  run_texts env base n = PyStr <$> ts →
  run_texts (with_endpoint env (override (endpoint env) (base + k) o)) base n
  = PyStr <$> <[k := ""]> ts.
Proof.
  intros Ho Hts.
  assert (Hn : length ts = n).
  { apply (f_equal length) in Hts. by rewrite run_texts_length, length_fmap in Hts. }
  apply list_eq. intros j.
  destruct (decide (j < n)%nat) as [Hj|Hj].
  - rewrite run_texts_lookup by done. simpl. unfold override.
    rewrite list_lookup_fmap.
    destruct (Nat.eqb_spec (base + j) (base + k)) as [E|E].
    + assert (j = k) as -> by lia.
      rewrite list_lookup_insert_eq by lia. simpl. by rewrite absorbed_text_failed.
    + rewrite list_lookup_insert_ne by lia.
      rewrite <- list_lookup_fmap, <- Hts. by rewrite run_texts_lookup.
  - rewrite !lookup_ge_None_2; [done| |].
    + rewrite length_fmap, length_insert. lia.
    + rewrite run_texts_length. lia.
Qed.

(** C6. Take a run of [transcribe_audio] that answered with a result, and
    make the call for segment [k] fail (a timeout, a network failure or a
    status other than 200) with everything else unchanged.  The run still
    answers 200 with a result; segment [k] has the empty text and its id and
    times as before; every other segment is the same; so are the duration,
    the count, the chunk duration and the world the run leaves. *)
Theorem one_failed_call_is_absorbed (env : Env) (upload : UploadRequest)
    (w w' : World) (r : TranscriptionResult) (st : Z) (k : nat) (o : HttpOutcome) :
  transcribe_audio env upload w = ((ResultBody r, st), w') →
  (k < length (segments r))%nat →
  failed_call o →
  ∃ r',
    transcribe_audio
      (with_endpoint env (override (endpoint env) (length (posted w) + k) o))
      upload w
    = ((ResultBody r', 200), w')
    ∧ length (segments r') = length (segments r)
    ∧ (∃ seg, segments r !! k = Some seg
              ∧ segments r' !! k = Some {| segment_id := segment_id seg;
                                           seg_text := PyStr "";
                                           start_time := start_time seg;
                                           end_time := end_time seg |})
    ∧ (∀ j : nat, j ≠ k → segments r' !! j = segments r !! j)
    ∧ duration r' = duration r
    ∧ chunk_count r' = chunk_count r
    ∧ chunk_duration r' = chunk_duration r.
Proof.
  intros Hrun Hk Ho.
  destruct (transcribe_audio_result_inv _ _ _ _ _ _ Hrun)
    as (file & cd & Hfile & Hname & Hallowed & Hcd).
  set (env' := with_endpoint env (override (endpoint env) (length (posted w) + k) o)).
  rewrite (transcribe_audio_staged env' _ _ _ _ Hfile Hname Hallowed Hcd).
  rewrite (transcribe_audio_staged _ _ _ _ _ Hfile Hname Hallowed Hcd) in Hrun.
  change (upload_path env' file) with (upload_path env file).
  set (ws := set_fs w _) in *.
  apply outer_try_result in Hrun.
  destruct (upload_pipeline_result_inv _ _ _ _ _ _ _ Hrun)
    as (temp_files & w1 & ts & Hsplit & Htexts).
  destruct (upload_pipeline_success _ _ _ _ _ _ _ Hsplit Htexts)
    as (audio & Hsrc & Hok).
  rewrite Hok in Hrun. injection Hrun as <- <- <-.
  simpl in Hk. rewrite segment_list_length in Hk.
  pose proof (run_texts_failed env _ _ k o ts Ho Htexts) as Htexts'.
  rewrite <- (split_audio_endpoint env (override (endpoint env) (length (posted w) + k) o))
    in Hsplit.
  destruct (upload_pipeline_success env' _ _ _ _ _ _ Hsplit Htexts')
    as (audio' & Hsrc' & Hok').
  rewrite Hsrc in Hsrc'. injection Hsrc' as <-.
  eexists. split.
  { unfold outer_try. rewrite Hok'. reflexivity. }
  simpl. rewrite !segment_list_length, length_insert.
  repeat split; try done.
  - destruct (lookup_lt_is_Some_2 ts k Hk) as [t Ht].
    eexists. rewrite !segment_list_lookup, Ht, list_lookup_insert_eq by done.
    simpl. split; reflexivity.
  - intros j Hj. rewrite !segment_list_lookup, list_lookup_insert_ne by done. done.
Qed.

(** ** The sample upload *)

Lemma sample_env_fresh : fresh_names sample_env.
Proof. intros X. apply is_fresh. Qed.

Lemma sample_upload_run :
  transcribe_audio sample_env (sample_upload "30") empty_world
  = ((ResultBody sample_result, 200), sample_final).
Proof. vm_compute. reflexivity. Qed.

(** ** Cleaning up *)

(** Once [temp_files] is bound, the upload pipeline ends with none of these
    files on disk, whether it returns the result or goes through its
    handler. *)
Lemma upload_pipeline_cleans env path cd w temp_files w1 :
  split_audio env path cd w = (Ok temp_files, w1) →
  ∀ p, p ∈ temp_files → fs (snd (upload_pipeline env path cd w)) !! p = None.
Proof.
  intros Hsplit p Hp. unfold upload_pipeline. rewrite Hsplit. unfold try_except.
  destruct (upload_after_split env path cd temp_files w1) as [[resp|e] w2] eqn:E.
  - revert E. unfold upload_after_split. unfold bind at 1.
    destruct (transcribe_loop env cd 0 temp_files [] "" w1) as [[r|e] w3]; [|done].
    unfold bind at 1. rewrite cleanup_temp_files_removed.
    unfold bind at 1, from_file. simpl.
    destruct (removed temp_files (fs w3) !! path) as [[audio|]|] eqn:Hsrc; try done.
    unfold bind, os_unlink. simpl. rewrite Hsrc. intros [= _ <-]. simpl.
    apply lookup_delete_None. right. by apply removed_lookup_in.
  - rewrite upload_except_spec. simpl.
    apply lookup_delete_None. right. by apply removed_lookup_in.
Qed.

(** The same for the URL pipeline. *)
Lemma url_pipeline_cleans env temp_file cd w temp_files w1 :
  split_audio env temp_file cd w = (Ok temp_files, w1) →
  ∀ p, p ∈ temp_files → fs (snd (url_pipeline env temp_file cd w)) !! p = None.
Proof.
  intros Hsplit p Hp. unfold url_pipeline. rewrite Hsplit. unfold try_except.
  destruct (url_after_split_raises env temp_file cd temp_files w1) as (e & w2 & ->).
  rewrite url_except_spec. simpl.
  destruct (removed temp_files (fs w2) !! temp_file); simpl.
  - apply lookup_delete_None. right. by apply removed_lookup_in.
  - by apply removed_lookup_in.
Qed.

(** A source that does not decode fails before any file is created: the
    split raises in the world it found, and the upload is answered 500 with
    only the staged file removed. *)
Lemma split_audio_undecodable env path cd w :
  fs w !! path = Some Undecodable →
  split_audio env path cd w = (Raise CouldntDecodeError, w).
Proof. intros H. by rewrite split_audio_unfold, H. Qed.

Lemma upload_pipeline_undecodable env path cd w :
  fs w !! path = Some Undecodable →
  upload_pipeline env path cd w
  = (Ok (ErrorBody (TranscribeFailed CouldntDecodeError), 500),
     set_fs w (delete path (fs w))).
Proof.
  intros H. unfold upload_pipeline.
  rewrite (split_audio_undecodable _ _ _ _ H). by rewrite upload_except_spec.
Qed.

(** C2 (the failing path). A 95-second upload cut in chunks of 30 whose
    third segment cannot be written: [split_audio] raises with two segments
    on disk and the third file created, [temp_files] is not bound in the
    handler of lines 209-219, and the three files are still there when the
    500 is returned.  Only the upload itself is removed.  The same upload
    with no write failure leaves the directory empty. *)
Theorem failed_split_leaves_segments :
  let run := transcribe_audio disk_full_env (sample_upload "30") empty_world in
  fst run = (ErrorBody (TranscribeFailed OSError), 500)
  ∧ fs empty_world = ∅
  ∧ fs (snd run) !! "0" = Some (Decodable {| a_start := 0; a_len := 30000 |})
  ∧ fs (snd run) !! "1" = Some (Decodable {| a_start := 30000; a_len := 30000 |})
  ∧ fs (snd run) !! "2" = Some Undecodable
  ∧ fs (snd run) !! "uploads/talk.WAV" = None
  ∧ fs (snd (transcribe_audio sample_env (sample_upload "30") empty_world)) = ∅.
Proof.
  cbv zeta.
  assert (Hrun : transcribe_audio disk_full_env (sample_upload "30") empty_world
                 = ((ErrorBody (TranscribeFailed OSError), 500),
                    {| fs := {[ "0" := Decodable {| a_start := 0; a_len := 30000 |};
                                "1" := Decodable {| a_start := 30000; a_len := 30000 |};
                                "2" := Undecodable ]};
                       posted := [] |})).
  { vm_compute. reflexivity. }
  rewrite Hrun. simpl.
  split; [reflexivity|]. split; [reflexivity|].
  split; [by vm_compute|]. split; [by vm_compute|].
  split; [by vm_compute|]. split; [by vm_compute|].
  rewrite sample_upload_run. vm_compute. reflexivity.
Qed.

(** ** Malformed requests *)

Lemma transcribe_audio_rejects env request w :
  missing_file request ∨ bad_extension (config env) request →
  ∃ msg, transcribe_audio env request w = ((ErrorBody msg, 400), w).
Proof.
  unfold transcribe_audio, outer_try.
  intros [[Hnone|(file & Hfile & Hname)]|(file & Hfile & Hbad)].
  - rewrite Hnone. by eauto.
  - rewrite Hfile, Hname. by eauto.
  - rewrite Hfile, Hbad. destruct (String.eqb (filename file) ""); by eauto.
Qed.

Lemma transcribe_audio_bad_chunk env request w file e :
  files request !! "file" = Some file →
  filename file ≠ "" →
  allowed_file (config env) (filename file) = true →
  py_int (upload_chunk_arg request) = Raise e →
  transcribe_audio env request w = ((ErrorBody (ServerError e), 500), w).
Proof.
  intros Hfile Hname Hallowed Hcd. unfold transcribe_audio, outer_try.
  rewrite Hfile. apply String.eqb_neq in Hname. rewrite Hname, Hallowed. simpl.
  unfold bind, lift. fold (upload_chunk_arg request). by rewrite Hcd.
Qed.

(** C8, as the code has it.  An upload without a file, with an unnamed file
    or with a refused extension is answered 400.  A URL request that carries
    no [audio_url] is answered 400 when the test of line 237 can be made:
    the body is [null], [false], zero, empty, or a string, an array or an
    object without [audio_url].  It is answered 500 by the outer [except]
    when that test or the lookup after it raises: the body is not JSON, is
    [true] or a number other than 0, or is a string or an array that
    contains ["audio_url"]; each such request carries no [audio_url].  A
    chunk duration that [int] does not convert, in a request that is
    otherwise in order, is answered 500 by the outer [except] too.  In each
    case the world is left as it was: nothing is written, nothing is posted,
    nothing is tried again. *)
Theorem malformed_requests_are_refused (env : Env) (upload : UploadRequest)
    (url_request : JsonData) (w : World) :
  (missing_file upload ∨ bad_extension (config env) upload →
     ∃ msg, transcribe_audio env upload w = ((ErrorBody msg, 400), w))
  ∧ (∀ file, files upload !! "file" = Some file →
       filename file ≠ "" →
       allowed_file (config env) (filename file) = true →
       not_an_integer (upload_chunk_arg upload) →
       ∃ msg, transcribe_audio env upload w = ((ErrorBody msg, 500), w))
  ∧ (missing_url url_request → ¬ url_check_raises url_request →
       transcribe_audio_url env url_request w = ((ErrorBody MissingAudioUrl, 400), w))
  ∧ (url_check_raises url_request →
       missing_url url_request
       ∧ ∃ e, transcribe_audio_url env url_request w
              = ((ErrorBody (ServerError e), 500), w))
  ∧ (∀ data audio_url, url_request = JsonDict data →
       data !! "audio_url" = Some audio_url →
       not_an_integer (url_chunk_arg data) →
       ∃ msg, transcribe_audio_url env url_request w = ((ErrorBody msg, 500), w)).
Proof.
  split; [|split; [|split; [|split]]].
  - apply transcribe_audio_rejects.
  - intros file Hfile Hname Hallowed [e He].
    rewrite (transcribe_audio_bad_chunk _ _ _ _ _ Hfile Hname Hallowed He). by eauto.
  - apply transcribe_audio_url_refused.
  - intros Hbad. split.
    + intros data ->. by destruct Hbad.
    + by apply transcribe_audio_url_check_raises.
  - intros data audio_url -> Hurl [e He].
    rewrite (transcribe_audio_url_dict _ _ _ _ Hurl). unfold outer_try.
    unfold bind, lift. rewrite He. by eauto.
Qed.

(** C8 as stated fails: an upload of [talk.WAV] with chunk duration [abc]
    is answered 500. *)
Lemma bad_chunk_duration_is_500 : ¬ malformed_requests_get_4xx.
Proof.
  intros [Hupload _].
  specialize (Hupload sample_env (sample_upload "abc") empty_world).
  assert (Hbad : not_an_integer (upload_chunk_arg (sample_upload "abc"))).
  { exists ValueError. reflexivity. }
  specialize (Hupload (or_intror (or_intror Hbad))).
  vm_compute in Hupload. destruct Hupload as [_ H]. discriminate H.
Qed.

(** ** The properties on the sample runs *)

Lemma split_audio_segments_witness :
  0 < 30
  ∧ fs staged_world !! "uploads/talk.WAV" = Some (Decodable sample_audio)
  ∧ ∃ temp_files w',
      split_audio sample_env "uploads/talk.WAV" 30 staged_world = (Ok temp_files, w')
      ∧ Z.of_nat (length temp_files)
        = Qceiling ((len sample_audio # 1000) / inject_Z 30)
      ∧ ∀ (k : nat) p, temp_files !! k = Some p →
          ∃ chunk,
            fs w' !! p = Some (Decodable chunk)
            ∧ a_start chunk = a_start sample_audio + Z.of_nat k * (30 * 1000)
            ∧ if decide (S k = length temp_files)
              then 0 < len chunk ≤ 30 * 1000
                   ∧ a_start chunk + len chunk
                     = a_start sample_audio + len sample_audio
              else len chunk = 30 * 1000.
Proof.
  split; [lia|]. split; [reflexivity|].
  apply (split_audio_segments sample_env "uploads/talk.WAV" 30 sample_audio staged_world).
  - apply sample_env_fresh.
  - intros n. reflexivity.
  - lia.
  - reflexivity.
Defined.

Lemma result_text_is_joined_segments_witness :
  ∃ ts, seg_text <$> segments sample_result = PyStr <$> ts
        ∧ text sample_result = strip (join " " ts).
Proof.
  apply (result_text_is_joined_segments sample_env (sample_upload "30") JsonNull
           empty_world sample_final sample_result 200).
  left. apply sample_upload_run.
Defined.

Lemma transcribe_chunk_spec_witness :
  is_Some (fs staged_world !! "uploads/talk.WAV")
  ∧ fst (transcribe_chunk sample_env "uploads/talk.WAV" staged_world)
    = Ok (PyStr "hello").
Proof.
  assert (H : is_Some (fs staged_world !! "uploads/talk.WAV")).
  { exists (Decodable sample_audio). reflexivity. }
  split; [exact H|].
  apply (proj1 (transcribe_chunk_spec sample_env "uploads/talk.WAV" staged_world H)
           {[ "text" := PyStr "hello" ]} (PyStr "hello")); reflexivity.
Defined.

Lemma one_failed_call_is_absorbed_witness :
  failed_call Timeout
  ∧ ∃ r',
      transcribe_audio
        (with_endpoint sample_env
           (override (endpoint sample_env) (length (posted empty_world) + 1) Timeout))
        (sample_upload "30") empty_world
      = ((ResultBody r', 200), sample_final)
      ∧ length (segments r') = length (segments sample_result)
      ∧ (∃ seg, segments sample_result !! 1%nat = Some seg
                ∧ segments r' !! 1%nat
                  = Some {| segment_id := segment_id seg;
                            seg_text := PyStr "";
                            start_time := start_time seg;
                            end_time := end_time seg |})
      ∧ (∀ j : nat, j ≠ 1%nat → segments r' !! j = segments sample_result !! j)
      ∧ duration r' = duration sample_result
      ∧ chunk_count r' = chunk_count sample_result
      ∧ chunk_duration r' = chunk_duration sample_result.
Proof.
  split; [exact I|].
  apply (one_failed_call_is_absorbed sample_env (sample_upload "30") empty_world
           sample_final sample_result 200 1 Timeout).
  - apply sample_upload_run.
  - simpl. lia.
  - exact I.
Defined.


Lemma negative_chunk_duration_witness :
  -5 < 0
  ∧ (∀ path source w0, fs w0 !! path = Some (Decodable source) →
       split_audio sample_env path (-5) w0 = (Ok [], w0))
  ∧ fst (transcribe_audio sample_env (sample_upload "-5") empty_world)
    = (ResultBody {| success := true;
                     text := "";
                     segments := [];
                     duration := len sample_audio # 1000;
                     chunk_count := 0;
                     chunk_duration := -5 |}, 200)
  ∧ posted (snd (transcribe_audio sample_env (sample_upload "-5") empty_world))
    = posted empty_world.
Proof.
  split; [lia|].
  apply (negative_chunk_duration sample_env (sample_upload "-5") empty_world
           {| filename := "talk.WAV"; stream := Decodable sample_audio |}
           (-5) sample_audio).
  - reflexivity.
  - discriminate.
  - reflexivity.
  - reflexivity.
  - lia.
  - reflexivity.
Defined.

Lemma malformed_requests_are_refused_witness :
  (∃ msg, transcribe_audio sample_env text_upload empty_world
          = ((ErrorBody msg, 400), empty_world))
  ∧ (∃ msg, transcribe_audio sample_env (sample_upload "abc") empty_world
            = ((ErrorBody msg, 500), empty_world))
  ∧ transcribe_audio_url sample_env no_url_request empty_world
    = ((ErrorBody MissingAudioUrl, 400), empty_world)
  ∧ (missing_url number_url_request
     ∧ ∃ e, transcribe_audio_url sample_env number_url_request empty_world
            = ((ErrorBody (ServerError e), 500), empty_world))
  ∧ (missing_url array_url_request
     ∧ ∃ e, transcribe_audio_url sample_env array_url_request empty_world
            = ((ErrorBody (ServerError e), 500), empty_world))
  ∧ (∃ msg, transcribe_audio_url sample_env bad_chunk_url_request empty_world
            = ((ErrorBody msg, 500), empty_world)).
Proof.
  split; [|split; [|split; [|split; [|split]]]].
  - apply (proj1 (malformed_requests_are_refused sample_env text_upload JsonNull
                    empty_world)).
    right. exists {| filename := "notes.txt"; stream := Undecodable |}.
    split; reflexivity.
  - apply (proj1 (proj2 (malformed_requests_are_refused sample_env
                           (sample_upload "abc") JsonNull empty_world))
             {| filename := "talk.WAV"; stream := Decodable sample_audio |}).
    + reflexivity.
    + discriminate.
    + reflexivity.
    + exists ValueError. reflexivity.
  - apply (proj1 (proj2 (proj2 (malformed_requests_are_refused sample_env
                                  text_upload no_url_request empty_world)))).
    + intros data Heq. injection Heq as <-. reflexivity.
    + intros [].
  - apply (proj1 (proj2 (proj2 (proj2 (malformed_requests_are_refused sample_env
                                         text_upload number_url_request
                                         empty_world))))).
    simpl. discriminate.
  - apply (proj1 (proj2 (proj2 (proj2 (malformed_requests_are_refused sample_env
                                         text_upload array_url_request
                                         empty_world))))).
    reflexivity.
  - apply (proj2 (proj2 (proj2 (proj2 (malformed_requests_are_refused sample_env
                                         text_upload bad_chunk_url_request
                                         empty_world))))
             _ (PyStr "http://host/talk.wav") eq_refl).
    + reflexivity.
    + exists ValueError. reflexivity.
Defined.

(** * Further properties of the code *)

(** ** [cleanup_temp_files] on its own *)

Lemma removed_idemp l (f : gmap string File) : removed l (removed l f) = removed l f.
Proof.
  apply map_eq. intros q. destruct (decide (q ∈ l)) as [Hq|Hq].
  - by rewrite !removed_lookup_in.
  - by rewrite !removed_lookup_notin.
Qed.

(** X1. [cleanup_temp_files] never raises, whatever the list and the
    directory: names that are missing or listed twice are skipped.  After it
    no listed file exists, every other file is as it was, and no request was
    posted. *)
Theorem cleanup_temp_files_spec (temp_files : list string) (w : World) :
  ∃ w',
    cleanup_temp_files temp_files w = (Ok (), w')
    ∧ posted w' = posted w
    ∧ (∀ p, p ∈ temp_files → fs w' !! p = None)
    ∧ (∀ q, q ∉ temp_files → fs w' !! q = fs w !! q).
Proof.
  exists (set_fs w (removed temp_files (fs w))).
  split; [apply cleanup_temp_files_removed|]. simpl.
  split; [done|]. split.
  - intros p Hp. by apply removed_lookup_in.
  - intros q Hq. by apply removed_lookup_notin.
Qed.

Lemma cleanup_temp_files_spec_witness :
  ∃ w',
    cleanup_temp_files ["uploads/tmp1.wav"; "uploads/gone.wav"; "uploads/tmp1.wav"]
      littered_world = (Ok (), w')
    ∧ fs w' !! "uploads/tmp1.wav" = None
    ∧ fs w' !! "uploads/keep.wav" = Some (Decodable sample_audio).
Proof.
  destruct (cleanup_temp_files_spec
              ["uploads/tmp1.wav"; "uploads/gone.wav"; "uploads/tmp1.wav"]
              littered_world) as (w' & Hrun & _ & Hgone & Hkeep).
  exists w'. split; [exact Hrun|]. split.
  - apply Hgone. apply elem_of_cons. by left.
  - rewrite Hkeep; [reflexivity|].
    intros Hin. repeat (apply elem_of_cons in Hin as [Hin|Hin]; [done|]).
    by apply elem_of_nil in Hin.
Defined.

(** X2. Cleaning up twice is cleaning up once: a second call on the same
    list finds nothing to remove and changes nothing.  (The handlers call it
    again in their [except] branch after the [try] body already did.) *)
Theorem cleanup_temp_files_twice (temp_files : list string) (w : World) :
  cleanup_temp_files temp_files (snd (cleanup_temp_files temp_files w))
  = (Ok (), snd (cleanup_temp_files temp_files w)).
Proof.
  rewrite !cleanup_temp_files_removed. simpl. by rewrite removed_idemp.
Qed.

(** ** [split_audio] and the files that were there *)

Lemma split_loop_keeps env audio cms offsets : ∀ acc w res w',
  split_loop env audio cms offsets acc w = (res, w') →
  posted w' = posted w
  ∧ ∀ q f, fs w !! q = Some f → fs w' !! q = Some f.
Proof.
  induction offsets as [|i offsets IH]; intros acc w res w'; simpl.
  - by intros [= _ <-].
  - unfold bind at 1, NamedTemporaryFile.
    destruct (fs w !! mktemp env (dom (fs w))) eqn:Hname; [by intros [= _ <-]|].
    unfold bind at 1, export.
    destruct (export_fails env (length acc)).
    + unfold bind, write_file, raise. intros [= _ <-]. simpl.
      split; [done|]. intros q f Hq.
      rewrite !lookup_insert_ne; [done| |]; congruence.
    + unfold write_file. intros Hrun. apply IH in Hrun as [Hposted Hkeep].
      split; [done|]. intros q f Hq. apply Hkeep. simpl.
      rewrite !lookup_insert_ne; [done| |]; congruence.
Qed.

Lemma split_audio_keeps env path cd w res w' :
  split_audio env path cd w = (res, w') →
  posted w' = posted w
  ∧ ∀ q f, fs w !! q = Some f → fs w' !! q = Some f.
Proof.
  rewrite split_audio_unfold.
  destruct (fs w !! path) as [[audio|]|]; try by intros [= _ <-].
  destruct (py_range 0 (len audio) (cd * 1000)); [|by intros [= _ <-]].
  apply split_loop_keeps.
Qed.

(** X3. [split_audio] only ever adds files.  However it ends, by returning
    or by raising at any point of its loop, every file that was in the
    directory is still there with the same content and no request was
    posted.  When it returns, the names it returns are pairwise distinct,
    were all free before the call and all exist after it. *)
Theorem split_audio_only_adds (env : Env) (path : string) (cd : Z) (w : World) :
  posted (snd (split_audio env path cd w)) = posted w
  ∧ (∀ q f, fs w !! q = Some f → fs (snd (split_audio env path cd w)) !! q = Some f)
  ∧ (∀ temp_files, fst (split_audio env path cd w) = Ok temp_files →
       NoDup temp_files
       ∧ ∀ p, p ∈ temp_files →
           fs w !! p = None ∧ is_Some (fs (snd (split_audio env path cd w)) !! p)).
Proof.
  destruct (split_audio env path cd w) as [res w'] eqn:Hrun. simpl.
  destruct (split_audio_keeps _ _ _ _ _ _ Hrun) as [Hposted Hkeep].
  split; [done|]. split; [done|].
  intros temp_files ->.
  destruct (split_audio_files _ _ _ _ _ _ Hrun) as (_ & Hnodup & Hnew & _).
  by split.
Qed.

Lemma split_audio_only_adds_witness :
  fs (snd (split_audio disk_full_env "uploads/talk.WAV" 30 staged_world))
    !! "uploads/talk.WAV" = Some (Decodable sample_audio)
  ∧ NoDup ["0"; "1"; "2"; "3"].
Proof.
  split.
  - apply (proj1 (proj2 (split_audio_only_adds disk_full_env "uploads/talk.WAV" 30
                           staged_world))).
    reflexivity.
  - apply (proj1 (proj2 (proj2 (split_audio_only_adds sample_env "uploads/talk.WAV" 30
                                  staged_world)) ["0"; "1"; "2"; "3"]
                    ltac:(vm_compute; reflexivity))).
Defined.

(** ** [transcribe_chunk] and the world *)

(** X4. [transcribe_chunk] never changes a file.  When the segment file is
    missing it returns the empty string without posting anything; when the
    file is there it posts exactly one request, for that file.  A 200 whose
    body is not JSON, or is JSON but not an object, gives the empty string
    like any failure. *)
Theorem transcribe_chunk_effects (env : Env) (path : string) (w : World) :
  fs (snd (transcribe_chunk env path w)) = fs w
  ∧ (fs w !! path = None → transcribe_chunk env path w = (Ok (PyStr ""), w))
  ∧ (is_Some (fs w !! path) →
       posted (snd (transcribe_chunk env path w)) = posted w ++ [path])
  ∧ (is_Some (fs w !! path) →
       endpoint env (length (posted w)) = Response 200 NotJson
       ∨ endpoint env (length (posted w)) = Response 200 JsonNonObject →
       fst (transcribe_chunk env path w) = Ok (PyStr "")).
Proof.
  destruct (fs w !! path) as [f|] eqn:Hf.
  - rewrite transcribe_chunk_posted by eauto. simpl.
    repeat split; try done.
    by intros _ [-> | ->].
  - rewrite transcribe_chunk_missing by done. simpl.
    repeat split; try done; by intros [? ?].
Qed.

Lemma transcribe_chunk_effects_witness :
  transcribe_chunk sample_env "uploads/nowhere.wav" staged_world
  = (Ok (PyStr ""), staged_world)
  ∧ posted (snd (transcribe_chunk sample_env "uploads/talk.WAV" staged_world))
    = posted staged_world ++ ["uploads/talk.WAV"].
Proof.
  split.
  - apply (proj1 (proj2 (transcribe_chunk_effects sample_env "uploads/nowhere.wav"
                           staged_world))).
    reflexivity.
  - apply (proj1 (proj2 (proj2 (transcribe_chunk_effects sample_env "uploads/talk.WAV"
                                  staged_world)))).
    exists (Decodable sample_audio). reflexivity.
Defined.

(** ** What a request leaves in the upload directory *)

Lemma upload_split_fails env path cd w e w1 :
  split_audio env path cd w = (Raise e, w1) →
  upload_pipeline env path cd w
  = (Ok (ErrorBody (TranscribeFailed e), 500), set_fs w1 (delete path (fs w1))).
Proof.
  intros H. unfold upload_pipeline. rewrite H. by rewrite upload_except_spec.
Qed.

(** X5. An upload that passes the checks but cannot be split at all, because
    it does not decode or because the chunk duration is 0, is answered 500
    with the exception of [split_audio] ([CouldntDecodeError], or
    [ValueError] from [range]).  No request is posted, and the directory is
    what it was without the staged name: the upload itself is removed and no
    segment file was created. *)
Theorem unsplittable_upload_is_500 (env : Env) (upload : UploadRequest)
    (w : World) (file : FileStorage) (cd : Z) :
  files upload !! "file" = Some file →
  filename file ≠ "" →
  allowed_file (config env) (filename file) = true →
  py_int (upload_chunk_arg upload) = Ok cd →
  (stream file = Undecodable →
     transcribe_audio env upload w
     = ((ErrorBody (TranscribeFailed CouldntDecodeError), 500),
        set_fs w (delete (upload_path env file) (fs w))))
  ∧ (∀ audio, stream file = Decodable audio → cd = 0 →
       transcribe_audio env upload w
       = ((ErrorBody (TranscribeFailed ValueError), 500),
          set_fs w (delete (upload_path env file) (fs w)))).
Proof.
  intros Hfile Hname Hallowed Hcd.
  rewrite (transcribe_audio_staged _ _ _ _ _ Hfile Hname Hallowed Hcd).
  unfold outer_try. split.
  - intros Hbad. erewrite upload_split_fails.
    2: { rewrite split_audio_unfold. simpl. rewrite lookup_insert_eq, Hbad.
         reflexivity. }
    unfold set_fs. simpl. by rewrite delete_insert_eq.
  - intros audio Hsrc ->. erewrite upload_split_fails.
    2: { rewrite split_audio_unfold. simpl. rewrite lookup_insert_eq, Hsrc.
         reflexivity. }
    unfold set_fs. simpl. by rewrite delete_insert_eq.
Qed.

Lemma unsplittable_upload_is_500_witness :
  transcribe_audio sample_env corrupt_upload littered_world
  = ((ErrorBody (TranscribeFailed CouldntDecodeError), 500),
     set_fs littered_world (delete "uploads/noise.mp3" (fs littered_world)))
  ∧ transcribe_audio sample_env (sample_upload "0") littered_world
    = ((ErrorBody (TranscribeFailed ValueError), 500),
       set_fs littered_world (delete "uploads/talk.WAV" (fs littered_world))).
Proof.
  split.
  - apply (proj1 (unsplittable_upload_is_500 sample_env corrupt_upload littered_world
                    {| filename := "noise.mp3"; stream := Undecodable |} 30
                    eq_refl ltac:(discriminate) eq_refl eq_refl)).
    reflexivity.
  - apply (proj2 (unsplittable_upload_is_500 sample_env (sample_upload "0")
                    littered_world
                    {| filename := "talk.WAV"; stream := Decodable sample_audio |} 0
                    eq_refl ltac:(discriminate) eq_refl eq_refl) sample_audio);
      reflexivity.
Defined.

Lemma upload_pipeline_removes_source env path cd w :
  fs (snd (upload_pipeline env path cd w)) !! path = None.
Proof.
  unfold upload_pipeline.
  destruct (split_audio env path cd w) as [[temp_files|e] w1].
  2: { rewrite upload_except_spec. simpl. apply lookup_delete_eq. }
  unfold try_except.
  destruct (upload_after_split env path cd temp_files w1) as [[resp|e] w2] eqn:E.
  - revert E. unfold upload_after_split. unfold bind at 1.
    destruct (transcribe_loop env cd 0 temp_files [] "" w1) as [[r|e] w3]; [|done].
    unfold bind at 1. rewrite cleanup_temp_files_removed.
    unfold bind at 1, from_file. simpl.
    destruct (removed temp_files (fs w3) !! path) as [[audio|]|] eqn:Hsrc; try done.
    unfold bind, os_unlink. simpl. rewrite Hsrc. intros [= _ <-]. simpl.
    apply lookup_delete_eq.
  - rewrite upload_except_spec. simpl. apply lookup_delete_eq.
Qed.

(** X6. The staged upload never outlives its request.  Once the checks and
    the integer conversion have passed, whatever happens next (the split
    fails at any point, a call returns something that is not a string, the
    run succeeds), the file saved at [upload_path] is gone when
    [transcribe_audio] returns. *)
Theorem staged_upload_is_removed (env : Env) (upload : UploadRequest)
    (w : World) (file : FileStorage) (cd : Z) :
  files upload !! "file" = Some file →
  filename file ≠ "" →
  allowed_file (config env) (filename file) = true →
  py_int (upload_chunk_arg upload) = Ok cd →
  fs (snd (transcribe_audio env upload w)) !! upload_path env file = None.
Proof.
  intros Hfile Hname Hallowed Hcd.
  rewrite (transcribe_audio_staged _ _ _ _ _ Hfile Hname Hallowed Hcd).
  unfold outer_try.
  pose proof (upload_pipeline_removes_source env (upload_path env file) cd
                (set_fs w (<[upload_path env file := stream file]> (fs w)))) as H.
  by destruct (upload_pipeline env (upload_path env file) cd _) as [[resp|e] w'].
Qed.

Lemma staged_upload_is_removed_witness :
  fs (snd (transcribe_audio disk_full_env (sample_upload "30") empty_world))
    !! "uploads/talk.WAV" = None.
Proof.
  apply (staged_upload_is_removed disk_full_env (sample_upload "30") empty_world
           {| filename := "talk.WAV"; stream := Decodable sample_audio |} 30).
  - reflexivity.
  - discriminate.
  - reflexivity.
  - reflexivity.
Defined.

Lemma url_pipeline_removes_download env temp_file cd w :
  fs (snd (url_pipeline env temp_file cd w)) !! temp_file = None.
Proof.
  unfold url_pipeline.
  destruct (split_audio env temp_file cd w) as [[temp_files|e] w1].
  - unfold try_except.
    destruct (url_after_split_raises env temp_file cd temp_files w1) as (e & w2 & ->).
    rewrite url_except_spec. simpl.
    destruct (removed temp_files (fs w2) !! temp_file) eqn:E; simpl; [|done].
    apply lookup_delete_eq.
  - rewrite url_except_spec. simpl.
    destruct (fs w1 !! temp_file) eqn:E; simpl; [|done].
    apply lookup_delete_eq.
Qed.

(** X7. The file that [transcribe_audio_url] downloads never outlives its
    request either: when the request names a URL, the chunk duration
    converts, the download goes through and the temporary name is free, the
    downloaded file is gone when the handler returns, on each of its paths. *)
Theorem downloaded_file_is_removed (env : Env) (data : gmap string pyval)
    (w : World) (audio_url : pyval) (cd : Z) (content : File) :
  fresh_names env →
  data !! "audio_url" = Some audio_url →
  py_int (url_chunk_arg data) = Ok cd →
  download env audio_url = Some content →
  fs w !! mktemp env (dom (fs w)) = None
  ∧ fs (snd (transcribe_audio_url env (JsonDict data) w))
      !! mktemp env (dom (fs w)) = None.
Proof.
  intros Hfresh Hurl Hcd Hget.
  split; [apply not_elem_of_dom, Hfresh|].
  rewrite (transcribe_audio_url_dict _ _ _ _ Hurl). unfold outer_try.
  unfold bind at 1, lift. rewrite Hcd.
  unfold bind at 1, requests_get. rewrite Hget. unfold ret at 1.
  unfold bind at 1. rewrite (NamedTemporaryFile_fresh _ _ Hfresh).
  unfold bind at 1, save_body, write_file.
  match goal with
  | |- context [url_pipeline env ?tf cd ?w2] =>
      pose proof (url_pipeline_removes_download env tf cd w2) as H;
      destruct (url_pipeline env tf cd w2) as [[resp|e] w']
  end; done.
Qed.

Lemma downloaded_file_is_removed_witness :
  fs (snd (transcribe_audio_url corrupt_url_env sample_url_request littered_world))
    !! mktemp corrupt_url_env (dom (fs littered_world)) = None.
Proof.
  apply (downloaded_file_is_removed corrupt_url_env
           {[ "audio_url" := PyStr "http://host/talk.wav"; "chunk_duration" := PyInt 30 ]}
           littered_world (PyStr "http://host/talk.wav") 30 Undecodable).
  - intros X. apply is_fresh.
  - reflexivity.
  - reflexivity.
  - reflexivity.
Defined.

Lemma directory_restored env path cd w temp_files w1 :
  split_audio env path cd w = (Ok temp_files, w1) →
  delete path (removed temp_files (fs w1)) = delete path (fs w).
Proof.
  intros Hsplit.
  destruct (split_audio_files _ _ _ _ _ _ Hsplit) as (_ & _ & Hnew & Hkeep).
  apply map_eq. intros q. destruct (decide (q = path)) as [->|Hne].
  - by rewrite !lookup_delete_eq.
  - rewrite !lookup_delete_ne by done.
    destruct (decide (q ∈ temp_files)) as [Hq|Hq].
    + rewrite removed_lookup_in by done. symmetry. by apply Hnew.
    + rewrite removed_lookup_notin by done. by apply Hkeep.
Qed.

(** X8. A run of [transcribe_audio] that answers with a result leaves the
    upload directory as it found it, less the staged name: every segment
    file it created is gone.  It posted one request per segment, in order,
    for pairwise distinct files that did not exist before, and as many
    requests as [chunk_count] says. *)
Theorem successful_upload_restores_directory (env : Env) (upload : UploadRequest)
    (w w' : World) (r : TranscriptionResult) (st : Z) :
  transcribe_audio env upload w = ((ResultBody r, st), w') →
  ∃ file temp_files,
    files upload !! "file" = Some file
    ∧ fs w' = delete (upload_path env file) (fs w)
    ∧ posted w' = posted w ++ temp_files
    ∧ Z.of_nat (length temp_files) = chunk_count r
    ∧ NoDup temp_files
    ∧ ∀ p, p ∈ temp_files → fs w !! p = None.
Proof.
  intros Hrun.
  destruct (transcribe_audio_result_inv _ _ _ _ _ _ Hrun)
    as (file & cd & Hfile & Hname & Hallowed & Hcd).
  rewrite (transcribe_audio_staged _ _ _ _ _ Hfile Hname Hallowed Hcd) in Hrun.
  apply outer_try_result in Hrun.
  destruct (upload_pipeline_result_inv _ _ _ _ _ _ _ Hrun)
    as (temp_files & w1 & ts & Hsplit & Htexts).
  destruct (upload_pipeline_success _ _ _ _ _ _ _ Hsplit Htexts) as (audio & Hsrc & Hok).
  rewrite Hok in Hrun. injection Hrun as <- _ <-.
  destruct (split_audio_files _ _ _ _ _ _ Hsplit) as (_ & Hnodup & Hnew & _).
  exists file, temp_files. simpl.
  rewrite (directory_restored _ _ _ _ _ _ Hsplit). simpl.
  rewrite delete_insert_eq.
  repeat split; try done.
  - rewrite segment_list_length. f_equal.
    apply (f_equal length) in Htexts.
    by rewrite run_texts_length, length_fmap in Htexts.
  - intros p Hp. destruct (Hnew _ Hp) as [Hnone _]. simpl in Hnone.
    destruct (decide (p = upload_path env file)) as [->|Hne].
    + by rewrite lookup_insert_eq in Hnone.
    + by rewrite lookup_insert_ne in Hnone.
Qed.

Lemma successful_upload_restores_directory_witness :
  ∃ file temp_files,
    files (sample_upload "30") !! "file" = Some file
    ∧ fs sample_final = delete (upload_path sample_env file) (fs empty_world)
    ∧ posted sample_final = posted empty_world ++ temp_files
    ∧ Z.of_nat (length temp_files) = chunk_count sample_result
    ∧ NoDup temp_files
    ∧ ∀ p, p ∈ temp_files → fs empty_world !! p = None.
Proof.
  apply (successful_upload_restores_directory sample_env (sample_upload "30")
           empty_world sample_final sample_result 200).
  apply sample_upload_run.
Defined.

(** ** A text that is not a string *)

Lemma assemble_non_string cd : ∀ texts (k : nat) v i segs full_text,
  texts !! k = Some v → (∀ s, v ≠ PyStr s) →
  assemble cd i texts segs full_text = Raise TypeError.
Proof.
  induction texts as [|txt texts IH]; intros k v i segs full_text Hk Hv; [done|].
  simpl. destruct txt; try done. simpl.
  destruct k as [|k]; simpl in Hk.
  - injection Hk as <-. by destruct (Hv s).
  - by eapply IH.
Qed.

(** X9. The endpoint decides whether the run survives: the loop computes
    [text + " "], so a 200 whose [text] is not a string (a JSON [null], a
    number, a list) for any segment makes the whole upload fail with 500 and
    [TypeError], although every call returned.  The handler then removes the
    segment files and the upload: the directory is as before, less the
    staged name. *)
Theorem non_string_text_aborts (env : Env) (upload : UploadRequest) (w : World)
    (file : FileStorage) (cd : Z) (audio : Audio) (k : nat)
    (d : gmap string pyval) (v : pyval) :
  fresh_names env →
  (∀ n, export_fails env n = false) →
  files upload !! "file" = Some file →
  filename file ≠ "" →
  allowed_file (config env) (filename file) = true →
  py_int (upload_chunk_arg upload) = Ok cd →
  cd ≠ 0 →
  stream file = Decodable audio →
  (k < Z.to_nat (range_len 0 (len audio) (cd * 1000)))%nat →
  endpoint env (length (posted w) + k) = Response 200 (JsonObject d) →
  d !! "text" = Some v →
  (∀ s, v ≠ PyStr s) →
  fst (transcribe_audio env upload w)
  = (ErrorBody (TranscribeFailed TypeError), 500)
  ∧ fs (snd (transcribe_audio env upload w)) = delete (upload_path env file) (fs w).
Proof.
  intros Hfresh Hexp Hfile Hname Hallowed Hcd Hne Hsrc Hk Hep Hd Hv.
  rewrite (transcribe_audio_staged _ _ _ _ _ Hfile Hname Hallowed Hcd).
  set (path := upload_path env file).
  set (ws := set_fs w (<[path := stream file]> (fs w))).
  assert (∃ temp_files w1, split_audio env path cd ws = (Ok temp_files, w1))
    as (temp_files & w1 & Hsplit).
  { rewrite split_audio_unfold. subst ws. simpl. rewrite lookup_insert_eq, Hsrc.
    unfold py_range. replace (cd * 1000 =? 0) with false
      by (symmetry; apply Z.eqb_neq; lia).
    by apply split_loop_total. }
  assert (Hlen : length temp_files = Z.to_nat (range_len 0 (len audio) (cd * 1000))).
  { destruct (split_audio_inv _ _ _ _ _ _ Hsplit) as (audio' & Hsrc' & _ & Hloop).
    subst ws. simpl in Hsrc'. rewrite lookup_insert_eq, Hsrc in Hsrc'.
    injection Hsrc' as <-.
    apply split_loop_inv in Hloop as (names & -> & Hnames & _).
    by rewrite length_map, length_seq in Hnames. }
  destruct (split_audio_files _ _ _ _ _ _ Hsplit) as (Hposted & _ & Hnew & _).
  destruct (transcribe_loop_assemble env cd temp_files 0 [] "" w1)
    as (w2 & Hloop & Hfs & _).
  { intros p Hp. by apply Hnew. }
  rewrite (assemble_non_string cd _ k v) in Hloop; [| |done].
  2: { rewrite run_texts_lookup by lia. rewrite Hposted. simpl.
       rewrite Hep. simpl. by rewrite Hd. }
  assert (Hpipe : upload_pipeline env path cd ws
                  = (Ok (ErrorBody (TranscribeFailed TypeError), 500),
                     set_fs w2 (delete path (removed temp_files (fs w2))))).
  { unfold upload_pipeline. rewrite Hsplit.
    unfold try_except, upload_after_split. unfold bind at 1. rewrite Hloop.
    by rewrite upload_except_spec. }
  unfold outer_try. rewrite Hpipe. simpl. split; [done|].
  rewrite Hfs, (directory_restored _ _ _ _ _ _ Hsplit). subst ws. simpl.
  by rewrite delete_insert_eq.
Qed.

Lemma non_string_text_aborts_witness :
  fst (transcribe_audio null_text_env (sample_upload "30") empty_world)
  = (ErrorBody (TranscribeFailed TypeError), 500)
  ∧ fs (snd (transcribe_audio null_text_env (sample_upload "30") empty_world))
    = delete (upload_path null_text_env
                {| filename := "talk.WAV"; stream := Decodable sample_audio |})
        (fs empty_world).
Proof.
  apply (non_string_text_aborts null_text_env (sample_upload "30") empty_world
           {| filename := "talk.WAV"; stream := Decodable sample_audio |}
           30 sample_audio 1 {[ "text" := PyNone ]} PyNone).
  - intros X. apply is_fresh.
  - intros n. reflexivity.
  - reflexivity.
  - discriminate.
  - reflexivity.
  - reflexivity.
  - lia.
  - reflexivity.
  - vm_compute. lia.
  - reflexivity.
  - reflexivity.
  - intros s. discriminate.
Defined.

(** ** What a result says *)

(** X10. The fields of a result agree with each other.  A response with a
    result has status 200 and [success] set; [chunk_count] is the number of
    segments; the chunk duration is not 0; the duration is not negative.
    With a positive chunk duration the count is the duration divided by the
    chunk duration, rounded up; with a negative one it is 0. *)
Theorem result_fields_agree (env : Env) (upload : UploadRequest)
    (w w' : World) (r : TranscriptionResult) (st : Z) :
  transcribe_audio env upload w = ((ResultBody r, st), w') →
  st = 200
  ∧ success r = true
  ∧ chunk_count r = Z.of_nat (length (segments r))
  ∧ chunk_duration r ≠ 0
  ∧ (0 <= duration r)%Q
  ∧ (0 < chunk_duration r →
       chunk_count r = Qceiling (duration r / inject_Z (chunk_duration r)))
  ∧ (chunk_duration r < 0 → chunk_count r = 0).
Proof.
  intros Hrun.
  apply transcribe_audio_result in Hrun
    as (file & cd & audio & ts & _ & _ & _ & Hne & Hlen & _ & -> & ->).
  simpl. rewrite segment_list_length.
  pose proof (len_nonneg audio) as HL.
  repeat split; try done.
  - unfold Qle. simpl. lia.
  - intros Hpos. rewrite (ceil_duration _ _ Hpos HL), Hlen.
    destruct (range_len_bounds (len audio) (cd * 1000) ltac:(lia) HL) as (H0 & _).
    lia.
  - intros Hneg. rewrite Hlen. unfold range_len.
    replace (0 <? cd * 1000) with false by (symmetry; apply Z.ltb_ge; lia).
    replace (len audio <? 0) with false by (symmetry; apply Z.ltb_ge; lia).
    done.
Qed.

Lemma result_fields_agree_witness :
  chunk_count sample_result = Z.of_nat (length (segments sample_result))
  ∧ chunk_count sample_result
    = Qceiling (duration sample_result / inject_Z (chunk_duration sample_result)).
Proof.
  destruct (result_fields_agree sample_env (sample_upload "30") empty_world
              sample_final sample_result 200 sample_upload_run)
    as (_ & _ & Hcount & _ & _ & Hceil & _).
  split; [exact Hcount|]. apply Hceil. reflexivity.
Defined.

(** X11. The chunk duration of a result is what [int] makes of the form
    field, and 30 when the upload has no such field. *)
Theorem result_chunk_duration (env : Env) (upload : UploadRequest)
    (w w' : World) (r : TranscriptionResult) (st : Z) :
  transcribe_audio env upload w = ((ResultBody r, st), w') →
  (form upload !! "chunk_duration" = None → chunk_duration r = 30)
  ∧ (∀ s, form upload !! "chunk_duration" = Some s →
          py_int_of_str s = Some (chunk_duration r)).
Proof.
  intros Hrun.
  apply transcribe_audio_result in Hrun
    as (file & cd & audio & ts & _ & _ & Hcd & _ & _ & _ & _ & ->).
  simpl. unfold upload_chunk_arg in Hcd. split.
  - intros Hnone. rewrite Hnone in Hcd. simpl in Hcd. by injection Hcd.
  - intros s Hs. rewrite Hs in Hcd. simpl in Hcd.
    destruct (py_int_of_str s); [|done]. by injection Hcd as ->.
Qed.

Lemma result_chunk_duration_witness :
  ∃ r w', transcribe_audio sample_env plain_upload empty_world = ((ResultBody r, 200), w')
          ∧ chunk_duration r = 30.
Proof.
  eexists _, _. split; [vm_compute; reflexivity|].
  match goal with
  | |- chunk_duration ?r = 30 =>
      apply (proj1 (result_chunk_duration sample_env plain_upload empty_world
                      (snd (transcribe_audio sample_env plain_upload empty_world))
                      r 200 ltac:(vm_compute; reflexivity)))
  end.
  reflexivity.
Defined.

(** ** Short, empty and silent audio *)

(** X12. An upload that decodes to no audio at all is not an error: for any
    chunk duration but 0 it is answered 200 with no segment, a count of 0, an
    empty text and duration 0, and nothing is posted. *)
Theorem empty_audio_is_a_result (env : Env) (upload : UploadRequest)
    (w : World) (file : FileStorage) (cd : Z) (audio : Audio) :
  files upload !! "file" = Some file →
  filename file ≠ "" →
  allowed_file (config env) (filename file) = true →
  py_int (upload_chunk_arg upload) = Ok cd →
  cd ≠ 0 →
  stream file = Decodable audio →
  len audio = 0 →
  fst (transcribe_audio env upload w)
  = (ResultBody {| success := true;
                   text := "";
                   segments := [];
                   duration := 0 # 1000;
                   chunk_count := 0;
                   chunk_duration := cd |}, 200)
  ∧ posted (snd (transcribe_audio env upload w)) = posted w.
Proof.
  intros Hfile Hname Hallowed Hcd Hne Hsrc Hlen.
  rewrite (transcribe_audio_staged _ _ _ _ _ Hfile Hname Hallowed Hcd).
  set (ws := set_fs w (<[upload_path env file := stream file]> (fs w))).
  assert (Hws : fs ws !! upload_path env file = Some (Decodable audio)).
  { subst ws. simpl. by rewrite lookup_insert_eq, Hsrc. }
  assert (Hsplit : split_audio env (upload_path env file) cd ws = (Ok [], ws)).
  { rewrite split_audio_unfold, Hws. unfold py_range, range_len. rewrite Hlen.
    replace (cd * 1000 =? 0) with false by (symmetry; apply Z.eqb_neq; lia).
    by destruct (0 <? cd * 1000). }
  destruct (upload_pipeline_success env _ cd ws [] ws [] Hsplit eq_refl)
    as (audio' & Hsrc' & Hok).
  rewrite Hws in Hsrc'. injection Hsrc' as <-.
  unfold outer_try. rewrite Hok. simpl. rewrite Hlen. by rewrite app_nil_r.
Qed.

Lemma empty_audio_is_a_result_witness :
  fst (transcribe_audio sample_env empty_upload littered_world)
  = (ResultBody {| success := true;
                   text := "";
                   segments := [];
                   duration := 0 # 1000;
                   chunk_count := 0;
                   chunk_duration := 45 |}, 200)
  ∧ posted (snd (transcribe_audio sample_env empty_upload littered_world))
    = posted littered_world.
Proof.
  apply (empty_audio_is_a_result sample_env empty_upload littered_world
           {| filename := "silence.ogg"; stream := Decodable empty_audio |}
           45 empty_audio).
  - reflexivity.
  - discriminate.
  - reflexivity.
  - reflexivity.
  - lia.
  - reflexivity.
  - reflexivity.
Defined.

(** X13. An audio that is not longer than one chunk is not cut:
    [split_audio] returns one file, under a name other than the source's,
    and its content is the whole source. *)
Theorem short_audio_is_one_segment (env : Env) (path : string) (cd : Z)
    (audio : Audio) (w : World) :
  fresh_names env →
  export_fails env 0 = false →
  fs w !! path = Some (Decodable audio) →
  0 < len audio ≤ cd * 1000 →
  ∃ p w',
    split_audio env path cd w = (Ok [p], w')
    ∧ p ≠ path
    ∧ fs w' !! p = Some (Decodable audio)
    ∧ fs w' !! path = Some (Decodable audio).
Proof.
  intros Hfresh Hexp Hsrc [Hpos Hle].
  assert (Hrange : range_len 0 (len audio) (cd * 1000) = 1).
  { unfold range_len.
    replace (0 <? cd * 1000) with true by (symmetry; apply Z.ltb_lt; lia).
    replace (0 <? len audio) with true by (symmetry; apply Z.ltb_lt; lia).
    rewrite Z.div_small by lia. done. }
  rewrite split_audio_unfold, Hsrc. unfold py_range. rewrite Hrange.
  replace (cd * 1000 =? 0) with false by (symmetry; apply Z.eqb_neq; lia).
  simpl. unfold bind at 1. rewrite (NamedTemporaryFile_fresh _ _ Hfresh).
  unfold bind, export. simpl. rewrite Hexp. unfold write_file, ret. simpl.
  set (p := mktemp env (dom (fs w))).
  assert (Hp : fs w !! p = None) by apply not_elem_of_dom, Hfresh.
  assert (Hslice : ∀ i j, i = 0 → j = cd * 1000 → audio_slice audio i j = audio).
  { intros i j -> ->. unfold audio_slice. destruct audio as [s n].
    unfold len in *. simpl in *. f_equal; lia. }
  match goal with
  | |- context [audio_slice audio ?i ?j] =>
      rewrite (Hslice i j) by (simpl; lia)
  end.
  eexists _, _. split; [reflexivity|]. simpl.
  assert (Hne : p ≠ path) by congruence.
  split; [done|]. rewrite insert_insert_eq, lookup_insert_eq.
  split; [done|]. by rewrite lookup_insert_ne.
Qed.

Lemma short_audio_is_one_segment_witness :
  ∃ p w',
    split_audio sample_env "uploads/talk.WAV" 120 staged_world = (Ok [p], w')
    ∧ p ≠ "uploads/talk.WAV"
    ∧ fs w' !! p = Some (Decodable sample_audio)
    ∧ fs w' !! "uploads/talk.WAV" = Some (Decodable sample_audio).
Proof.
  apply (short_audio_is_one_segment sample_env "uploads/talk.WAV" 120 sample_audio
           staged_world).
  - intros X. apply is_fresh.
  - reflexivity.
  - reflexivity.
  - vm_compute. split; [reflexivity|discriminate].
Defined.

Lemma rstrip_trailing_blank (ts : list string) :
  (∀ t, t ∈ ts → t = "") → rstrip (trailing ts) = "".
Proof.
  induction ts as [|t ts IH]; intros Hts; [done|].
  rewrite (Hts t) by (apply elem_of_cons; by left).
  change (trailing ("" :: ts)) with (String " " (trailing ts)).
  simpl. rewrite IH; [done|].
  intros t' Ht'. apply Hts. apply elem_of_cons. by right.
Qed.

(** X14. An endpoint that fails every call of a run does not fail the run:
    if [transcribe_audio] answered with a result and each of its calls timed
    out, met a network failure or got a status other than 200, then every
    segment text is the empty string and so is the whole text (the spaces
    between them are stripped). *)
Theorem all_calls_failed_is_silence (env : Env) (upload : UploadRequest)
    (w w' : World) (r : TranscriptionResult) (st : Z) :
  transcribe_audio env upload w = ((ResultBody r, st), w') →
  (∀ j : nat, (j < length (segments r))%nat →
     failed_call (endpoint env (length (posted w) + j))) →
  text r = ""
  ∧ ∀ seg, seg ∈ segments r → seg_text seg = PyStr "".
Proof.
  intros Hrun Hfail.
  apply transcribe_audio_result in Hrun
    as (file & cd & audio & ts & _ & _ & _ & _ & _ & Htexts & _ & ->).
  simpl in *. rewrite segment_list_length in Hfail.
  assert (Hblank : ∀ t, t ∈ ts → t = "").
  { intros t [j Hj]%list_elem_of_lookup.
    assert (Hlt : (j < length ts)%nat) by (by eapply lookup_lt_Some).
    pose proof (run_texts_lookup env (length (posted w)) (length ts) j Hlt) as Hrt.
    rewrite Htexts, list_lookup_fmap, Hj in Hrt. simpl in Hrt.
    rewrite (absorbed_text_failed _ (Hfail j Hlt)) in Hrt. by injection Hrt. }
  split.
  - unfold strip. by rewrite rstrip_trailing_blank.
  - intros seg [j Hj]%list_elem_of_lookup. rewrite segment_list_lookup in Hj.
    destruct (ts !! j) as [t|] eqn:Ht; [|done]. injection Hj as <-. simpl.
    f_equal. apply Hblank. apply list_elem_of_lookup. eauto.
Qed.

Lemma all_calls_failed_is_silence_witness :
  text silent_result = ""
  ∧ ∀ seg, seg ∈ segments silent_result → seg_text seg = PyStr "".
Proof.
  apply (all_calls_failed_is_silence unreachable_env (sample_upload "30") empty_world
           (snd (transcribe_audio unreachable_env (sample_upload "30") empty_world))
           silent_result 200).
  - vm_compute. reflexivity.
  - intros j _. exact I.
Defined.

(** ** After the checks *)

Lemma upload_pipeline_cases env path cd w :
  ∃ w',
    (∃ r, upload_pipeline env path cd w = (Ok (ResultBody r, 200), w'))
    ∨ (∃ e, upload_pipeline env path cd w
            = (Ok (ErrorBody (TranscribeFailed e), 500), w')).
Proof.
  unfold upload_pipeline.
  destruct (split_audio env path cd w) as [[temp_files|e] w1].
  2: { rewrite upload_except_spec. eexists. right. by eexists. }
  unfold try_except.
  destruct (upload_after_split env path cd temp_files w1) as [[resp|e] w2] eqn:E.
  - exists w2. left. revert E. unfold upload_after_split. unfold bind at 1.
    destruct (transcribe_loop env cd 0 temp_files [] "" w1) as [[r|e] w3]; [|done].
    unfold bind at 1. rewrite cleanup_temp_files_removed.
    unfold bind at 1, from_file. simpl.
    destruct (removed temp_files (fs w3) !! path) as [[audio|]|]; try done.
    unfold bind, os_unlink. simpl.
    destruct (removed temp_files (fs w3) !! path); [|done].
    unfold ret, jsonify, success_body. intros [= <- _]. by eexists.
  - rewrite upload_except_spec. eexists. right. by eexists.
Qed.

(** X15. Once an upload has passed the checks and the integer conversion,
    [transcribe_audio] has two answers only: the result with status 200, or
    status 500 with the exception that stopped the pipeline as its message.
    The inner handler guards its own [os.unlink] with [os.path.exists], so
    nothing raised after staging reaches the outer [except]. *)
Theorem staged_upload_has_two_answers (env : Env) (upload : UploadRequest)
    (w : World) (file : FileStorage) (cd : Z) :
  files upload !! "file" = Some file →
  filename file ≠ "" →
  allowed_file (config env) (filename file) = true →
  py_int (upload_chunk_arg upload) = Ok cd →
  (∃ r, fst (transcribe_audio env upload w) = (ResultBody r, 200))
  ∨ (∃ e, fst (transcribe_audio env upload w) = (ErrorBody (TranscribeFailed e), 500)).
Proof.
  intros Hfile Hname Hallowed Hcd.
  rewrite (transcribe_audio_staged _ _ _ _ _ Hfile Hname Hallowed Hcd).
  unfold outer_try.
  destruct (upload_pipeline_cases env (upload_path env file) cd
              (set_fs w (<[upload_path env file := stream file]> (fs w))))
    as (w' & [[r ->] | [e ->]]); [left|right]; by eexists.
Qed.

Lemma staged_upload_has_two_answers_witness :
  (∃ r, fst (transcribe_audio disk_full_env (sample_upload "30") empty_world)
        = (ResultBody r, 200))
  ∨ (∃ e, fst (transcribe_audio disk_full_env (sample_upload "30") empty_world)
          = (ErrorBody (TranscribeFailed e), 500)).
Proof.
  apply (staged_upload_has_two_answers disk_full_env (sample_upload "30") empty_world
           {| filename := "talk.WAV"; stream := Decodable sample_audio |} 30).
  - reflexivity.
  - discriminate.
  - reflexivity.
  - reflexivity.
Defined.

(** ** [config.py] and [run.py] *)

Lemma environ_or_not_empty environ key fallback :
  fallback ≠ "" → ConfigPy.environ_or environ key fallback ≠ "".
Proof.
  intros Hf. unfold ConfigPy.environ_or.
  destruct (environ !! key) as [s|]; [|done].
  destruct (String.eqb s "") eqn:E; [done|]. by apply String.eqb_neq.
Qed.

Lemma config_lookup environ name obj :
  ConfigPy.config environ !! name = Some obj →
  (name = "development" ∧ obj = ConfigPy.DevelopmentConfig environ)
  ∨ (name = "production" ∧ obj = ConfigPy.ProductionConfig environ)
  ∨ (name = "testing" ∧ obj = ConfigPy.TestingConfig environ)
  ∨ (name = "default" ∧ obj = ConfigPy.DevelopmentConfig environ).
Proof.
  unfold ConfigPy.config. intros H.
  repeat (apply lookup_insert_Some in H as [[<- <-]|[_ H]]; [by eauto 6|]).
  apply lookup_singleton_Some in H as [<- <-]. by eauto 6.
Qed.





(** X17. Whatever the environment variables, a configuration that [run.py]
    starts the service with is one of the repository's: the upload folder,
    the extensions and the timeout are those of [app.py], and the endpoint
    URL is never empty (an empty [VLLM_WHISPER_URL] gives the default).  So
    [allowed_file] accepts the same names under every environment.  Debug
    mode is off exactly under [production]. *)
Theorem main_runs_a_repo_config (logging_has : string → bool)
    (environ : gmap string string) (cfg : AppConfig) (debug : bool) :
  RunPy.main logging_has environ = RunPy.Run cfg debug →
  repo_config cfg
  ∧ cfg_VLLM_WHISPER_URL cfg ≠ Some ""
  ∧ (∀ name, allowed_file cfg name = allowed_file app_config name)
  ∧ (debug = false ↔ environ !! "FLASK_ENV" = Some "production").
Proof.
  unfold RunPy.main.
  destruct (ConfigPy.config environ !! default "development" (environ !! "FLASK_ENV"))
    as [obj|] eqn:Hobj; [|done].
  destruct (logging_has (ConfigPy.LOG_LEVEL obj)); [|done].
  intros [= <- <-].
  set (url := ConfigPy.environ_or environ "VLLM_WHISPER_URL"
                "http://localhost:8000/v1/audio/transcriptions").
  assert (Hurl : url ≠ "") by (by apply environ_or_not_empty).
  assert (Hcfg : RunPy.from_object obj = loaded_config url).
  { apply config_lookup in Hobj as [[_ ->]|[[_ ->]|[[_ ->]|[_ ->]]]]; reflexivity. }
  rewrite Hcfg. split; [right; by exists url|].
  split; [simpl; congruence|]. split; [done|].
  apply config_lookup in Hobj as [[Hn ->]|[[Hn ->]|[[Hn ->]|[Hn ->]]]]; simpl;
    destruct (environ !! "FLASK_ENV") as [name|]; simpl in Hn; subst;
    split; try done; intros [= ?]; done.
Qed.

Lemma main_runs_a_repo_config_witness :
  repo_config (loaded_config "http://localhost:8000/v1/audio/transcriptions")
  ∧ (∀ name, allowed_file (loaded_config "http://localhost:8000/v1/audio/transcriptions")
               name = allowed_file app_config name).
Proof.
  assert (Hrun : RunPy.main level_names
                   {[ "FLASK_ENV" := "production"; "VLLM_WHISPER_URL" := "" ]}
                 = RunPy.Run
                     (loaded_config "http://localhost:8000/v1/audio/transcriptions")
                     false).
  { vm_compute. reflexivity. }
  destruct (main_runs_a_repo_config level_names
              {[ "FLASK_ENV" := "production"; "VLLM_WHISPER_URL" := "" ]}
              (loaded_config "http://localhost:8000/v1/audio/transcriptions") false
              Hrun)
    as (Hrepo & _ & Hallowed & _).
  split; [exact Hrepo|exact Hallowed].
Defined.

(** ** [str] and [int] on integers *)

Lemma digit_char_facts (d : Z) :
  0 ≤ d < 10 →
  is_digit (digit_char d) = true ∧ digit_val (digit_char d) = d.
Proof.
  intros Hd.
  assert (d = 0 ∨ d = 1 ∨ d = 2 ∨ d = 3 ∨ d = 4 ∨ d = 5 ∨ d = 6 ∨ d = 7
          ∨ d = 8 ∨ d = 9) as H by lia.
  repeat (destruct H as [->|H]; [by vm_compute|]). subst. by vm_compute.
Qed.

Lemma is_digit_facts (c : ascii) :
  is_digit c = true →
  int_isspace c = false ∧ Ascii.eqb c "_" = false
  ∧ c ≠ "+"%char ∧ c ≠ "-"%char.
Proof.
  destruct c as [[] [] [] [] [] [] [] []]; vm_compute; intros H;
    try discriminate H; repeat split; discriminate.
Qed.

(** Reading back the digits that [digits_fuel] wrote for [n] in front of
    [acc] appends them to the number so far. *)
Lemma parse_digits_fuel : ∀ (f : nat) (n : Z) (acc : string),
  0 ≤ n < 2 ^ Z.of_nat (S f) →
  ∃ pow, 0 < pow ∧
    ∀ a prev, parse_digits (digits_fuel (S f) n acc) a prev
              = parse_digits acc (a * pow + n) true.
Proof.
  assert (Hone : ∀ n acc a prev, 0 ≤ n < 10 →
            parse_digits (String (digit_char (n mod 10)) acc) a prev
            = parse_digits acc (a * 10 + n) true).
  { intros n acc a prev Hn. rewrite Z.mod_small by lia.
    destruct (digit_char_facts n Hn) as [Hd Hv]. simpl. rewrite Hd, Hv.
    f_equal. lia. }
  induction f as [|f IH]; intros n acc Hn.
  - exists 10. split; [lia|]. intros a prev.
    change (2 ^ Z.of_nat 1) with 2 in Hn. simpl.
    replace (n <? 10) with true by (symmetry; apply Z.ltb_lt; lia).
    apply Hone. lia.
  - destruct (Z.ltb_spec n 10) as [Hsmall|Hbig].
    + exists 10. split; [lia|]. intros a prev.
      change (digits_fuel (S (S f)) n acc)
        with (let acc' := String (digit_char (n mod 10)) acc in
              if n <? 10 then acc' else digits_fuel (S f) (n / 10) acc').
      cbv zeta. replace (n <? 10) with true by (symmetry; apply Z.ltb_lt; lia).
      apply Hone. lia.
    + assert (Hdiv : 0 ≤ n / 10 < 2 ^ Z.of_nat (S f)).
      { split; [apply Z.div_pos; lia|].
        apply Z.div_lt_upper_bound; [lia|].
        rewrite (Nat2Z.inj_succ (S f)), Z.pow_succ_r in Hn by lia. lia. }
      destruct (IH (n / 10) (String (digit_char (n mod 10)) acc) Hdiv)
        as (pow & Hpow & Hparse).
      exists (pow * 10). split; [lia|]. intros a prev.
      change (digits_fuel (S (S f)) n acc)
        with (let acc' := String (digit_char (n mod 10)) acc in
              if n <? 10 then acc' else digits_fuel (S f) (n / 10) acc').
      cbv zeta. replace (n <? 10) with false by (symmetry; apply Z.ltb_ge; lia).
      rewrite Hparse.
      pose proof (Z.mod_pos_bound n 10 ltac:(lia)) as Hmod.
      destruct (digit_char_facts (n mod 10) Hmod) as [Hd Hv].
      simpl. rewrite Hd, Hv. f_equal.
      pose proof (Z.div_mod n 10 ltac:(lia)). lia.
Qed.

Lemma log2_fuel (n : Z) : 0 ≤ n → 0 ≤ n < 2 ^ Z.of_nat (S (Z.to_nat (Z.log2 n))).
Proof.
  intros Hn. split; [done|].
  rewrite Nat2Z.inj_succ, Z2Nat.id by apply Z.log2_nonneg.
  destruct (Z.eq_dec n 0) as [->|Hne]; [by vm_compute|].
  apply Z.log2_spec. lia.
Qed.

Lemma parse_digits_str (n : Z) :
  0 ≤ n →
  parse_digits (digits_fuel (S (Z.to_nat (Z.log2 n))) n "") 0 false = Some n.
Proof.
  intros Hn.
  destruct (parse_digits_fuel _ n "" (log2_fuel n Hn)) as (pow & _ & Hparse).
  rewrite Hparse. simpl. reflexivity.
Qed.

Lemma digits_fuel_all_digits : ∀ (f : nat) (n : Z) (acc : string),
  0 ≤ n → all_digits acc = true → all_digits (digits_fuel f n acc) = true.
Proof.
  induction f as [|f IH]; intros n acc Hn Hacc; [done|].
  simpl.
  pose proof (Z.mod_pos_bound n 10 ltac:(lia)) as Hmod.
  destruct (digit_char_facts (n mod 10) Hmod) as [Hd _].
  destruct (n <? 10).
  - simpl. by rewrite Hd, Hacc.
  - apply IH; [apply Z.div_pos; lia|]. simpl. by rewrite Hd, Hacc.
Qed.

Lemma int_rstrip_all_digits (s : string) : all_digits s = true → int_rstrip s = s.
Proof.
  induction s as [|c s IH]; [done|]. simpl.
  intros [Hc Hs]%andb_prop. rewrite (IH Hs).
  destruct (is_digit_facts c Hc) as (Hsp & _).
  destruct s; [by rewrite Hsp|done].
Qed.

(** [int(str(z)) = z], for a [z] whose decimal form [str] gives. *)
Lemma py_int_of_str_of_int (z : Z) (s : string) :
  py_str z = Some s → py_int_of_str s = Some z.
Proof.
  unfold py_str.
  destruct (Z.ltb_spec int_max_str_digits (count_digits (py_str_of_int z)))
    as [Hmany|Hfew]; [done|].
  intros [= <-]. apply Z.ltb_ge in Hfew. revert Hfew.
  unfold py_str_of_int. destruct (Z.ltb_spec z 0) as [Hneg|Hpos]; intros Hfew.
  - set (ds := digits_fuel _ (- z) "") in *.
    assert (Hds : all_digits ds = true)
      by (apply digits_fuel_all_digits; [lia|done]).
    assert (Hstrip : int_strip (String "-" ds) = String "-" ds).
    { unfold int_strip. simpl. rewrite (int_rstrip_all_digits _ Hds).
      by destruct ds. }
    unfold py_int_of_str. rewrite Hstrip, Hfew.
    change (option_map Z.opp (parse_digits ds 0 false) = Some z). subst ds.
    rewrite parse_digits_str by lia. simpl. f_equal. lia.
  - pose proof (parse_digits_str z Hpos) as Hparse.
    set (ds := digits_fuel _ z "") in *.
    assert (Hds : all_digits ds = true)
      by (apply digits_fuel_all_digits; [lia|done]).
    destruct ds as [|c r] eqn:E; [done|].
    simpl in Hds. apply andb_prop in Hds as [Hc Hr].
    destruct (is_digit_facts c Hc) as (Hsp & _ & Hplus & Hminus).
    assert (Hstrip : int_strip (String c r) = String c r).
    { unfold int_strip.
      rewrite int_rstrip_all_digits by (simpl; by rewrite Hc, Hr).
      simpl. by rewrite Hsp. }
    unfold py_int_of_str. rewrite Hstrip, Hfew.
    destruct c as [[] [] [] [] [] [] [] []]; try done.
Qed.

(** ** The client and the test script against the service *)

(** X18. Against this service the URL methods cannot succeed: whatever the
    URL, the chunk duration, the state of the service and the fate of the
    request, [LongAudioTranscribeClient.transcribe_url] raises its
    [Exception] and [test_url_transcribe] returns [False], because
    [transcribe_audio_url] never answers 200. *)
Theorem url_client_never_gets_a_result (env : Env) (delivery : ClientPy.Delivery)
    (audio_url chunk_duration : pyval) (server : World) :
  fst (ClientPy.transcribe_url env delivery audio_url chunk_duration server)
  = ClientPy.RaisedException
  ∧ fst (TestApi.test_url_transcribe env delivery audio_url server) = false.
Proof.
  assert (Hpost : ∀ request,
            fst (ClientPy.post_and_check delivery
                   (transcribe_audio_url env request) server)
            = ClientPy.RaisedException).
  { intros request. unfold ClientPy.post_and_check.
    destruct delivery; try done. simpl.
    destruct (transcribe_audio_url_error env request server)
      as (msg & st & Hresp & [-> | ->]); by rewrite Hresp. }
  split.
  - apply Hpost.
  - unfold TestApi.test_url_transcribe.
    specialize (Hpost (JsonDict {[ "audio_url" := audio_url;
                                   "chunk_duration" := PyInt 30 ]})).
    destruct (ClientPy.post_and_check _ _ _) as [[body| |] w']; simpl in *; done.
Qed.

Lemma transcribe_audio_200 env upload w :
  status (fst (transcribe_audio env upload w)) = 200 →
  ∃ r, fst (transcribe_audio env upload w) = (ResultBody r, 200).
Proof.
  destruct (files upload !! "file") as [file|] eqn:Hfile.
  2: { destruct (transcribe_audio_rejects env upload w) as [msg ->]; [|done].
       left. by left. }
  destruct (String.eqb_spec (filename file) "") as [Hname|Hname].
  { destruct (transcribe_audio_rejects env upload w) as [msg ->]; [|done].
    left. right. by exists file. }
  destruct (allowed_file (config env) (filename file)) eqn:Hallowed.
  2: { destruct (transcribe_audio_rejects env upload w) as [msg ->]; [|done].
       right. by exists file. }
  destruct (py_int (upload_chunk_arg upload)) as [cd|e] eqn:Hcd.
  2: { by rewrite (transcribe_audio_bad_chunk _ _ _ _ _ Hfile Hname Hallowed Hcd). }
  rewrite (transcribe_audio_staged _ _ _ _ _ Hfile Hname Hallowed Hcd).
  unfold outer_try.
  destruct (upload_pipeline_cases env (upload_path env file) cd
              (set_fs w (<[upload_path env file := stream file]> (fs w))))
    as (w' & [[r ->] | [e ->]]); [|done].
  intros _. by exists r.
Qed.

(** X19. [LongAudioTranscribeClient.transcribe_file] end to end.  A path
    that does not exist on the client raises [FileNotFoundError] and leaves
    the service alone.  What the method returns is a result of the service
    for the local file: its chunk duration is the integer the caller passed
    (sent as [str], read back by [int]), its duration is that of the local
    file, and the base name of the path had an allowed extension. *)
Theorem file_client_end_to_end (env : Env) (delivery : ClientPy.Delivery)
    (local : gmap string File) (file_path : string) (seconds : Z)
    (server : World) :
  (local !! file_path = None →
     ClientPy.transcribe_file env delivery local file_path seconds server
     = (ClientPy.RaisedFileNotFoundError, server))
  ∧ (∀ body,
       fst (ClientPy.transcribe_file env delivery local file_path seconds server)
       = ClientPy.Returned body →
       ∃ r audio,
         body = ResultBody r
         ∧ local !! file_path = Some (Decodable audio)
         ∧ chunk_duration r = seconds
         ∧ duration r = len audio # 1000
         ∧ allowed_file (config env) (ClientPy.sent_filename file_path) = true).
Proof.
  split.
  - intros Hnone. unfold ClientPy.transcribe_file. by rewrite Hnone.
  - intros body. unfold ClientPy.transcribe_file.
    destruct (local !! file_path) as [content|] eqn:Hlocal; [|done].
    destruct (py_str seconds) as [field|] eqn:Hfield; [|done].
    set (upload := {| files := _; form := _ |}).
    unfold ClientPy.post_and_check. destruct delivery; try done. simpl.
    destruct (Z.eqb_spec (status (fst (transcribe_audio env upload server))) 200)
      as [Hst|Hst]; [|done].
    intros [= <-].
    destruct (transcribe_audio_200 _ _ _ Hst) as [r Hr].
    assert (Hrun : transcribe_audio env upload server
                   = ((ResultBody r, 200), snd (transcribe_audio env upload server))).
    { destruct (transcribe_audio env upload server) as [resp w']. simpl in *.
      by rewrite Hr. }
    destruct (transcribe_audio_result_inv _ _ _ _ _ _ Hrun)
      as (file & cd0 & Hfile & _ & Hallowed & _).
    destruct (transcribe_audio_result _ _ _ _ _ _ Hrun)
      as (file' & cd & audio & ts & Hfile' & Hsrc & Hcd & _ & _ & _ & _ & Hrec).
    subst upload. simpl in Hfile, Hfile', Hcd.
    rewrite lookup_singleton_eq in Hfile, Hfile'.
    injection Hfile as <-. injection Hfile' as <-. simpl in *.
    unfold upload_chunk_arg in Hcd. simpl in Hcd.
    rewrite lookup_singleton_eq in Hcd. simpl in Hcd.
    rewrite (py_int_of_str_of_int _ _ Hfield) in Hcd. injection Hcd as <-.
    exists r, audio. rewrite Hr. simpl. rewrite Hrec. simpl.
    repeat split; try done. by rewrite Hsrc.
Qed.

Lemma file_client_end_to_end_witness :
  ClientPy.transcribe_file sample_env ClientPy.Answered laptop "recordings/gone.wav" 30
    empty_world = (ClientPy.RaisedFileNotFoundError, empty_world)
  ∧ ∃ r audio,
      ResultBody sample_result = ResultBody r
      ∧ laptop !! "recordings/talk.WAV" = Some (Decodable audio)
      ∧ chunk_duration r = 30
      ∧ duration r = len audio # 1000
      ∧ allowed_file (config sample_env)
          (ClientPy.sent_filename "recordings/talk.WAV") = true.
Proof.
  split.
  - apply (proj1 (file_client_end_to_end sample_env ClientPy.Answered laptop
                    "recordings/gone.wav" 30 empty_world)).
    reflexivity.
  - apply (proj2 (file_client_end_to_end sample_env ClientPy.Answered laptop
                    "recordings/talk.WAV" 30 empty_world)).
    vm_compute. reflexivity.
Defined.

(** ** The URL handler and the upload directory *)

Lemma url_request_staged env data w audio_url cd content :
  fresh_names env →
  data !! "audio_url" = Some audio_url →
  py_int (url_chunk_arg data) = Ok cd →
  download env audio_url = Some content →
  transcribe_audio_url env (JsonDict data) w
  = outer_try (url_pipeline env (mktemp env (dom (fs w))) cd)
      (set_fs w (<[mktemp env (dom (fs w)) := content]> (fs w))).
Proof.
  intros Hfresh Hurl Hcd Hget.
  rewrite (transcribe_audio_url_dict _ _ _ _ Hurl). unfold outer_try.
  unfold bind at 1, lift. rewrite Hcd.
  unfold bind at 1, requests_get. rewrite Hget. unfold ret at 1.
  unfold bind at 1. rewrite (NamedTemporaryFile_fresh _ _ Hfresh).
  unfold bind at 1, save_body, write_file. simpl. by rewrite insert_insert_eq.
Qed.

(** A download that breaks off: the temporary file exists by then, what had
    arrived is in it, and line 257 raises outside the inner [try]. *)
Lemma url_request_broken env data w audio_url cd partial :
  fresh_names env →
  data !! "audio_url" = Some audio_url →
  py_int (url_chunk_arg data) = Ok cd →
  download env audio_url = None →
  partial_download env audio_url = Some partial →
  transcribe_audio_url env (JsonDict data) w
  = ((ErrorBody (ServerError RequestException), 500),
     set_fs w (<[mktemp env (dom (fs w)) := partial]> (fs w))).
Proof.
  intros Hfresh Hurl Hcd Hget Hpart.
  rewrite (transcribe_audio_url_dict _ _ _ _ Hurl). unfold outer_try.
  unfold bind at 1, lift. rewrite Hcd.
  unfold bind at 1, requests_get. rewrite Hget, Hpart. unfold ret at 1.
  unfold bind at 1. rewrite (NamedTemporaryFile_fresh _ _ Hfresh).
  unfold bind, save_body, write_file, raise. simpl. by rewrite insert_insert_eq.
Qed.

(** A download that [requests.get] or [raise_for_status] refuses: nothing
    was created yet. *)
Lemma url_request_refused env data w audio_url cd :
  data !! "audio_url" = Some audio_url →
  py_int (url_chunk_arg data) = Ok cd →
  download env audio_url = None →
  partial_download env audio_url = None →
  transcribe_audio_url env (JsonDict data) w
  = ((ErrorBody (ServerError RequestException), 500), w).
Proof.
  intros Hurl Hcd Hget Hpart.
  rewrite (transcribe_audio_url_dict _ _ _ _ Hurl). unfold outer_try.
  unfold bind at 1, lift. rewrite Hcd.
  unfold bind, requests_get. by rewrite Hget, Hpart.
Qed.

Lemma url_split_fails env temp_file cd w e :
  is_Some (fs w !! temp_file) →
  split_audio env temp_file cd w = (Raise e, w) →
  url_pipeline env temp_file cd w
  = (Ok (ErrorBody (TranscribeFailed e), 500), set_fs w (delete temp_file (fs w))).
Proof.
  intros [f Hf] H. unfold url_pipeline. rewrite H, url_except_spec. simpl.
  by rewrite Hf.
Qed.

(** X20. A URL request that names a URL and a chunk duration [int] accepts,
    but cannot be split, is answered 500.  If [requests.get] or
    [raise_for_status] raises, the answer is the 500 of the outer handler
    and nothing was written.  If the body breaks off while [iter_content]
    delivers it (lines 256-257), the temporary file exists by then and the
    loop is outside the inner [try]: the answer is the 500 of the outer
    handler, and the file, which was not there before, stays in the upload
    directory with what had arrived.  If the download is complete but does
    not decode, or the chunk duration is 0, the answer is the 500 of the
    inner handler with the exception of [split_audio], and the temporary
    file of the download is removed again: the world is exactly what it
    was. *)
Theorem unsplittable_url_request_is_500 (env : Env) (data : gmap string pyval)
    (w : World) (audio_url : pyval) (cd : Z) :
  fresh_names env →
  data !! "audio_url" = Some audio_url →
  py_int (url_chunk_arg data) = Ok cd →
  (download env audio_url = None → partial_download env audio_url = None →
     transcribe_audio_url env (JsonDict data) w
     = ((ErrorBody (ServerError RequestException), 500), w))
  ∧ (∀ partial, download env audio_url = None →
       partial_download env audio_url = Some partial →
       fs w !! mktemp env (dom (fs w)) = None
       ∧ transcribe_audio_url env (JsonDict data) w
         = ((ErrorBody (ServerError RequestException), 500),
            set_fs w (<[mktemp env (dom (fs w)) := partial]> (fs w))))
  ∧ (download env audio_url = Some Undecodable →
       transcribe_audio_url env (JsonDict data) w
       = ((ErrorBody (TranscribeFailed CouldntDecodeError), 500), w))
  ∧ (∀ audio, download env audio_url = Some (Decodable audio) → cd = 0 →
       transcribe_audio_url env (JsonDict data) w
       = ((ErrorBody (TranscribeFailed ValueError), 500), w)).
Proof.
  intros Hfresh Hurl Hcd.
  assert (Hback : ∀ content,
            set_fs (set_fs w (<[mktemp env (dom (fs w)) := content]> (fs w)))
              (delete (mktemp env (dom (fs w)))
                 (<[mktemp env (dom (fs w)) := content]> (fs w))) = w).
  { intros content. unfold set_fs. simpl. rewrite delete_insert_eq.
    rewrite delete_id by apply not_elem_of_dom, Hfresh. by destruct w. }
  split; [|split; [|split]].
  - intros Hget Hpart. exact (url_request_refused _ _ _ _ cd Hurl Hcd Hget Hpart).
  - intros partial Hget Hpart. split; [apply not_elem_of_dom, Hfresh|].
    exact (url_request_broken _ _ _ _ cd _ Hfresh Hurl Hcd Hget Hpart).
  - intros Hget. rewrite (url_request_staged _ _ _ _ _ _ Hfresh Hurl Hcd Hget).
    unfold outer_try. rewrite (url_split_fails _ _ _ _ CouldntDecodeError).
    + by rewrite Hback.
    + simpl. rewrite lookup_insert_eq. by eexists.
    + rewrite split_audio_unfold. simpl. by rewrite lookup_insert_eq.
  - intros audio Hget ->.
    rewrite (url_request_staged _ _ _ _ _ _ Hfresh Hurl Hcd Hget).
    unfold outer_try. rewrite (url_split_fails _ _ _ _ ValueError).
    + by rewrite Hback.
    + simpl. rewrite lookup_insert_eq. by eexists.
    + rewrite split_audio_unfold. simpl. by rewrite lookup_insert_eq.
Qed.

Lemma unsplittable_url_request_is_500_witness :
  transcribe_audio_url refused_download_env sample_url_request littered_world
  = ((ErrorBody (ServerError RequestException), 500), littered_world)
  ∧ (fs littered_world !! mktemp broken_download_env (dom (fs littered_world)) = None
     ∧ transcribe_audio_url broken_download_env sample_url_request littered_world
       = ((ErrorBody (ServerError RequestException), 500),
          set_fs littered_world
            (<[mktemp broken_download_env (dom (fs littered_world))
               := Decodable {| a_start := 0; a_len := 20000 |}]>
               (fs littered_world))))
  ∧ transcribe_audio_url corrupt_url_env sample_url_request littered_world
    = ((ErrorBody (TranscribeFailed CouldntDecodeError), 500), littered_world)
  ∧ transcribe_audio_url sample_env zero_chunk_url_request littered_world
    = ((ErrorBody (TranscribeFailed ValueError), 500), littered_world).
Proof.
  split; [|split; [|split]].
  - apply (proj1 (unsplittable_url_request_is_500 refused_download_env
                    {[ "audio_url" := PyStr "http://host/talk.wav";
                       "chunk_duration" := PyInt 30 ]}
                    littered_world (PyStr "http://host/talk.wav") 30
                    ltac:(intros X; apply is_fresh) eq_refl eq_refl));
      reflexivity.
  - apply (proj1 (proj2 (unsplittable_url_request_is_500 broken_download_env
                           {[ "audio_url" := PyStr "http://host/talk.wav";
                              "chunk_duration" := PyInt 30 ]}
                           littered_world (PyStr "http://host/talk.wav") 30
                           ltac:(intros X; apply is_fresh) eq_refl eq_refl)));
      reflexivity.
  - apply (proj1 (proj2 (proj2 (unsplittable_url_request_is_500 corrupt_url_env
                                  {[ "audio_url" := PyStr "http://host/talk.wav";
                                     "chunk_duration" := PyInt 30 ]}
                                  littered_world (PyStr "http://host/talk.wav") 30
                                  ltac:(intros X; apply is_fresh) eq_refl eq_refl)))).
    reflexivity.
  - apply (proj2 (proj2 (proj2 (unsplittable_url_request_is_500 sample_env
                                  {[ "audio_url" := PyStr "http://host/talk.wav";
                                     "chunk_duration" := PyStr "0" ]}
                                  littered_world (PyStr "http://host/talk.wav") 0
                                  ltac:(intros X; apply is_fresh) eq_refl eq_refl)))
             sample_audio); reflexivity.
Defined.

Lemma url_pipeline_split_ok env temp_file cd w temp_files w1 :
  split_audio env temp_file cd w = (Ok temp_files, w1) →
  ∃ res w',
    url_pipeline env temp_file cd w = (res, w')
    ∧ fs w' = delete temp_file (fs w)
    ∧ (res = Raise FileNotFoundError
       ∨ ∃ e, res = Ok (ErrorBody (TranscribeFailed e), 500)).
Proof.
  intros Hsplit.
  destruct (split_audio_inv _ _ _ _ _ _ Hsplit) as (audio & Hsrc & _ & _).
  destruct (split_audio_files _ _ _ _ _ _ Hsplit) as (_ & _ & Hnew & Hkeep).
  assert (Hpath : temp_file ∉ temp_files).
  { intros Hin. destruct (Hnew _ Hin) as [Hnone _]. by rewrite Hnone in Hsrc. }
  assert (Hthere : ∀ f, f = fs w1 → removed temp_files f !! temp_file
                                   = Some (Decodable audio)).
  { intros f ->. by rewrite (removed_lookup_notin _ _ _ Hpath), (Hkeep _ Hpath). }
  rewrite <- (directory_restored _ _ _ _ _ _ Hsplit).
  unfold url_pipeline. rewrite Hsplit.
  unfold try_except, url_after_split. unfold bind at 1.
  destruct (transcribe_loop_assemble env cd temp_files 0 [] "" w1)
    as (w2 & Hloop & Hfs & _).
  { intros p Hp. by apply Hnew. }
  rewrite Hloop.
  destruct (assemble cd 0 (run_texts env (length (posted w1)) (length temp_files)) [] "")
    as [r|e].
  - unfold bind at 1. rewrite cleanup_temp_files_removed.
    unfold bind at 1, os_unlink. simpl. rewrite (Hthere _ Hfs).
    unfold bind at 1, from_file. simpl. rewrite lookup_delete_eq.
    rewrite url_except_spec. simpl.
    assert (Hgone : removed temp_files (delete temp_file (removed temp_files (fs w2)))
                    = delete temp_file (removed temp_files (fs w2))).
    { apply map_eq. intros q. destruct (decide (q ∈ temp_files)) as [Hq|Hq].
      - rewrite removed_lookup_in by done.
        rewrite lookup_delete_ne by (by intros ->).
        by rewrite removed_lookup_in.
      - by rewrite removed_lookup_notin. }
    rewrite Hgone, lookup_delete_eq.
    eexists _, _. split; [reflexivity|]. simpl. rewrite Hfs. split; [done|by left].
  - rewrite url_except_spec. simpl. rewrite (Hthere _ Hfs).
    eexists _, _. split; [reflexivity|]. simpl. rewrite Hfs.
    split; [done|]. right. by exists e.
Qed.

(** X21. When the split of a URL request goes through, the handler answers
    500 (see C1) but it does tidy up: with free temporary names, no write
    failure, a chunk duration other than 0 and a download that decodes, the
    upload directory after the request is exactly the directory before it,
    whatever the transcription calls returned. *)
Theorem url_request_restores_directory (env : Env) (data : gmap string pyval)
    (w : World) (audio_url : pyval) (cd : Z) (audio : Audio) :
  fresh_names env →
  (∀ n, export_fails env n = false) →
  data !! "audio_url" = Some audio_url →
  py_int (url_chunk_arg data) = Ok cd →
  cd ≠ 0 →
  download env audio_url = Some (Decodable audio) →
  status (fst (transcribe_audio_url env (JsonDict data) w)) = 500
  ∧ fs (snd (transcribe_audio_url env (JsonDict data) w)) = fs w.
Proof.
  intros Hfresh Hexp Hurl Hcd Hne Hget.
  rewrite (url_request_staged _ _ _ _ _ _ Hfresh Hurl Hcd Hget).
  set (temp_file := mktemp env (dom (fs w))).
  set (ws := set_fs w _).
  assert (∃ temp_files w1, split_audio env temp_file cd ws = (Ok temp_files, w1))
    as (temp_files & w1 & Hsplit).
  { rewrite split_audio_unfold. subst ws. simpl. rewrite lookup_insert_eq.
    unfold py_range. replace (cd * 1000 =? 0) with false
      by (symmetry; apply Z.eqb_neq; lia).
    by apply split_loop_total. }
  destruct (url_pipeline_split_ok _ _ _ _ _ _ Hsplit)
    as (res & w' & Hrun & Hfs & Hres).
  unfold outer_try. rewrite Hrun.
  assert (Hsame : fs w' = fs w).
  { rewrite Hfs. subst ws. simpl. rewrite delete_insert_eq.
    apply delete_id, not_elem_of_dom, Hfresh. }
  destruct Hres as [-> | [e ->]]; by simpl.
Qed.

Lemma url_request_restores_directory_witness :
  status (fst (transcribe_audio_url sample_env sample_url_request littered_world)) = 500
  ∧ fs (snd (transcribe_audio_url sample_env sample_url_request littered_world))
    = fs littered_world.
Proof.
  apply (url_request_restores_directory sample_env
           {[ "audio_url" := PyStr "http://host/talk.wav"; "chunk_duration" := PyInt 30 ]}
           littered_world (PyStr "http://host/talk.wav") 30 sample_audio).
  - intros X. apply is_fresh.
  - intros n. reflexivity.
  - reflexivity.
  - reflexivity.
  - lia.
  - reflexivity.
Defined.
